(** * Facial-affect core of the depression-detection server

    A shallow embedding of the numerical core under
    [server/ai_models/core]: the two action-unit (AU) classifiers with their
    baseline calibration and temporal smoothing, the landmark features and
    the micro-expression classifier of the basic one, the rule based emotion
    recogniser and its time-window analyser, the genuineness analyser, the
    temporal trend analyser with its attention weights and the two PHQ-9
    scorers, followed by the properties established for them.

    Conventions of the embedding.
    - Python floats are modelled by exact rationals ([Q]); float literals
      keep their decimal spelling.  Comparisons are the boolean tests of the
      source ([>], [<], [>=], [!=]).  The calibration progress of the
      advanced classifier, an integer cut out of a double, is computed in
      binary64 ([Py64]).
    - A [collections.deque(maxlen=n)] is a list whose oldest element is
      dropped on overflow ([Py.deque_append]).
    - Dictionaries over a closed key set (the AU tables) are total functions
      on an enumeration; open dictionaries read with [.get(key, default)]
      are association lists or records of optional fields.
    - Wall-clock readings ([time.time()], [datetime.now()]) are explicit
      arguments; timing statistics are not part of the model.
    - Square roots are outside [Q]: the classifiers take the AU feature
      vector as their input, and the feature extraction of the basic
      detector takes [np.sqrt] as a parameter. *)

From Stdlib Require Import String.
From Stdlib Require Import QArith Qabs Qround ZArith List Bool Arith Lia Lqa.
From Stdlib Require SpecFloat.
Import ListNotations.
Open Scope string_scope.
Open Scope list_scope.
Open Scope Q_scope.

(** ** Python helpers *)

Module Py.

(** [x > y], [x < y], [x >= y], [x != y] on floats. *)
Definition Qgtb (x y : Q) : bool := negb (Qle_bool x y).
Definition Qltb (x y : Q) : bool := negb (Qle_bool y x).
Definition Qgeb (x y : Q) : bool := Qle_bool y x.
Definition Qneqb (x y : Q) : bool := negb (Qeq_bool x y).

(** [sum(l)] on floats and [sum(l)] on booleans. *)
Fixpoint Qsum (l : list Q) : Q :=
  match l with
  | [] => 0
  | x :: r => x + Qsum r
  end.

Fixpoint count_true (l : list bool) : nat :=
  match l with
  | [] => O
  | b :: r => ((if b then 1 else 0) + count_true r)%nat
  end.

Definition Qlen {A : Type} (l : list A) : Q := inject_Z (Z.of_nat (length l)).

(** [np.mean(l)]; the callers below only apply it to non-empty lists. *)
Definition mean (l : list Q) : Q := Qsum l / Qlen l.

(** [l[-n:]] for a positive [n]. *)
Definition lastn {A : Type} (n : nat) (l : list A) : list A :=
  skipn (length l - n) l.

(** [d.append(x)] on a [deque(maxlen=maxlen)]. *)
Definition deque_append {A : Type} (maxlen : nat) (d : list A) (x : A) : list A :=
  lastn maxlen (d ++ [x]).

(** [d.get(k, default)] on an association list. *)
Fixpoint lookup {V : Type} (k : string) (d : list (string * V)) : option V :=
  match d with
  | [] => None
  | (k', v) :: r => if String.eqb k k' then Some v else lookup k r
  end.

Definition get {V : Type} (o : option V) (default : V) : V :=
  match o with
  | Some v => v
  | None => default
  end.

(** [x in l] for strings. *)
Definition mem (x : string) (l : list string) : bool :=
  existsb (String.eqb x) l.

(** [min(x, y)] on floats: the first argument unless the second is smaller. *)
Definition Qmin2 (x y : Q) : Q := if Qltb y x then y else x.

(** [len(l) // 2]. *)
Definition half_len {A : Type} (l : list A) : nat := Nat.div2 (length l).

(** Majority vote of the smoothers: [sum(h) >= len(h) // 2]. *)
Definition vote (h : list bool) : bool := (half_len h <=? count_true h)%nat.

(** [n] successive [d.append(x)] of the same value. *)
Definition push_many {A : Type} (maxlen : nat) (d : list A) (x : A) (n : nat) : list A :=
  Nat.iter n (fun d' => deque_append maxlen d' x) d.

End Py.

(** ** Doubles *)

(** IEEE binary64 with rounding to nearest even, for the expressions whose
    integer result depends on how a double is rounded. *)
Module Py64.

Definition prec : Z := 53%Z.
Definition emax : Z := 1024%Z.

(** [float(n)] for an integer [n]. *)
Definition of_Z (n : Z) : SpecFloat.spec_float :=
  SpecFloat.binary_normalize prec emax n 0%Z false.

(** [x / y] and [x * y].  On two integers below 2^53 the true division of
    Python is the division of their doubles. *)
Definition div (x y : SpecFloat.spec_float) : SpecFloat.spec_float :=
  SpecFloat.SFdiv prec emax x y.

Definition mul (x y : SpecFloat.spec_float) : SpecFloat.spec_float :=
  SpecFloat.SFmul prec emax x y.

(** [int(x)]: truncation towards zero.  Python raises on an infinity or a
    NaN; the caller below never passes one. *)
Definition int (x : SpecFloat.spec_float) : Z :=
  match x with
  | SpecFloat.S754_finite s m e =>
      let magnitude :=
        if (0 <=? e)%Z then (Zpos m * 2 ^ e)%Z else (Zpos m / 2 ^ (- e))%Z in
      if s then (- magnitude)%Z else magnitude
  | _ => 0%Z
  end.

End Py64.

(** ** [au_detector.py]: class [AUDetector] *)

Module AUDetector.

Inductive AU : Set :=
| AU1 | AU2 | AU4 | AU5 | AU6 | AU7 | AU9
| AU12 | AU15 | AU17 | AU20 | AU25 | AU26 | AU43.

Definition AU_eq_dec (a b : AU) : {a = b} + {a <> b}.
Proof. decide equality. Defined.

Definition all_AUs : list AU :=
  [AU1; AU2; AU4; AU5; AU6; AU7; AU9; AU12; AU15; AU17; AU20; AU25; AU26; AU43].

Definition AU_THRESHOLDS (au : AU) : Q :=
  match au with
  | AU1 => 0.08 | AU2 => 0.10 | AU4 => 0.08 | AU5 => 0.12
  | AU6 => 0.06 | AU7 => 0.10 | AU9 => 0.08 | AU12 => 0.05
  | AU15 => 0.05 | AU17 => 0.07 | AU20 => 0.08 | AU25 => 0.10
  | AU26 => 0.15 | AU43 => 0.12
  end.

(** The feature dictionary returned by [_calculate_au_features]: an AU is
    absent when its landmark group is too short. *)
Definition Features := AU -> option Q.

Record State := mkState {
  baseline_frames : nat;
  baseline : AU -> option Q;
  baseline_buffer : AU -> list Q;
  baseline_calibrated : bool;
  au_history : AU -> list bool          (* deque(maxlen=5) per AU *)
}.

Definition init (frames : nat) : State :=
  mkState frames (fun _ => None) (fun _ => []) false (fun _ => []).

(** [len(self.baseline)]. *)
Definition baseline_size (b : AU -> option Q) : nat :=
  length (filter (fun au => match b au with Some _ => true | None => false end) all_AUs).

Definition _update_baseline (st : State) (au_features : Features) : State :=
  let buffer' := fun au =>
    match au_features au with
    | Some value => baseline_buffer st au ++ [value]
    | None => baseline_buffer st au
    end in
  let baseline' := fun au =>
    match au_features au with
    | Some _ =>
        if (baseline_frames st <=? length (buffer' au))%nat
        then Some (Py.mean (buffer' au))
        else baseline st au
    | None => baseline st au
    end in
  mkState (baseline_frames st) baseline' buffer'
          (if (length all_AUs <=? baseline_size baseline')%nat
           then true else baseline_calibrated st)
          (au_history st).

(** The relative deviation computed in the loop of [detect]. *)
Definition relative_intensity (feature_value baseline_value : Q) : Q :=
  if Py.Qneqb baseline_value 0
  then (feature_value - baseline_value) / Qabs baseline_value
  else 0.

Definition raw_activated (au : AU) (intensity : Q) : bool :=
  Py.Qgtb (Qabs intensity) (AU_THRESHOLDS au).

Record Result := mkResult {
  au_activations : AU -> option bool;
  au_intensities : AU -> option Q;
  micro_expressions : list string
}.

Definition act (a : AU -> option bool) (au : AU) : bool := Py.get (a au) false.

Definition _classify_micro_expressions (a : AU -> option bool) : list string :=
  (if act a AU6 && act a AU12 then ["genuine_smile"]
   else if act a AU12 && negb (act a AU6) then ["fake_smile"] else [])
  ++ (if act a AU1 && act a AU15 then ["sadness"] else [])
  ++ (if act a AU1 && act a AU4 then ["worry"] else [])
  ++ (if act a AU4 && act a AU7 then ["anger"] else [])
  ++ (if act a AU9 && act a AU7 then ["disgust"] else [])
  ++ (if act a AU1 && act a AU2 && act a AU5 then ["fear"] else [])
  ++ (if act a AU1 && act a AU2 && act a AU26 then ["surprise"] else [])
  ++ (if act a AU43 then ["fatigue"] else []).

(** The baseline an AU of the frame is compared with:
    [self.baseline.get(au_name, feature_value)]. *)
Definition baseline_value (st : State) (au : AU) (feature_value : Q) : Q :=
  Py.get (baseline st au) feature_value.

(** [detect].  The body of the loop over [au_features.items()] touches
    only the entries of its own AU, so the loop is written entry by entry:
    each dictionary it fills is a function of the AU. *)
Definition detect (st : State) (au_features : Features) : Result * State :=
  let st1 := if baseline_calibrated st then st else _update_baseline st au_features in
  let intensity := fun au =>
    match au_features au with
    | Some f => Some (relative_intensity f (baseline_value st1 au f))
    | None => None
    end in
  let history' := fun au =>
    match intensity au with
    | Some i => Py.deque_append 5 (au_history st1 au) (raw_activated au i)
    | None => au_history st1 au
    end in
  let activations := fun au =>
    match intensity au with
    | Some _ => Some (Py.vote (history' au))
    | None => None
    end in
  (mkResult activations intensity (_classify_micro_expressions activations),
   mkState (baseline_frames st1) (baseline st1) (baseline_buffer st1)
           (baseline_calibrated st1) history').

Definition reset_baseline (st : State) : State :=
  mkState (baseline_frames st) (fun _ => None) (fun _ => []) false (au_history st).

(** The calls a session makes on a detector, and their effect on its
    state, oldest call first. *)
Inductive Call :=
| Detect (au_features : Features)
| ResetBaseline.

Definition step (st : State) (c : Call) : State :=
  match c with
  | Detect f => snd (detect st f)
  | ResetBaseline => reset_baseline st
  end.

Definition run (st : State) (calls : list Call) : State := fold_left step calls st.

End AUDetector.

(** ** [au_detector_advanced.py]: class [AdvancedAUDetector] *)

Module AdvancedAUDetector.

(** The keys of [AU_DEFINITIONS] (and of [INITIAL_THRESHOLDS]). *)
Inductive AU : Set :=
| AU1 | AU2 | AU4 | AU5 | AU6 | AU7 | AU9 | AU10 | AU12
| AU14 | AU15 | AU17 | AU20 | AU23 | AU24 | AU25 | AU26 | AU43.

Definition AU_eq_dec (a b : AU) : {a = b} + {a <> b}.
Proof. decide equality. Defined.

Definition all_AUs : list AU :=
  [AU1; AU2; AU4; AU5; AU6; AU7; AU9; AU10; AU12;
   AU14; AU15; AU17; AU20; AU23; AU24; AU25; AU26; AU43].

Definition INITIAL_THRESHOLDS (au : AU) : Q :=
  match au with
  | AU1 => 0.06 | AU2 => 0.08 | AU4 => 0.06 | AU5 => 0.10
  | AU6 => 0.04 | AU7 => 0.08 | AU9 => 0.06 | AU10 => 0.07
  | AU12 => 0.03 | AU14 => 0.05 | AU15 => 0.03 | AU17 => 0.05
  | AU20 => 0.06 | AU23 => 0.06 | AU24 => 0.07 | AU25 => 0.08
  | AU26 => 0.12 | AU43 => 0.10
  end.

(** [_extract_68point_features] fills every key, so the feature vector
    is total. *)
Definition Features := AU -> Q.

Record AUResult := mkAUResult {
  activated : bool;            (* smoothed activation *)
  intensity : Q;               (* smoothed intensity *)
  raw_value : Q;
  res_baseline : Q;
  relative_change : Q
}.

Record State := mkState {
  baseline_frames : nat;
  adaptive_threshold : bool;
  smoothing_window : nat;
  thresholds : AU -> Q;
  baseline : AU -> option Q;
  baseline_buffer : AU -> list Q;          (* deque(maxlen=baseline_frames) *)
  baseline_calibrated : bool;
  calibration_progress : Z;
  au_intensity_history : AU -> list Z;     (* deque(maxlen=smoothing_window) *)
  au_activation_history : AU -> list bool; (* deque(maxlen=smoothing_window) *)
  micro_expression_buffer : list (AU -> AUResult);  (* deque(maxlen=30) *)
  frame_count : nat;
  au_activation_counts : AU -> nat
}.

Definition init (frames : nat) (adaptive : bool) (window : nat) : State :=
  mkState frames adaptive window INITIAL_THRESHOLDS (fun _ => None) (fun _ => [])
          false 0%Z (fun _ => []) (fun _ => []) [] O (fun _ => O).

(** The constructor's defaults: 50 baseline frames, adaptive thresholds,
    a smoothing window of 7. *)
Definition default : State := init 50 true 7.

(** [np.median]: middle of the sorted samples, the mean of the two middle
    ones for an even count. *)
Fixpoint insert_sorted (x : Q) (l : list Q) : list Q :=
  match l with
  | [] => [x]
  | y :: r => if Qle_bool x y then x :: l else y :: insert_sorted x r
  end.

Definition sorted (l : list Q) : list Q := fold_right insert_sorted [] l.

Definition median (l : list Q) : Q :=
  let s := sorted l in
  let n := length s in
  if Nat.even n
  then (nth (n / 2 - 1) s 0 + nth (n / 2) s 0) / 2
  else nth (n / 2) s 0.

Definition _calculate_intensity (relative_change : Q) : Z :=
  if Py.Qltb relative_change 0.02 then 0%Z
  else if Py.Qltb relative_change 0.05 then 1%Z
  else if Py.Qltb relative_change 0.10 then 2%Z
  else if Py.Qltb relative_change 0.20 then 3%Z
  else if Py.Qltb relative_change 0.35 then 4%Z
  else 5%Z.

(** [int((total_frames / max_frames) * 100)]: the quotient of the two
    integers and its product with 100 are doubles.  The division is
    reached only while a buffer is short of [baseline_frames], so
    [max_frames] is positive there. *)
Definition progress_percent (total_frames max_frames : nat) : Z :=
  Py64.int (Py64.mul (Py64.div (Py64.of_Z (Z.of_nat total_frames))
                               (Py64.of_Z (Z.of_nat max_frames)))
                     (Py64.of_Z 100)).

Definition _update_baseline (st : State) (au_features : Features) : State :=
  let buffer' := fun au =>
    Py.deque_append (baseline_frames st) (baseline_buffer st au) (au_features au) in
  let complete :=
    forallb (fun au => (baseline_frames st <=? length (buffer' au))%nat) all_AUs in
  let total_frames :=
    fold_right (fun au n => (length (buffer' au) + n)%nat) O all_AUs in
  let max_frames := (length all_AUs * baseline_frames st)%nat in
  mkState (baseline_frames st) (adaptive_threshold st) (smoothing_window st)
          (thresholds st)
          (if complete then fun au => Some (median (buffer' au)) else baseline st)
          buffer'
          (if complete then true else baseline_calibrated st)
          (if complete then 100%Z else progress_percent total_frames max_frames)
          (au_intensity_history st) (au_activation_history st)
          (micro_expression_buffer st) (frame_count st) (au_activation_counts st).

(** The guarded relative change of [detect]. *)
Definition relative_change_of (feature_value baseline_value : Q) : Q :=
  if Py.Qgtb (Qabs baseline_value) 1e-6
  then (feature_value - baseline_value) / Qabs baseline_value
  else 0.

Definition Zmean (l : list Z) : Q := Py.mean (map inject_Z l).

(** [np.clip(x, lo, hi)]. *)
Definition np_clip (x lo hi : Q) : Q :=
  let m := if Py.Qltb x lo then lo else x in
  if Py.Qgtb m hi then hi else m.

(** One iteration of the loop of [_adapt_thresholds]. *)
Definition adapt_one (frame_count count : nat) (initial threshold : Q) : Q :=
  if (frame_count <? 100)%nat then threshold
  else
    let activation_rate := inject_Z (Z.of_nat count) / inject_Z (Z.of_nat frame_count) in
    let t := if Py.Qgtb activation_rate 0.5 then threshold * 1.01
             else if Py.Qltb activation_rate 0.05 then threshold * 0.99
             else threshold in
    np_clip t (initial * 0.5) (initial * 2.0).

Definition _adapt_thresholds (frame_count : nat) (counts : AU -> nat)
           (thr : AU -> Q) : AU -> Q :=
  fun au => adapt_one frame_count (counts au) (INITIAL_THRESHOLDS au) (thr au).

Record MicroExpression := mkMicro {
  micro_au : AU;
  micro_intensity : Q;
  micro_duration : Q
}.

Fixpoint Qmaximum (x : Q) (l : list Q) : Q :=
  match l with
  | [] => x
  | y :: r => Qmaximum (if Py.Qgtb y x then y else x) r
  end.

(** [_detect_micro_expressions], given the buffer after the append. *)
Definition _detect_micro_expressions (buffer : list (AU -> AUResult))
  : list MicroExpression :=
  if (length buffer <? 10)%nat then []
  else
    flat_map (fun au =>
      let recent_intensities := map (fun frame => intensity (frame au)) (Py.lastn 10 buffer) in
      match recent_intensities with
      | [] => []
      | i0 :: rest =>
          let max_intensity := Qmaximum i0 rest in
          let avg_intensity :=
            Py.mean (firstn 5 recent_intensities ++ Py.lastn 5 recent_intensities) in
          if Py.Qgtb max_intensity 3 && Py.Qgtb max_intensity (avg_intensity * 2)
          then [mkMicro au max_intensity (Py.Qlen recent_intensities / 30.0)]
          else []
      end) all_AUs.

Record Result := mkResult {
  au_results : AU -> AUResult;
  micro_expressions : list MicroExpression;
  res_baseline_calibrated : bool;
  res_calibration_progress : Z
}.

Definition au_activations (r : Result) (au : AU) : bool := activated (au_results r au).
Definition au_intensities (r : Result) (au : AU) : Q := intensity (au_results r au).

(** [detect], with the loop over the AUs written entry by entry as for
    the basic detector; the counters and thresholds are updated in the
    order of the source (counts inside the loop, thresholds after the
    micro-expression scan). *)
Definition detect (st : State) (au_features : Features) : Result * State :=
  let frame_count' := S (frame_count st) in
  let st1 := if baseline_calibrated st then st else _update_baseline st au_features in
  let base := fun au => Py.get (baseline st1 au) (au_features au) in
  let change := fun au => relative_change_of (au_features au) (base au) in
  let intensity_history' := fun au =>
    Py.deque_append (smoothing_window st1) (au_intensity_history st1 au)
                    (_calculate_intensity (Qabs (change au))) in
  let activation_history' := fun au =>
    Py.deque_append (smoothing_window st1) (au_activation_history st1 au)
                    (Py.Qgtb (Qabs (change au)) (thresholds st1 au)) in
  let results := fun au =>
    mkAUResult (Py.vote (activation_history' au)) (Zmean (intensity_history' au))
               (au_features au) (base au) (change au) in
  let counts' := fun au =>
    if activated (results au) then S (au_activation_counts st1 au)
    else au_activation_counts st1 au in
  let buffer' := Py.deque_append 30 (micro_expression_buffer st1) results in
  let thresholds' :=
    if adaptive_threshold st1 && baseline_calibrated st1
    then _adapt_thresholds frame_count' counts' (thresholds st1)
    else thresholds st1 in
  (mkResult results (_detect_micro_expressions buffer')
            (baseline_calibrated st1) (calibration_progress st1),
   mkState (baseline_frames st1) (adaptive_threshold st1) (smoothing_window st1)
           thresholds' (baseline st1) (baseline_buffer st1)
           (baseline_calibrated st1) (calibration_progress st1)
           intensity_history' activation_history' buffer' frame_count' counts').

Definition reset_baseline (st : State) : State :=
  mkState (baseline_frames st) (adaptive_threshold st) (smoothing_window st)
          (thresholds st) (fun _ => None) (fun _ => []) false 0%Z
          (au_intensity_history st) (au_activation_history st)
          (micro_expression_buffer st) O (fun _ => O).

(** The calls a session makes on a detector, and their effect on its
    state, oldest call first. *)
Inductive Call :=
| Detect (au_features : Features)
| ResetBaseline.

Definition step (st : State) (c : Call) : State :=
  match c with
  | Detect f => snd (detect st f)
  | ResetBaseline => reset_baseline st
  end.

Definition run (st : State) (calls : list Call) : State := fold_left step calls st.

End AdvancedAUDetector.

(** ** [genuine_emotion_detector.py]: class [GenuineEmotionDetector] *)

Module GenuineEmotionDetector.

(** One entry of the [au_results] dictionary handed to the analyser. *)
Record AUEntry := mkEntry {
  active : bool;
  intensity : Q
}.

Definition AUResults := list (string * AUEntry).

(** The keys of [self.au_intensity_history], in the order of the source. *)
Inductive Tracked : Set := T_AU6 | T_AU12 | T_AU1 | T_AU4 | T_AU15.

Definition tracked_name (t : Tracked) : string :=
  match t with
  | T_AU6 => "AU6" | T_AU12 => "AU12" | T_AU1 => "AU1"
  | T_AU4 => "AU4" | T_AU15 => "AU15"
  end.

Definition all_tracked : list Tracked := [T_AU6; T_AU12; T_AU1; T_AU4; T_AU15].

(** [EMOTIONS[...]['key_aus']]; only consulted for the four negative
    emotions. *)
Definition key_aus (emotion : string) : list string :=
  if String.eqb emotion "happiness" then ["AU6"; "AU12"]
  else if String.eqb emotion "sadness" then ["AU1"; "AU4"; "AU15"]
  else if String.eqb emotion "anger" then ["AU4"; "AU7"; "AU23"]
  else if String.eqb emotion "fear" then ["AU1"; "AU2"; "AU5"; "AU20"]
  else if String.eqb emotion "disgust" then ["AU9"; "AU10"]
  else if String.eqb emotion "surprise" then ["AU1"; "AU2"; "AU5"; "AU26"]
  else [].

Record State := mkState {
  history_length : nat;
  onset_threshold : Q;
  offset_threshold : Q;
  emotion_history : list string;
  au_intensity_history : Tracked -> list Q;
  timestamp_history : list Q;
  current_emotion : string;
  emotion_start_time : option Q;
  emotion_duration : Q;
  genuine_count : nat;
  fake_count : nat;
  total_emotions : nat
}.

Definition init (history_length : nat) (onset offset : Q) : State :=
  mkState history_length onset offset [] (fun _ => []) []
          "neutral" None 0.0 O O O.

(** The constructor's defaults: 90 frames, both thresholds 0.3. *)
Definition default : State := init 90 0.3 0.3.

(** The indicators set by the smile and negative-emotion analyses.
    [_analyze_temporal_consistency] afterwards adds three more float
    entries to the same dictionary (one of them through [np.std]); they
    feed neither [is_genuine] nor the score and are not carried here. *)
Record Indicators := mkIndicators {
  duchenne_smile : option bool;
  au6_au12_ratio : option Q;
  duration_appropriate : option bool;
  duration : option Q;
  onset_natural : option bool;
  offset_natural : option bool;
  key_aus_active : option (list string);
  activation_ratio : option Q;
  average_intensity : option Q;
  intensity_appropriate : option bool;
  temporal_consistent : option bool
}.

Definition no_indicators : Indicators :=
  mkIndicators None None None None None None None None None None None.

Record Verdict := mkVerdict {
  emotion : string;
  is_genuine : bool;
  confidence : Q;
  genuineness_score : Q;
  indicators : Indicators;
  fake_probability : Q
}.

(** [np.diff] and [np.max(np.abs(...))]. *)
Fixpoint diff (l : list Q) : list Q :=
  match l with
  | x :: ((y :: _) as r) => (y - x) :: diff r
  | _ => []
  end.

Fixpoint max_abs (l : list Q) : Q :=
  match l with
  | [] => 0.0
  | x :: r => let m := max_abs r in if Py.Qgtb (Qabs x) m then Qabs x else m
  end.

Definition _check_onset_naturalness (st : State) (au : Tracked) : bool :=
  if (length (au_intensity_history st au) <? 10)%nat then true
  else
    let recent := Py.lastn 10 (au_intensity_history st au) in
    let changes := diff recent in
    let max_change := max_abs changes in
    Py.Qltb max_change (onset_threshold st).

Definition _check_offset_naturalness (st : State) (au : Tracked) : bool :=
  _check_onset_naturalness st au.

Fixpoint count_occ_string (x : string) (l : list string) : nat :=
  match l with
  | [] => O
  | y :: r => ((if String.eqb y x then 1 else 0) + count_occ_string x r)%nat
  end.

Definition _check_temporal_consistency (st : State) (emotion : string) : bool :=
  if (length (emotion_history st) <? 10)%nat then true
  else
    let recent := Py.lastn 10 (emotion_history st) in
    let consistency := inject_Z (Z.of_nat (count_occ_string emotion recent)) / Py.Qlen recent in
    Py.Qgtb consistency 0.7.

Definition entry_active (au_results : AUResults) (au : string) : bool :=
  match Py.lookup au au_results with Some e => active e | None => false end.

Definition entry_intensity (au_results : AUResults) (au : string) : Q :=
  match Py.lookup au au_results with Some e => intensity e | None => 0.0 end.

Definition _analyze_smile_genuineness (st : State) (au_results : AUResults) : Verdict :=
  let au6_active := entry_active au_results "AU6" in
  let au12_active := entry_active au_results "AU12" in
  let both_active := au6_active && au12_active in
  let au6_intensity := entry_intensity au_results "AU6" in
  let au12_intensity := entry_intensity au_results "AU12" in
  let ratio := if Py.Qgtb au12_intensity 0.5
               then au6_intensity / (au12_intensity + 1e-6) else 0.0 in
  let duration_ok :=
    if Py.Qgtb (emotion_duration st) 0
    then Qle_bool 0.5 (emotion_duration st) && Qle_bool (emotion_duration st) 4.0
    else true in
  let onset := _check_onset_naturalness st T_AU12 in
  let offset := _check_offset_naturalness st T_AU12 in
  let score :=
    0.0
    + (if both_active then 0.4 else if au12_active then 0.2 else 0)
    + (if Py.Qgtb ratio 0.6 then 0.3 else if Py.Qgtb ratio 0.3 then 0.15 else 0)
    + (if duration_ok then 0.1 else 0)
    + (if onset then 0.1 else 0)
    + (if offset then 0.1 else 0) in
  mkVerdict "happiness" (Py.Qgeb score 0.6) (Py.Qmin2 0.95 (score + 0.1)) score
            (mkIndicators (Some both_active) (Some ratio) (Some duration_ok)
                          (Some (emotion_duration st)) (Some onset) (Some offset)
                          None None None None None)
            (1.0 - score).

Definition _analyze_negative_emotion_genuineness (st : State) (emotion : string)
           (au_results : AUResults) : Verdict :=
  let keys := key_aus emotion in
  let active_key_aus := filter (entry_active au_results) keys in
  let activation_ratio :=
    match keys with
    | [] => 0.0
    | _ => Py.Qlen active_key_aus / Py.Qlen keys
    end in
  let intensities := map (entry_intensity au_results) active_key_aus in
  let avg_intensity := match intensities with [] => 0.0 | _ => Py.mean intensities end in
  let intensity_ok := Qle_bool 1.5 avg_intensity && Qle_bool avg_intensity 4.0 in
  let duration_ok :=
    if Py.Qgtb (emotion_duration st) 0 then Py.Qgeb (emotion_duration st) 0.5 else true in
  let consistent := _check_temporal_consistency st emotion in
  let score :=
    0.0
    + activation_ratio * 0.4
    + (if intensity_ok then 0.3 else if Py.Qgtb avg_intensity 0 then 0.15 else 0)
    + (if duration_ok then 0.15 else 0)
    + (if consistent then 0.15 else 0) in
  mkVerdict emotion (Py.Qgeb score 0.5) (Py.Qmin2 0.95 (score + 0.2)) score
            (mkIndicators None None (Some duration_ok) (Some (emotion_duration st))
                          None None (Some active_key_aus) (Some activation_ratio)
                          (Some avg_intensity) (Some intensity_ok) (Some consistent))
            (1.0 - score).

(** The bookkeeping at the head of [analyze]: histories, then the
    current-emotion tracking.  [if self.emotion_start_time:] is false for
    [None] and for a start time of exactly 0. *)
Definition track (st : State) (emotion : string) (au_results : AUResults)
           (timestamp : Q) : State :=
  let n := history_length st in
  let hist' := fun t =>
    Py.deque_append n (au_intensity_history st t)
      (match Py.lookup (tracked_name t) au_results with
       | Some e => intensity e
       | None => 0.0
       end) in
  let changed := negb (String.eqb emotion (current_emotion st)) in
  let start' := if changed then Some timestamp else emotion_start_time st in
  let duration' :=
    if changed then 0.0
    else match emotion_start_time st with
         | Some t0 => if Py.Qneqb t0 0 then timestamp - t0 else emotion_duration st
         | None => emotion_duration st
         end in
  mkState n (onset_threshold st) (offset_threshold st)
          (Py.deque_append n (emotion_history st) emotion)
          hist'
          (Py.deque_append n (timestamp_history st) timestamp)
          (if changed then emotion else current_emotion st)
          start' duration'
          (genuine_count st) (fake_count st) (total_emotions st).

Definition analyze (st : State) (emotion : string) (au_results : AUResults)
           (timestamp : Q) : Verdict * State :=
  let st1 := track st emotion au_results timestamp in
  let result :=
    if String.eqb emotion "happiness" then _analyze_smile_genuineness st1 au_results
    else if Py.mem emotion ["sadness"; "anger"; "fear"; "disgust"]
    then _analyze_negative_emotion_genuineness st1 emotion au_results
    else mkVerdict emotion true 0.5 0.5 no_indicators 0.5 in
  (result,
   mkState (history_length st1) (onset_threshold st1) (offset_threshold st1)
           (emotion_history st1) (au_intensity_history st1) (timestamp_history st1)
           (current_emotion st1) (emotion_start_time st1) (emotion_duration st1)
           (if is_genuine result then S (genuine_count st1) else genuine_count st1)
           (if is_genuine result then fake_count st1 else S (fake_count st1))
           (S (total_emotions st1))).

(** A micro-expression event as read by [detect_concealed_depression]:
    only its optional ['emotion'] entry matters. *)
Record MicroEvent := mkMicroEvent { micro_emotion : option string }.

Definition micro_label (m : MicroEvent) : string := Py.get (micro_emotion m) "neutral".

(** [micro_emotion_counts.get(e, 0)] after the counting loop. *)
Definition micro_count (e : string) (micro_emotions : list MicroEvent) : nat :=
  count_occ_string e (map micro_label micro_emotions).

Record Concealed := mkConcealed {
  concealed_depression_detected : bool;
  inconsistency_score : Q;
  macro_emotion : string;
  hidden_emotions : list string;
  risk_level : string
}.

Definition detect_concealed_depression (macro : string)
           (micro_emotions : list MicroEvent) : Concealed :=
  let hidden :=
    if Py.mem macro ["happiness"; "neutral"]
    then filter (fun e => (0 <? micro_count e micro_emotions)%nat)
                ["sadness"; "fear"; "anger"]
    else [] in
  let detected := match hidden with [] => false | _ => true end in
  (* sum(micro_emotion_counts.values()) is the number of events *)
  let total_micro := length micro_emotions in
  let score :=
    if (0 <? total_micro)%nat
    then inject_Z (Z.of_nat (fold_right (fun e n => (micro_count e micro_emotions + n)%nat)
                                        O hidden))
         / inject_Z (Z.of_nat total_micro)
    else 0.0 in
  mkConcealed detected score macro hidden
              (if Py.Qgeb score 0.6 then "high"
               else if Py.Qgeb score 0.3 then "moderate" else "low").

End GenuineEmotionDetector.

(** ** [emotion_recognizer.py]: class [EmotionRecognizer] *)

Module EmotionRecognizer.

Definition EMOTIONS : list string :=
  ["angry"; "disgust"; "fear"; "happy"; "sad"; "surprise"; "neutral"].

(** A dictionary keyed by [EMOTIONS], in that order. *)
Definition Dist := list (string * Q).

Definition values (d : Dist) : list Q := map snd d.

Definition prob (d : Dist) (e : string) : Q := Py.get (Py.lookup e d) 0.

(** [d[k] = v] on an existing key. *)
Fixpoint set (k : string) (v : Q) (d : Dist) : Dist :=
  match d with
  | [] => []
  | (k', v') :: r => if String.eqb k k' then (k', v) :: r else (k', v') :: set k v r
  end.

(** [d[k] += v]. *)
Definition add (k : string) (v : Q) (d : Dist) : Dist := set k (prob d k + v) d.

Definition zeros : Dist := map (fun e => (e, 0.0)) EMOTIONS.

(** The AU detector output consumed by the recogniser. *)
Record AUData := mkAUData {
  au_activations : list (string * bool);
  micro_expressions : list string
}.

Definition au (d : AUData) (name : string) : bool :=
  Py.get (Py.lookup name (au_activations d)) false.

Definition expression_emotion_map : list (string * string) :=
  [("genuine_smile", "happy"); ("fake_smile", "neutral"); ("sadness", "sad");
   ("worry", "sad"); ("anger", "angry"); ("disgust", "disgust");
   ("fear", "fear"); ("surprise", "surprise")].

Record Recognition := mkRecognition {
  emotion : string;
  confidence : Q;
  probabilities : Dist;
  method : string;
  smoothed_emotion : option string
}.

(** [max(d, key=d.get)]: the first key holding the largest value. *)
Fixpoint argmax_from (best : string) (bv : Q) (d : Dist) : string :=
  match d with
  | [] => best
  | (k, v) :: r => if Py.Qgtb v bv then argmax_from k v r else argmax_from best bv r
  end.

Definition argmax (d : Dist) : string :=
  match d with
  | [] => ""
  | (k, v) :: r => argmax_from k v r
  end.

Definition count_bools (l : list bool) : nat := Py.count_true l.

Definition emotion_scores (d : AUData) : Dist :=
  let s0 :=
    fold_left (fun s expr =>
                 match Py.lookup expr expression_emotion_map with
                 | Some mapped => add mapped 0.3 s
                 | None => s
                 end) (micro_expressions d) zeros in
  let s1 := if au d "AU6" && au d "AU12" then add "happy" 0.4 s0
            else if au d "AU12" then add "happy" 0.2 s0 else s0 in
  let s2 := if au d "AU1" && au d "AU15" then add "sad" 0.4 s1 else s1 in
  let s3 := if au d "AU4" then add "sad" 0.1 s2 else s2 in
  let s4 := if au d "AU4" && au d "AU7" then add "angry" 0.4 s3 else s3 in
  let s5 := if au d "AU9" && au d "AU7" then add "disgust" 0.4 s4
            else if au d "AU9" then add "disgust" 0.2 s4 else s4 in
  let fear_count := count_bools [au d "AU1"; au d "AU2"; au d "AU5"; au d "AU20"] in
  let s6 := if (3 <=? fear_count)%nat then add "fear" 0.4 s5
            else if (2 <=? fear_count)%nat then add "fear" 0.2 s5 else s5 in
  let surprise_count := count_bools [au d "AU1"; au d "AU2"; au d "AU5"; au d "AU26"] in
  if (3 <=? surprise_count)%nat then add "surprise" 0.4 s6
  else if (2 <=? surprise_count)%nat then add "surprise" 0.2 s6 else s6.

Definition _recognize_by_au (d : AUData) : Recognition :=
  let scores := emotion_scores d in
  let total_score := Py.Qsum (values scores) in
  let probabilities :=
    if Py.Qgtb total_score 0
    then map (fun es => (fst es, snd es / total_score)) scores
    else set "neutral" 1.0 zeros in
  let emotion := argmax probabilities in
  mkRecognition emotion (prob probabilities emotion) probabilities "au" None.

(** [_recognize_by_simple_rule]; the image enters through the mean of its
    grey levels, the only quantity the rule reads. *)
Definition _recognize_by_simple_rule (mean_brightness : Q) : Recognition :=
  let emotion :=
    if Py.Qgtb mean_brightness 150 then "happy"
    else if Py.Qltb mean_brightness 80 then "sad"
    else "neutral" in
  let p1 := set emotion 0.6 zeros in
  let p2 := set "neutral" (0.4 - prob p1 emotion * 0.4) p1 in
  mkRecognition emotion 0.6 p2 "simple_rule" None.

(** [_recognize_by_model]; [outputs] is the row returned by the ONNX
    session for the image. *)
Fixpoint argmax_index_from (i best : nat) (bv : Q) (l : list Q) : nat :=
  match l with
  | [] => best
  | v :: r => if Py.Qgtb v bv then argmax_index_from (S i) i v r
              else argmax_index_from (S i) best bv r
  end.

Definition np_argmax (l : list Q) : nat :=
  match l with
  | [] => O
  | v :: r => argmax_index_from 1 O v r
  end.

Definition _recognize_by_model (outputs : list Q) : Recognition :=
  let emotion_idx := np_argmax outputs in
  mkRecognition (nth emotion_idx EMOTIONS "") (nth emotion_idx outputs 0)
                (combine EMOTIONS outputs) "model" None.

Definition _fuse_with_au (model_result : Recognition) (d : AUData) : Recognition :=
  let au_result := _recognize_by_au d in
  let fused := map (fun e => (e, prob (probabilities model_result) e * 0.7
                                 + prob (probabilities au_result) e * 0.3)) EMOTIONS in
  let emotion := argmax fused in
  mkRecognition emotion (prob fused emotion) fused "fusion" None.

(** Label counts in first-occurrence order, as the dictionary built by
    [_temporal_smoothing] holds them. *)
Fixpoint count_label (x : string) (l : list string) : Q :=
  match l with
  | [] => 0
  | y :: r => (if String.eqb y x then 1 else 0) + count_label x r
  end.

Fixpoint first_occurrences (seen l : list string) : list string :=
  match l with
  | [] => []
  | x :: r => if Py.mem x seen then first_occurrences seen r
              else x :: first_occurrences (x :: seen) r
  end.

Definition emotion_counts (labels : list string) : Dist :=
  map (fun e => (e, count_label e labels)) (first_occurrences [] labels).

(** The state is [self.emotion_history], a [deque(maxlen=10)]. *)
Definition _temporal_smoothing (history : list Recognition) (result : Recognition)
  : Recognition * list Recognition :=
  let history' := Py.deque_append 10 history result in
  if (length history' <? 3)%nat then (result, history')
  else
    let smoothed := argmax (emotion_counts (map emotion history')) in
    (if negb (String.eqb smoothed (emotion result))
     then mkRecognition (emotion result) (confidence result) (probabilities result)
                        (method result) (Some smoothed)
     else result,
     history').

(** [recognize]: [model_outputs] is [Some] row when a model is loaded. *)
Definition recognize (use_au_fusion : bool) (history : list Recognition)
           (model_outputs : option (list Q)) (mean_brightness : Q)
           (au_data : option AUData) : Recognition * list Recognition :=
  let result :=
    match model_outputs, au_data with
    | Some outputs, _ => _recognize_by_model outputs
    | None, Some d => _recognize_by_au d
    | None, None => _recognize_by_simple_rule mean_brightness
    end in
  let result :=
    match au_data with
    | Some d =>
        if use_au_fusion && String.eqb (method result) "model"
        then _fuse_with_au result d else result
    | None => result
    end in
  _temporal_smoothing history result.

End EmotionRecognizer.

(** ** [clinical_assessor_medical.py]: class [MedicalGradeClinicalAssessor] *)

Module MedicalGradeClinicalAssessor.

(** The dictionaries handed to [assess]; every entry is read with
    [.get(key, default)], so every field is optional. *)
Record EmotionResult := mkEmotionResult {
  emotion : option string;
  confidence : option Q
}.

Record AUData := mkAUData {
  au_intensity : option Q;
  au_active : option bool
}.

Record AUResult := mkAUResult {
  aus : option (list (string * AUData));
  depression_score : option Q
}.

Record EyeAnalysis := mkEyeAnalysis {
  fatigue : option Q;
  blink_rate : option Q;
  gaze_duration : option Q;
  blink_irregularity : option Q
}.

Record GenuinenessResult := mkGenuinenessResult {
  indicators_duchenne_smile : option bool;   (* ['indicators']['duchenne_smile'] *)
  is_genuine : option bool;
  fake_probability : option Q
}.

Record MicroExpression := mkMicroExpression { micro_emotion : option string }.

Inductive Symptom : Set :=
| anhedonia | depressed_mood | sleep_problems | fatigue_symptom | appetite_changes
| low_self_worth | concentration_problems | psychomotor_changes | suicidal_thoughts.

Definition all_symptoms : list Symptom :=
  [anhedonia; depressed_mood; sleep_problems; fatigue_symptom; appetite_changes;
   low_self_worth; concentration_problems; psychomotor_changes; suicidal_thoughts].

(** [PHQ9_SYMPTOMS[s]['weight']]. *)
Definition weight (s : Symptom) : Q :=
  match s with
  | anhedonia => 1.2 | depressed_mood => 1.2 | sleep_problems => 1.0
  | fatigue_symptom => 1.0 | appetite_changes => 0.8 | low_self_worth => 1.1
  | concentration_problems => 0.9 | psychomotor_changes => 1.0
  | suicidal_thoughts => 1.5
  end.

(** [RISK_LEVELS], in dictionary order, with the inclusive score ranges. *)
Definition RISK_LEVELS : list (string * (Z * Z)) :=
  [("minimal", (0, 4)%Z); ("mild", (5, 9)%Z); ("moderate", (10, 14)%Z);
   ("moderately_severe", (15, 19)%Z); ("severe", (20, 27)%Z)].

Definition emotion_is (e : EmotionResult) (label : string) : bool :=
  match emotion e with
  | Some l => String.eqb l label
  | None => false
  end.

Definition au_data (a : AUResult) (name : string) : option AUData :=
  match aus a with
  | Some d => Py.lookup name d
  | None => None
  end.

(** [au_result.get('aus', {}).get(name, {}).get('intensity', 0)]. *)
Definition intensity_of (a : AUResult) (name : string) : Q :=
  match au_data a name with
  | Some d => Py.get (au_intensity d) 0
  | None => 0
  end.

Definition active_of (a : AUResult) (name : string) : bool :=
  match au_data a name with
  | Some d => Py.get (au_active d) false
  | None => false
  end.

(** [[au for au, data in aus.items() if data.get('active', False)]]. *)
Definition active_aus (a : AUResult) : list string :=
  map fst (filter (fun kv => Py.get (au_active (snd kv)) false) (Py.get (aus a) [])).

Definition min3 (score : Z) : Z := Z.min 3 score.

Definition b2z (b : bool) (points : Z) : Z := if b then points else 0%Z.

Definition _assess_sleep_problems (eye : EyeAnalysis) : Z :=
  let f := Py.get (fatigue eye) 0 in
  let score := (if Py.Qgtb f 0.6 then 2 else if Py.Qgtb f 0.3 then 1 else 0)%Z in
  let rate := Py.get (blink_rate eye) 15 in
  min3 (score + b2z (Py.Qltb rate 10 || Py.Qgtb rate 30) 1).

Definition _assess_fatigue (eye : EyeAnalysis) (a : AUResult) : Z :=
  let f := Py.get (fatigue eye) 0 in
  let score := (if Py.Qgtb f 0.5 then 2 else if Py.Qgtb f 0.3 then 1 else 0)%Z in
  min3 (score + b2z (Py.Qgtb (intensity_of a "AU43") 2.0) 1).

Definition _assess_self_worth (eye : EyeAnalysis) (a : AUResult) : Z :=
  let gaze := Py.get (gaze_duration eye) 1.0 in
  min3 (b2z (Py.Qgtb gaze 3.0 || Py.Qltb gaze 0.5) 1
        + b2z (Py.Qgtb (Py.get (depression_score a) 0) 0.5) 1).

Definition _assess_concentration (eye : EyeAnalysis) : Z :=
  let gaze := Py.get (gaze_duration eye) 1.0 in
  min3 (b2z (Py.Qgtb gaze 3.0) 1
        + b2z (Py.Qgtb (Py.get (blink_irregularity eye) 0) 0.5) 1).

(** [len(set(labels))]; a missing ['emotion'] entry counts as the label
    [None]. *)
Definition option_string_eqb (x y : option string) : bool :=
  match x, y with
  | Some a, Some b => String.eqb a b
  | None, None => true
  | _, _ => false
  end.

Fixpoint distinct (l : list (option string)) : list (option string) :=
  match l with
  | [] => []
  | x :: r => x :: filter (fun y => negb (option_string_eqb x y)) (distinct r)
  end.

(** [emotion_history] is the deque after the current frame was appended. *)
Definition _assess_psychomotor (emotion_history : list EmotionResult) (a : AUResult) : Z :=
  let flat :=
    if (30 <=? length emotion_history)%nat
    then (length (distinct (map emotion (Py.lastn 30 emotion_history))) <=? 2)%nat
    else false in
  min3 (b2z (length (active_aus a) <? 3)%nat 1 + b2z flat 1).

Definition _assess_suicidal_risk (e : EmotionResult) (g : GenuinenessResult)
           (a : AUResult) : Z :=
  min3 (b2z (emotion_is e "sad" && Py.Qgtb (Py.get (confidence e) 0) 0.8) 1
        + b2z ((length (active_aus a) =? 0)%nat && emotion_is e "neutral") 1
        + b2z (negb (Py.get (is_genuine g) true)
               && Py.Qgtb (Py.get (fake_probability g) 0) 0.7) 1).

Fixpoint severity_lookup (levels : list (string * (Z * Z))) (total_score : Z)
  : string * string :=
  match levels with
  | [] => ("minimal", "minimal")
  | (level, (lo, hi)) :: r =>
      if ((lo <=? total_score) && (total_score <=? hi))%Z then (level, level)
      else severity_lookup r total_score
  end.

Definition _determine_severity (total_score : Z) : string * string :=
  severity_lookup RISK_LEVELS total_score.

Record PHQ9Scores := mkScores {
  scores : Symptom -> Z;
  total : Z;
  severity : string;
  risk_level : string
}.

Definition symptom_scores (emotion_history : list EmotionResult) (e : EmotionResult)
           (a : AUResult) (eye : EyeAnalysis) (g : GenuinenessResult) (s : Symptom) : Z :=
  match s with
  | anhedonia =>
      min3 (b2z (emotion_is e "sad" || emotion_is e "neutral") 1
            + b2z (negb (Py.get (indicators_duchenne_smile g) false)) 1
            + b2z (Py.Qltb (intensity_of a "AU6") 1.5
                   && Py.Qltb (intensity_of a "AU12") 1.5) 1)
  | depressed_mood =>
      let active_sad_aus :=
        Py.count_true (map (active_of a) ["AU1"; "AU4"; "AU15"]) in
      min3 ((if emotion_is e "sad" then 2 else if emotion_is e "neutral" then 1 else 0)
            + b2z (2 <=? active_sad_aus)%nat 1)
  | sleep_problems => _assess_sleep_problems eye
  | fatigue_symptom => _assess_fatigue eye a
  | appetite_changes => 0%Z
  | low_self_worth => _assess_self_worth eye a
  | concentration_problems => _assess_concentration eye
  | psychomotor_changes => _assess_psychomotor emotion_history a
  | suicidal_thoughts => _assess_suicidal_risk e g a
  end.

(** [int(x)] on a float truncates towards zero. *)
Definition py_int (x : Q) : Z :=
  if Qle_bool 0 x then Qfloor x else Qceiling x.

Definition _calculate_phq9_scores (emotion_history : list EmotionResult)
           (e : EmotionResult) (a : AUResult) (eye : EyeAnalysis)
           (g : GenuinenessResult) : PHQ9Scores :=
  let sc := symptom_scores emotion_history e a eye g in
  let weighted_total := Py.Qsum (map (fun s => inject_Z (sc s) * weight s) all_symptoms) in
  let max_weighted := Py.Qsum (map (fun s => 3 * weight s) all_symptoms) in
  let total_score := py_int (weighted_total / max_weighted * 27) in
  let '(severity, risk_level) := _determine_severity total_score in
  mkScores sc total_score severity risk_level.

Record Concealed := mkConcealed {
  detected : bool;
  inconsistency_score : Q;
  macro_emotion : string;
  negative_micro_count : nat;
  risk : string
}.

Definition micro_is_negative (m : MicroExpression) : bool :=
  match micro_emotion m with
  | Some l => Py.mem l ["sadness"; "fear"; "anger"]
  | None => false
  end.

Definition _detect_concealed_depression (e : EmotionResult)
           (micro_expressions : list MicroExpression) (g : GenuinenessResult)
  : Concealed :=
  let macro := Py.get (emotion e) "neutral" in
  let negative := length (filter micro_is_negative micro_expressions) in
  let s0 := 0.0 in
  let s1 := if Py.mem macro ["happiness"; "neutral"] && (0 <? negative)%nat
            then s0 + 0.4 else s0 in
  let s2 := if negb (Py.get (is_genuine g) true) then s1 + 0.3 else s1 in
  let s3 := s2 + Py.get (fake_probability g) 0 * 0.3 in
  mkConcealed (Py.Qgeb s3 0.5) s3 macro negative
              (if Py.Qgeb s3 0.7 then "high"
               else if Py.Qgeb s3 0.5 then "moderate" else "low").

(** [np.polyfit(x, scores, 1)[0]] for [x = 0, 1, ..., n-1]: the
    least-squares slope in closed form. *)
Fixpoint indexed_from (i : Z) (l : list Z) : list (Q * Q) :=
  match l with
  | [] => []
  | y :: r => (inject_Z i, inject_Z y) :: indexed_from (i + 1) r
  end.

Definition polyfit_slope (ys : list Z) : Q :=
  let pts := indexed_from 0 ys in
  let n := Py.Qlen ys in
  let sx := Py.Qsum (map fst pts) in
  let sy := Py.Qsum (map snd pts) in
  let sxy := Py.Qsum (map (fun p => fst p * snd p) pts) in
  let sxx := Py.Qsum (map (fun p => fst p * fst p) pts) in
  (n * sxy - sx * sy) / (n * sxx - sx * sx).

(** [_analyze_trend] over the totals already in [self.phq9_history]. *)
Definition _analyze_trend (trend_window : nat) (history_totals : list Z) : string :=
  if (length history_totals <? 2)%nat then "stable"
  else
    let recent := Py.lastn (Nat.min trend_window (length history_totals)) history_totals in
    if (3 <=? length recent)%nat
    then
      let slope := polyfit_slope recent in
      if Py.Qgtb slope 1.0 then "worsening"
      else if Py.Qltb slope (-1.0) then "improving" else "stable"
    else
      let first := hd 0%Z recent in
      let last := List.last recent 0%Z in
      if (first + 2 <? last)%Z then "worsening"
      else if (last <? first - 2)%Z then "improving" else "stable".

(** The recommendation strings, by their role. *)
Inductive Recommendation : Set :=
| rec_state_good | rec_mild | rec_moderate | rec_severe_see_doctor
| rec_crisis_hotline_number | rec_trend_worsening | rec_trend_improving
| rec_concealed | rec_suicide_call_hotline.

Definition _generate_recommendations (p : PHQ9Scores) (c : Concealed) (trend : string)
  : list Recommendation :=
  (if String.eqb (severity p) "minimal" then [rec_state_good]
   else if String.eqb (severity p) "mild" then [rec_mild]
   else if String.eqb (severity p) "moderate" then [rec_moderate]
   else if Py.mem (severity p) ["moderately_severe"; "severe"]
   then [rec_severe_see_doctor; rec_crisis_hotline_number]
   else [])
  ++ (if String.eqb trend "worsening" then [rec_trend_worsening]
      else if String.eqb trend "improving" then [rec_trend_improving] else [])
  ++ (if detected c then [rec_concealed] else [])
  ++ (if (1 <=? scores p suicidal_thoughts)%Z then [rec_suicide_call_hotline] else []).

(** The assessment returned by [assess].  The two entries derived from the
    base-2 logarithm ([expression_entropy], [depression_probability]) are
    outside [Q] and not carried; nothing else reads them. *)
Record Assessment := mkAssessment {
  phq9_scores : PHQ9Scores;
  total_score : Z;
  a_severity : string;
  a_risk_level : string;
  concealed_depression : Concealed;
  trend : string;
  recommendations : list Recommendation
}.

(** The assessor also appends each frame to [au_history], [eye_history],
    [genuineness_history] and [timestamp_history]; nothing reads them back,
    so the state keeps the two histories that are read. *)
Record State := mkState {
  history_length : nat;
  emotion_history : list EmotionResult;       (* deque(maxlen=history_length) *)
  phq9_history : list Assessment;
  trend_window : nat
}.

Definition init (history_length : nat) : State := mkState history_length [] [] 10.

Definition assess (st : State) (e : EmotionResult) (a : AUResult) (eye : EyeAnalysis)
           (g : GenuinenessResult) (micro_expressions : list MicroExpression)
  : Assessment * State :=
  let emotion_history' := Py.deque_append (history_length st) (emotion_history st) e in
  let p := _calculate_phq9_scores emotion_history' e a eye g in
  let c := _detect_concealed_depression e micro_expressions g in
  let t := _analyze_trend (trend_window st) (map total_score (phq9_history st)) in
  let r := _generate_recommendations p c t in
  let assessment := mkAssessment p (total p) (severity p) (risk_level p) c t r in
  (assessment,
   mkState (history_length st) emotion_history' (phq9_history st ++ [assessment])
           (trend_window st)).

End MedicalGradeClinicalAssessor.

(** ** [multimodal_assessor_advanced.py]: [AdvancedMultimodalAssessor._assess_risk] *)

Module AdvancedMultimodalAssessor.

(** [RISK_LEVELS], in dictionary order: [min_score <= score < max_score]. *)
Definition RISK_LEVELS : list (string * (Q * Q)) :=
  [("minimal", (0, 0.2)); ("mild", (0.2, 0.4)); ("moderate", (0.4, 0.6));
   ("moderately_severe", (0.6, 0.8)); ("severe", (0.8, 1.0))].

(** The [for ... else] over [RISK_LEVELS]: the first band that holds the
    score, ['severe'] when none does. *)
Fixpoint band (levels : list (string * (Q * Q))) (overall_score : Q) : string :=
  match levels with
  | [] => "severe"
  | (level, (min_score, max_score)) :: r =>
      if Qle_bool min_score overall_score && Py.Qltb overall_score max_score
      then level else band r overall_score
  end.

Record Risk := mkRisk {
  level : string;
  score : Q;
  risk_factors : list string
}.

(** [_assess_risk]; of [phq9_result] it reads ['total_score'] and
    [symptom_scores.get('suicidal_thoughts', 0)].  The description looked
    up from the level is not carried. *)
Definition _assess_risk (overall_score : Q) (total_score : Z)
           (suicidal_thoughts : option Z) : Risk :=
  let risk_level := band RISK_LEVELS overall_score in
  let suicidal := (0 <? Py.get suicidal_thoughts 0%Z)%Z in
  mkRisk (if suicidal then "severe" else risk_level)
         overall_score
         ((if (15 <=? total_score)%Z then ["high_phq9_score"] else [])
          ++ (if Py.Qgeb overall_score 0.7 then ["high_depression_indicators"] else [])
          ++ (if suicidal then ["suicidal_ideation"] else [])).

End AdvancedMultimodalAssessor.

(** ** [phq9_assessor.py]: class [PHQ9Assessor] *)

Module PHQ9Assessor.

Record EmotionRecord := mkEmotionRecord {
  emotion : option string;
  confidence : option Q;
  e_timestamp : Q
}.

Record AURecord := mkAURecord {
  au_activations : option (list (string * bool));
  micro_expressions : option (list string);
  a_timestamp : Q
}.

Record EyeRecord := mkEyeRecord {
  ear : option Q;
  blink : option bool;
  y_timestamp : Q
}.

Record TemporalRecord := mkTemporalRecord {
  emotion_change_rate : option Q;
  micro_expression_rate : option Q;
  t_timestamp : Q
}.

Record Items := mkItems {
  PHQ1 : Z; PHQ2 : Z; PHQ3 : Z; PHQ4 : Z; PHQ5 : Z;
  PHQ6 : Z; PHQ7 : Z; PHQ8 : Z; PHQ9 : Z
}.

Definition items_sum (i : Items) : Z :=
  (PHQ1 i + PHQ2 i + PHQ3 i + PHQ4 i + PHQ5 i + PHQ6 i + PHQ7 i + PHQ8 i + PHQ9 i)%Z.

(** The recommendation strings, by their role. *)
Inductive Recommendation : Set :=
| rec_none_1 | rec_none_2
| rec_mild_1 | rec_mild_2 | rec_mild_3 | rec_mild_4 | rec_mild_5
| rec_moderate_1 | rec_moderate_2 | rec_moderate_3 | rec_moderate_4 | rec_moderate_5
| rec_modsev_1 | rec_modsev_2 | rec_modsev_3 | rec_modsev_4 | rec_modsev_5
| rec_severe_1 | rec_severe_2 | rec_severe_3 | rec_severe_4
| rec_severe_crisis_line | rec_severe_hotline_number
| rec_sleep | rec_fatigue | rec_possible_suicidal_thoughts.

Record Assessment := mkAssessment {
  phq9_total_score : Z;
  phq9_severity : string;
  phq9_items : Items;
  clinical_recommendation : list Recommendation;
  assessment_confidence : Q;
  observation_frames : nat
}.

(** What [assess] returns: the ['status': 'insufficient_data'] dictionary
    or a full assessment. *)
Inductive Outcome :=
| insufficient_data
| assessed (a : Assessment).

Record State := mkState {
  observation_window : nat;
  emotion_history : list EmotionRecord;
  au_history : list AURecord;
  eye_history : list EyeRecord;
  temporal_features : list TemporalRecord;
  assessment_history : list Assessment
}.

Definition init (observation_window : nat) : State :=
  mkState observation_window [] [] [] [] [].

(** [update]; an argument is [None] for [None] or an empty dictionary,
    and each appended record carries the time of the call. *)
Definition update (st : State) (now : Q)
           (emotion_data : option (option string * option Q))
           (au_data : option (option (list (string * bool)) * option (list string)))
           (eye_data : option (option Q * option bool))
           (temporal_data : option (option Q * option Q)) : State :=
  let w := observation_window st in
  mkState w
    (match emotion_data with
     | Some (e, c) => Py.deque_append w (emotion_history st) (mkEmotionRecord e c now)
     | None => emotion_history st
     end)
    (match au_data with
     | Some (a, m) => Py.deque_append w (au_history st) (mkAURecord a m now)
     | None => au_history st
     end)
    (match eye_data with
     | Some (e, b) => Py.deque_append w (eye_history st) (mkEyeRecord e b now)
     | None => eye_history st
     end)
    (match temporal_data with
     | Some (c, m) => Py.deque_append w (temporal_features st) (mkTemporalRecord c m now)
     | None => temporal_features st
     end)
    (assessment_history st).

Definition count {A : Type} (p : A -> bool) (l : list A) : Q := Py.Qlen (filter p l).

Definition emotion_is (label : string) (r : EmotionRecord) : bool :=
  match emotion r with
  | Some l => String.eqb l label
  | None => false
  end.

(** A division by [len(self.emotion_history)]: [None] stands for the
    [ZeroDivisionError] raised on an empty history. *)
Definition per_emotion_frame (st : State) (n : Q) : option Q :=
  match emotion_history st with
  | [] => None
  | _ => Some (n / Py.Qlen (emotion_history st))
  end.

Definition _assess_anhedonia (st : State) : option Z :=
  match per_emotion_frame st (count (emotion_is "happy") (emotion_history st)) with
  | None => None
  | Some happy_ratio =>
      let genuine_smile_count :=
        count (fun r => Py.mem "genuine_smile" (Py.get (micro_expressions r) []))
              (au_history st) in
      let smile_ratio :=
        match au_history st with
        | [] => 0
        | _ => genuine_smile_count / Py.Qlen (au_history st)
        end in
      Some (if Py.Qltb happy_ratio 0.05 && Py.Qltb smile_ratio 0.02 then 3
            else if Py.Qltb happy_ratio 0.10 && Py.Qltb smile_ratio 0.05 then 2
            else if Py.Qltb happy_ratio 0.15 && Py.Qltb smile_ratio 0.10 then 1
            else 0)%Z
  end.

Definition is_negative (r : EmotionRecord) : bool :=
  match emotion r with
  | Some l => Py.mem l ["sad"; "angry"; "fear"; "disgust"]
  | None => false
  end.

Definition _assess_depressed_mood (st : State) : option Z :=
  match per_emotion_frame st (count (emotion_is "sad") (emotion_history st)),
        per_emotion_frame st (count is_negative (emotion_history st)) with
  | Some sad_ratio, Some negative_ratio =>
      Some (if Py.Qgtb sad_ratio 0.40 || Py.Qgtb negative_ratio 0.60 then 3
            else if Py.Qgtb sad_ratio 0.25 || Py.Qgtb negative_ratio 0.45 then 2
            else if Py.Qgtb sad_ratio 0.15 || Py.Qgtb negative_ratio 0.30 then 1
            else 0)%Z
  | _, _ => None
  end.

(** Blinks per minute over the span of [eye_history], 20 when the span is
    not positive. *)
Definition blink_rate_of (eyes : list EyeRecord) : Q :=
  let blink_count := count (fun r => Py.get (blink r) false) eyes in
  match eyes with
  | [] => 20
  | first :: _ =>
      let duration_minutes :=
        (y_timestamp (List.last eyes first) - y_timestamp first) / 60.0 in
      if Py.Qgtb duration_minutes 0 then blink_count / duration_minutes else 20
  end.

Definition _assess_sleep_problems (st : State) : Z :=
  match eye_history st with
  | [] => 0%Z
  | _ =>
      let low_ear_count := count (fun r => Py.Qltb (Py.get (ear r) 1.0) 0.18) (eye_history st) in
      let fatigue_ratio := low_ear_count / Py.Qlen (eye_history st) in
      let blink_rate := blink_rate_of (eye_history st) in
      (if Py.Qgtb fatigue_ratio 0.40 || Py.Qltb blink_rate 10 || Py.Qgtb blink_rate 45 then 3
       else if Py.Qgtb fatigue_ratio 0.30 || Py.Qltb blink_rate 12 || Py.Qgtb blink_rate 40 then 2
       else if Py.Qgtb fatigue_ratio 0.20 || Py.Qltb blink_rate 15 || Py.Qgtb blink_rate 35 then 1
       else 0)%Z
  end.

(** [temporal_features[-1].get(key, 0.2)], 0.2 without any record. *)
Definition latest (st : State) (field : TemporalRecord -> option Q) : Q :=
  match temporal_features st with
  | [] => 0.2
  | first :: _ => Py.get (field (List.last (temporal_features st) first)) 0.2
  end.

Definition _assess_fatigue (st : State) : Z :=
  let avg_activations :=
    match au_history st with
    | [] => 2.0
    | _ =>
        Py.Qsum (map (fun r => count snd (Py.get (au_activations r) [])) (au_history st))
        / Py.Qlen (au_history st)
    end in
  let change_rate := latest st emotion_change_rate in
  (if Py.Qltb avg_activations 0.8 && Py.Qltb change_rate 0.05 then 3
   else if Py.Qltb avg_activations 1.2 && Py.Qltb change_rate 0.10 then 2
   else if Py.Qltb avg_activations 1.5 && Py.Qltb change_rate 0.15 then 1
   else 0)%Z.

Definition _assess_appetite_change (st : State) : Z := 0%Z.

Definition au_on (r : AURecord) (name : string) : bool :=
  Py.get (Py.lookup name (Py.get (au_activations r) [])) false.

Definition _assess_guilt (st : State) : Z :=
  let guilt_expression_count :=
    count (fun r => au_on r "AU1" && au_on r "AU4") (au_history st) in
  let guilt_ratio :=
    match au_history st with
    | [] => 0
    | _ => guilt_expression_count / Py.Qlen (au_history st)
    end in
  (if Py.Qgtb guilt_ratio 0.25 then 3
   else if Py.Qgtb guilt_ratio 0.15 then 2
   else if Py.Qgtb guilt_ratio 0.08 then 1
   else 0)%Z.

Definition _assess_concentration (st : State) : Z :=
  match eye_history st with
  | [] => 0%Z
  | _ =>
      let blink_rate := blink_rate_of (eye_history st) in
      (if Py.Qgtb blink_rate 50 then 3
       else if Py.Qgtb blink_rate 42 then 2
       else if Py.Qgtb blink_rate 35 then 1
       else 0)%Z
  end.

Definition _assess_psychomotor (st : State) : Z :=
  let change_rate := latest st emotion_change_rate in
  let micro_expr_rate := latest st micro_expression_rate in
  (if Py.Qltb change_rate 0.05 && Py.Qltb micro_expr_rate 0.05 then 3
   else if Py.Qltb change_rate 0.10 && Py.Qltb micro_expr_rate 0.10 then 2
   else if Py.Qltb change_rate 0.15 && Py.Qltb micro_expr_rate 0.15 then 1
   else 0)%Z.

Definition is_extreme_sad (r : EmotionRecord) : bool :=
  emotion_is "sad" r && Py.Qgtb (Py.get (confidence r) 0) 0.9.

Definition _assess_suicidal_ideation (st : State) : option Z :=
  match per_emotion_frame st (count is_extreme_sad (emotion_history st)) with
  | None => None
  | Some extreme_sad_ratio =>
      Some (if Py.Qgtb extreme_sad_ratio 0.60 then 1 else 0)%Z
  end.

Definition _classify_severity (total_score : Z) : string :=
  if (total_score <=? 4)%Z then "none"
  else if (total_score <=? 9)%Z then "mild"
  else if (total_score <=? 14)%Z then "moderate"
  else if (total_score <=? 19)%Z then "moderately_severe"
  else "severe".

Definition _generate_clinical_recommendation (total_score : Z) (severity : string)
           (items : Items) : list Recommendation :=
  (if String.eqb severity "none" then [rec_none_1; rec_none_2]
   else if String.eqb severity "mild"
   then [rec_mild_1; rec_mild_2; rec_mild_3; rec_mild_4; rec_mild_5]
   else if String.eqb severity "moderate"
   then [rec_moderate_1; rec_moderate_2; rec_moderate_3; rec_moderate_4; rec_moderate_5]
   else if String.eqb severity "moderately_severe"
   then [rec_modsev_1; rec_modsev_2; rec_modsev_3; rec_modsev_4; rec_modsev_5]
   else [rec_severe_1; rec_severe_2; rec_severe_3; rec_severe_4;
         rec_severe_crisis_line; rec_severe_hotline_number])
  ++ (if (2 <=? PHQ3 items)%Z then [rec_sleep] else [])
  ++ (if (2 <=? PHQ4 items)%Z then [rec_fatigue] else [])
  ++ (if (1 <=? PHQ9 items)%Z then [rec_possible_suicidal_thoughts] else []).

Definition _calculate_confidence (st : State) : Q :=
  let data_frames := length (emotion_history st) in
  let n := Py.Qlen (emotion_history st) in
  let data_factor :=
    if (data_frames <? 300)%nat then n / 300.0
    else if (data_frames <? 1800)%nat then 0.5 + (n - 300) / 1500.0 * 0.3
    else 0.8 + Py.Qmin2 ((n - 1800) / 1800.0 * 0.2) 0.2 in
  let quality_factor :=
    match emotion_history st with
    | [] => 0.5
    | _ => Py.mean (map (fun r => Py.get (confidence r) 0.5) (emotion_history st))
    end in
  data_factor * 0.6 + quality_factor * 0.4.

Definition assess (st : State) : option (Outcome * State) :=
  if (length (emotion_history st) <? 300)%nat then Some (insufficient_data, st)
  else
    match _assess_anhedonia st, _assess_depressed_mood st, _assess_suicidal_ideation st with
    | Some i1, Some i2, Some i9 =>
        let items :=
          mkItems i1 i2 (_assess_sleep_problems st) (_assess_fatigue st)
                  (_assess_appetite_change st) (_assess_guilt st)
                  (_assess_concentration st) (_assess_psychomotor st) i9 in
        let phq9_total_score := items_sum items in
        let phq9_severity := _classify_severity phq9_total_score in
        let assessment :=
          mkAssessment phq9_total_score phq9_severity items
            (_generate_clinical_recommendation phq9_total_score phq9_severity items)
            (_calculate_confidence st) (length (emotion_history st)) in
        Some (assessed assessment,
              mkState (observation_window st) (emotion_history st) (au_history st)
                      (eye_history st) (temporal_features st)
                      (assessment_history st ++ [assessment]))
    | _, _, _ => None
    end.

End PHQ9Assessor.

(** ** [temporal_analyzer.py]: class [TemporalFeatureAnalyzer] *)

Module TemporalFeatureAnalyzer.

Record EmotionRecord := mkEmotionRecord {
  emotion : string;
  confidence : Q;
  timestamp : Q
}.

Record State := mkState {
  window_size : nat;
  short_window : nat;
  long_window : nat;
  emotion_history : list EmotionRecord;                   (* deque(maxlen=long_window) *)
  au_history : list (list (string * bool) * Q);          (* deque(maxlen=long_window) *)
  confidence_history : list Q                             (* deque(maxlen=long_window) *)
}.

Definition init (window_size short_window long_window : nat) : State :=
  mkState window_size short_window long_window [] [] [].

(** The constructor's defaults. *)
Definition default : State := init 300 90 900.

Definition emotion_polarity (e : string) : Q :=
  if String.eqb e "happy" then 1.0
  else if String.eqb e "surprise" then 0.5
  else if String.eqb e "neutral" then 0.0
  else if String.eqb e "fear" then -0.3
  else if String.eqb e "disgust" then -0.5
  else if String.eqb e "angry" then -0.7
  else if String.eqb e "sad" then -1.0
  else 0.

(** [update]; [au_activations] is [None] for [None] or an empty
    dictionary. *)
Definition update (st : State) (emotion : string) (confidence : Q)
           (au_activations : option (list (string * bool))) (timestamp : Q) : State :=
  let n := long_window st in
  mkState (window_size st) (short_window st) n
          (Py.deque_append n (emotion_history st) (mkEmotionRecord emotion confidence timestamp))
          (match au_activations with
           | Some a => Py.deque_append n (au_history st) (a, timestamp)
           | None => au_history st
           end)
          (Py.deque_append n (confidence_history st) confidence).

Fixpoint changes (l : list EmotionRecord) : nat :=
  match l with
  | x :: ((y :: _) as r) =>
      ((if String.eqb (emotion y) (emotion x) then 0 else 1) + changes r)%nat
  | _ => O
  end.

Definition _calculate_change_rate (st : State) : Q :=
  if (length (emotion_history st) <? 2)%nat then 0.0
  else inject_Z (Z.of_nat (changes (emotion_history st)))
       / inject_Z (Z.of_nat (length (emotion_history st) - 1)).

Record Segment := mkSegment {
  seg_emotion : string;
  seg_duration : nat;
  start_time : Q;
  end_time : Q
}.

(** The segmentation loop: [cur] is the open run, extended or closed by
    each further record. *)
Fixpoint segments_from (cur : Segment) (l : list EmotionRecord) : list Segment :=
  match l with
  | [] => [cur]
  | r :: rest =>
      if String.eqb (emotion r) (seg_emotion cur)
      then segments_from (mkSegment (seg_emotion cur) (S (seg_duration cur))
                                    (start_time cur) (timestamp r)) rest
      else cur :: segments_from (mkSegment (emotion r) 1 (timestamp r) (timestamp r)) rest
  end.

Definition segments (l : list EmotionRecord) : list Segment :=
  match l with
  | [] => []
  | r :: rest => segments_from (mkSegment (emotion r) 1 (timestamp r) (timestamp r)) rest
  end.

Record DurationStats := mkDurationStats {
  avg_duration : Q;
  positive_duration : Q;
  negative_duration : Q;
  stat_segments : list Segment
}.

Definition mean_duration (l : list Segment) : Q :=
  match l with
  | [] => 0.0
  | _ => Py.mean (map (fun s => inject_Z (Z.of_nat (seg_duration s))) l)
  end.

Definition _calculate_duration_stats (st : State) : DurationStats :=
  if (length (emotion_history st) <? 2)%nat then mkDurationStats 0.0 0.0 0.0 []
  else
    let segs := segments (emotion_history st) in
    mkDurationStats
      (mean_duration segs)
      (mean_duration (filter (fun s => Py.mem (seg_emotion s) ["happy"; "surprise"]) segs))
      (mean_duration (filter (fun s => Py.mem (seg_emotion s)
                                              ["sad"; "angry"; "fear"; "disgust"]) segs))
      segs.

(** [np.var]. *)
Definition variance (l : list Q) : Q :=
  let m := Py.mean l in
  Py.mean (map (fun x => (x - m) * (x - m)) l).

Definition _calculate_stability (st : State) : Q :=
  if (length (emotion_history st) <? 2)%nat then 0.0
  else 1.0 / (1.0 + variance (map (fun r => emotion_polarity (emotion r)) (emotion_history st))).

(** [np.polyfit(x, y, 1)[0]] for [x = 0, 1, ..., n-1]. *)
Fixpoint indexed_from (i : Z) (l : list Q) : list (Q * Q) :=
  match l with
  | [] => []
  | y :: r => (inject_Z i, y) :: indexed_from (i + 1) r
  end.

Definition polyfit_slope (ys : list Q) : Q :=
  let pts := indexed_from 0 ys in
  let n := Py.Qlen ys in
  let sx := Py.Qsum (map fst pts) in
  let sy := Py.Qsum (map snd pts) in
  let sxy := Py.Qsum (map (fun p => fst p * snd p) pts) in
  let sxx := Py.Qsum (map (fun p => fst p * fst p) pts) in
  (n * sxy - sx * sy) / (n * sxx - sx * sx).

Definition _calculate_trend (st : State) (window : nat) : Q :=
  let window := if (length (emotion_history st) <? window)%nat
                then length (emotion_history st) else window in
  if (window <? 2)%nat then 0.0
  else polyfit_slope (map (fun r => emotion_polarity (emotion r))
                          (Py.lastn window (emotion_history st))).

Definition _analyze_micro_expressions (st : State) : nat * Q :=
  if (length (emotion_history st) <? 2)%nat then (O, 0.0)
  else
    let segs := stat_segments (_calculate_duration_stats st) in
    let micro := filter (fun s => (seg_duration s <? 90)%nat) segs in
    (length micro,
     match segs with
     | [] => 0.0
     | _ => Py.Qlen micro / Py.Qlen segs
     end).

Record Features := mkFeatures {
  f_emotion_change_rate : Q;
  expression_duration : Q;
  f_positive_duration : Q;
  f_negative_duration : Q;
  emotion_stability : Q;
  short_term_trend : Q;
  long_term_trend : Q;
  micro_expression_count : nat;
  f_micro_expression_rate : Q
}.

(** What [analyze] returns: [{'status': 'insufficient_data'}] or the
    feature dictionary. *)
Inductive Outcome :=
| insufficient_data
| analysed (f : Features).

Definition analyze (st : State) : Outcome :=
  if (length (emotion_history st) <? short_window st)%nat then insufficient_data
  else
    let d := _calculate_duration_stats st in
    let m := _analyze_micro_expressions st in
    analysed (mkFeatures
      (_calculate_change_rate st)
      (avg_duration d) (positive_duration d) (negative_duration d)
      (_calculate_stability st)
      (_calculate_trend st (short_window st))
      (_calculate_trend st (Nat.min (long_window st) (length (emotion_history st))))
      (fst m) (snd m)).

Record Indicators := mkIndicators {
  low_change_rate : bool;
  change_rate_score : Q;
  high_negative_duration : bool;
  duration_ratio_score : Q;
  low_stability : bool;
  stability_score : Q;
  negative_trend : bool;
  trend_score : Q;
  low_micro_expression : bool;
  micro_expr_score : Q;
  temporal_depression_score : Q
}.

Inductive IndicatorOutcome :=
| indicators_insufficient_data
| indicators (i : Indicators).

Definition get_depression_indicators (st : State) : IndicatorOutcome :=
  match analyze st with
  | insufficient_data => indicators_insufficient_data
  | analysed f =>
      let change_rate := f_emotion_change_rate f in
      let change_rate_score := if Py.Qltb change_rate 0.2 then 1.0 - change_rate else 0.0 in
      let positive := f_positive_duration f in
      let duration_ratio := f_negative_duration f / positive in
      let high_negative := if Py.Qgtb positive 0 then Py.Qgtb duration_ratio 2.0 else true in
      let duration_ratio_score :=
        if Py.Qgtb positive 0
        then Py.Qmin2 (duration_ratio / 5.0) 1.0 else 1.0 in
      let stability := emotion_stability f in
      let stability_score := if Py.Qgtb stability 0.7 then stability else 0.0 in
      let trend := long_term_trend f in
      let trend_score := if Py.Qltb trend 0 then Qabs trend else 0.0 in
      let micro_rate := f_micro_expression_rate f in
      let micro_expr_score := if Py.Qltb micro_rate 0.2 then 1.0 - micro_rate else 0.0 in
      let total_score :=
        change_rate_score * 0.25 + duration_ratio_score * 0.30
        + stability_score * 0.20 + trend_score * 0.15 + micro_expr_score * 0.10 in
      indicators (mkIndicators
        (Py.Qltb change_rate 0.1) change_rate_score
        high_negative duration_ratio_score
        (Py.Qgtb stability 0.8) stability_score
        (Py.Qltb trend (-0.01)) trend_score
        (Py.Qltb micro_rate 0.1) micro_expr_score
        (total_score * 100))
  end.

End TemporalFeatureAnalyzer.

(** ** [au_detector.py]: [AUDetector._calculate_au_features] and its helpers *)

Module AUFeatureExtraction.

(** A landmark [[x, y]]. *)
Definition Point : Type := Q * Q.

(** The landmark groups read from the [key_points] dictionary (a missing
    group is the empty list) or sliced from the 68-point array. *)
Record KeyPoints := mkKeyPoints {
  left_eye : list Point;
  right_eye : list Point;
  left_eyebrow : list Point;
  right_eyebrow : list Point;
  mouth_outer : list Point;
  mouth_inner : list Point;
  nose : list Point
}.

(** [l[i]] for [i >= 0] and [l[-1]]; [None] is the [IndexError]. *)
Definition index (l : list Point) (i : nat) : option Point := nth_error l i.

Definition index_last (l : list Point) : option Point :=
  match l with
  | [] => None
  | p :: r => Some (List.last r p)
  end.

Definition _vertical_distance (pt1 pt2 : Point) : Q := Qabs (snd pt1 - snd pt2).

Definition _horizontal_distance (pt1 pt2 : Point) : Q := Qabs (fst pt1 - fst pt2).

Definition _get_center (points : list Point) : Point :=
  match points with
  | [] => (0, 0)
  | _ => (Py.Qsum (map fst points) / Py.Qlen points,
          Py.Qsum (map snd points) / Py.Qlen points)
  end.

Definition _midpoint (pt1 pt2 : Point) : Point :=
  ((fst pt1 + fst pt2) / 2.0, (snd pt1 + snd pt2) / 2.0).

Section Geometry.

(** [np.sqrt]; square roots are outside the rationals, so the function
    is a parameter of the extraction. *)
Variable sqrt : Q -> Q.

Definition _euclidean_distance (pt1 pt2 : Point) : Q :=
  sqrt ((fst pt1 - fst pt2) * (fst pt1 - fst pt2)
        + (snd pt1 - snd pt2) * (snd pt1 - snd pt2)).

Definition _calculate_ear (eye_points : list Point) : Q :=
  match eye_points with
  | p1 :: p2 :: p3 :: p4 :: p5 :: p6 :: _ =>
      let vertical1 := _euclidean_distance p2 p6 in
      let vertical2 := _euclidean_distance p3 p5 in
      let horizontal := _euclidean_distance p1 p4 in
      if Qeq_bool horizontal 0 then 0.0
      else (vertical1 + vertical2) / (2.0 * horizontal)
  | _ => 0.0
  end.

(** What one block of the function does for its AU: [Some (Some v)] sets
    the feature, [Some None] leaves it out, [None] raises [IndexError]. *)
Definition Attempt : Type := option (option Q).

Definition skip : Attempt := Some None.

Definition with1 (p : option Point) (k : Point -> Q) : Attempt :=
  match p with
  | Some a => Some (Some (k a))
  | None => None
  end.

Definition with2 (p q : option Point) (k : Point -> Point -> Q) : Attempt :=
  match p, q with
  | Some a, Some b => Some (Some (k a b))
  | _, _ => None
  end.

Definition with3 (p q r : option Point) (k : Point -> Point -> Point -> Q) : Attempt :=
  match p, q, r with
  | Some a, Some b, Some c => Some (Some (k a b c))
  | _, _, _ => None
  end.

(** [mouth_outer[9] if len(mouth_outer) > 9 else mouth_outer[-1]]. *)
Definition lower_lip_point (mouth_outer : list Point) : option Point :=
  if (9 <? length mouth_outer)%nat then index mouth_outer 9 else index_last mouth_outer.

Definition attempt (kp : KeyPoints) (au : AUDetector.AU) : Attempt :=
  let le := left_eye kp in
  let re := right_eye kp in
  let lb := left_eyebrow kp in
  let rb := right_eyebrow kp in
  let mo := mouth_outer kp in
  let mi := mouth_inner kp in
  let ns := nose kp in
  match au with
  | AUDetector.AU1 =>
      if (0 <? length lb)%nat && (0 <? length le)%nat
      then with2 (index lb 0) (index le 1) _euclidean_distance
      else skip
  | AUDetector.AU2 =>
      if (2 <? length lb)%nat && (0 <? length le)%nat
      then with2 (index_last lb) (index le 1) _euclidean_distance
      else skip
  | AUDetector.AU4 =>
      if (0 <? length lb)%nat && (0 <? length rb)%nat
      then
        let brow_center := _midpoint (_get_center lb) (_get_center rb) in
        if (0 <? length ns)%nat
        then with1 (index ns 0)
                   (fun nose_bridge => - _euclidean_distance brow_center nose_bridge)
        else skip
      else skip
  | AUDetector.AU5 =>
      if (2 <? length le)%nat
      then with2 (index le 1) (index le 5) _vertical_distance
      else skip
  | AUDetector.AU6 =>
      if (0 <? length le)%nat && (0 <? length mo)%nat
      then with2 (index le 4) (index mo 0)
                 (fun eye_bottom mouth_corner =>
                    - _euclidean_distance eye_bottom mouth_corner)
      else skip
  | AUDetector.AU7 =>
      if (2 <? length le)%nat
      then with2 (index le 1) (index le 5) (fun a b => - _vertical_distance a b)
      else skip
  | AUDetector.AU9 =>
      if (3 <? length ns)%nat
      then with2 (index ns 1) (index ns 2) _horizontal_distance
      else skip
  | AUDetector.AU12 =>
      if (6 <=? length mo)%nat
      then with3 (index mo 0) (index mo 6) (index mo 3)
                 (fun left_corner right_corner mouth_center =>
                    let left_height := snd mouth_center - snd left_corner in
                    let right_height := snd mouth_center - snd right_corner in
                    (left_height + right_height) / 2.0)
      else skip
  | AUDetector.AU15 =>
      if (6 <=? length mo)%nat
      then with3 (index mo 0) (index mo 6) (index mo 3)
                 (fun left_corner right_corner mouth_center =>
                    let left_height := snd left_corner - snd mouth_center in
                    let right_height := snd right_corner - snd mouth_center in
                    (left_height + right_height) / 2.0)
      else skip
  | AUDetector.AU17 =>
      if (0 <? length mo)%nat
      then with1 (lower_lip_point mo) (fun bottom_lip => - snd bottom_lip)
      else skip
  | AUDetector.AU20 =>
      if (6 <=? length mo)%nat
      then with2 (index mo 0) (index mo 6) _horizontal_distance
      else skip
  | AUDetector.AU25 =>
      if (3 <? length mo)%nat && (3 <? length mi)%nat
      then with2 (index mo 3) (lower_lip_point mo) _vertical_distance
      else skip
  | AUDetector.AU26 =>
      if (9 <? length mo)%nat
      then with2 (index mo 3) (index mo 9) _vertical_distance
      else skip
  | AUDetector.AU43 =>
      if (2 <? length le)%nat && (2 <? length re)%nat
      then Some (Some (- ((_calculate_ear le + _calculate_ear re) / 2.0)))
      else skip
  end.

(** [_calculate_au_features]: the feature dictionary, or [None] when one
    of the blocks raises. *)
Definition _calculate_au_features (kp : KeyPoints) : option AUDetector.Features :=
  if forallb (fun au => match attempt kp au with Some _ => true | None => false end)
             AUDetector.all_AUs
  then Some (fun au => match attempt kp au with Some v => v | None => None end)
  else None.

(** [detect] on landmarks: the extraction followed by the rest of the
    method; an [IndexError] of the extraction leaves the state as it was. *)
Definition detect_key_points (st : AUDetector.State) (kp : KeyPoints)
  : option (AUDetector.Result * AUDetector.State) :=
  match _calculate_au_features kp with
  | Some au_features => Some (AUDetector.detect st au_features)
  | None => None
  end.

(** Successive calls of [detect], oldest frame first; [None] when a call
    raises. *)
Fixpoint detect_frames (st : AUDetector.State) (frames : list KeyPoints)
  : option (list AUDetector.Result) :=
  match frames with
  | [] => Some []
  | kp :: rest =>
      match detect_key_points st kp with
      | Some (result, st') => option_map (cons result) (detect_frames st' rest)
      | None => None
      end
  end.

End Geometry.

End AUFeatureExtraction.

(** ** [au_detector.py]: class [MicroExpressionClassifier] *)

Module MicroExpressionClassifier.

Definition EXPRESSION_EMOTION_MAP : list (string * string) :=
  [("genuine_smile", "happy"); ("fake_smile", "neutral"); ("sadness", "sad");
   ("worry", "sad"); ("anger", "angry"); ("disgust", "disgust");
   ("fear", "fear"); ("surprise", "surprise"); ("fatigue", "neutral")].

Definition priority : list string :=
  ["sadness"; "worry"; "anger"; "fear"; "disgust"; "surprise"; "genuine_smile"].

Definition classify_emotion (micro_expressions : list string) : option string :=
  match micro_expressions with
  | [] => None
  | first :: _ =>
      match find (fun expr => Py.mem expr micro_expressions) priority with
      | Some expr => Py.lookup expr EXPRESSION_EMOTION_MAP
      | None => Py.lookup first EXPRESSION_EMOTION_MAP
      end
  end.

End MicroExpressionClassifier.

(** ** [emotion_recognizer.py]: class [EmotionAnalyzer] *)

Module EmotionAnalyzer.

Record EmotionRecord := mkEmotionRecord {
  emotion : string;
  confidence : Q;
  timestamp : Q
}.

Record State := mkState {
  window_size : nat;
  emotion_history : list EmotionRecord      (* deque(maxlen=window_size) *)
}.

Definition init (window_size : nat) : State := mkState window_size [].

(** [add_emotion]; [now] is the reading of [time.time()]. *)
Definition add_emotion (st : State) (emotion_result : EmotionRecognizer.Recognition)
           (now : Q) : State :=
  mkState (window_size st)
          (Py.deque_append (window_size st) (emotion_history st)
             (mkEmotionRecord (EmotionRecognizer.emotion emotion_result)
                              (EmotionRecognizer.confidence emotion_result) now)).

Definition emotion_values (e : string) : Q :=
  if String.eqb e "happy" then 1.0
  else if String.eqb e "surprise" then 0.5
  else if String.eqb e "neutral" then 0.0
  else if String.eqb e "fear" then -0.3
  else if String.eqb e "disgust" then -0.5
  else if String.eqb e "angry" then -0.7
  else if String.eqb e "sad" then -1.0
  else 0.

Definition _calculate_emotion_variance (st : State) : Q :=
  if (length (emotion_history st) <? 2)%nat then 0.0
  else TemporalFeatureAnalyzer.variance
         (map (fun r => emotion_values (emotion r)) (emotion_history st)).

Fixpoint emotion_changes (l : list EmotionRecord) : nat :=
  match l with
  | x :: ((y :: _) as r) =>
      ((if String.eqb (emotion y) (emotion x) then 0 else 1) + emotion_changes r)%nat
  | _ => O
  end.

Record Analysis := mkAnalysis {
  emotion_distribution : EmotionRecognizer.Dist;
  positive_ratio : Q;
  negative_ratio : Q;
  neutral_ratio : Q;
  change_rate : Q;
  emotion_variance : Q;
  dominant_emotion : string;
  total_frames : nat
}.

(** [analyze]; [None] is the empty dictionary returned without history. *)
Definition analyze (st : State) : option Analysis :=
  match emotion_history st with
  | [] => None
  | _ =>
      let labels := map emotion (emotion_history st) in
      let total := Py.Qlen (emotion_history st) in
      let distribution :=
        map (fun ec => (fst ec, snd ec / total)) (EmotionRecognizer.emotion_counts labels) in
      let ratio := fun es =>
        Py.Qsum (map (EmotionRecognizer.prob distribution) es) in
      Some (mkAnalysis
              distribution
              (ratio ["happy"; "surprise"])
              (ratio ["sad"; "angry"; "fear"; "disgust"])
              (EmotionRecognizer.prob distribution "neutral")
              (if (1 <? length (emotion_history st))%nat
               then inject_Z (Z.of_nat (emotion_changes (emotion_history st))) / total
               else 0)
              (_calculate_emotion_variance st)
              (EmotionRecognizer.argmax distribution)
              (length (emotion_history st)))
  end.

End EmotionAnalyzer.

(** ** [temporal_analyzer.py]: class [AttentionWeightCalculator] *)

Module AttentionWeightCalculator.

Inductive Region : Set := eyes | eyebrows | mouth | nose | cheeks.

Definition Region_eqb (a b : Region) : bool :=
  match a, b with
  | eyes, eyes | eyebrows, eyebrows | mouth, mouth | nose, nose | cheeks, cheeks => true
  | _, _ => false
  end.

(** The keys of [region_weights], in dictionary order. *)
Definition all_regions : list Region := [eyes; eyebrows; mouth; nose; cheeks].

Definition region_weights (r : Region) : Q :=
  match r with
  | eyes => 0.35 | eyebrows => 0.25 | mouth => 0.25 | nose => 0.10 | cheeks => 0.05
  end.

Definition au_to_region : list (string * Region) :=
  [("AU1", eyebrows); ("AU2", eyebrows); ("AU4", eyebrows); ("AU5", eyes);
   ("AU6", cheeks); ("AU7", eyes); ("AU9", nose); ("AU12", mouth);
   ("AU15", mouth); ("AU17", mouth); ("AU20", mouth); ("AU25", mouth);
   ("AU26", mouth); ("AU43", eyes)].

(** Membership in the set [activated_regions] built by the loop. *)
Definition in_activated_regions (au_activations : list (string * bool)) (r : Region) : bool :=
  existsb (fun kv =>
             snd kv && match Py.lookup (fst kv) au_to_region with
                       | Some r' => Region_eqb r' r
                       | None => false
                       end) au_activations.

Definition calculate_weights (au_activations : list (string * bool)) : Region -> Q :=
  let activated := in_activated_regions au_activations in
  if existsb activated all_regions
  then
    let boosted := fun r => if activated r then region_weights r * 1.2 else region_weights r in
    let total := Py.Qsum (map boosted all_regions) in
    fun r => boosted r / total
  else region_weights.

End AttentionWeightCalculator.

(** ** [genuine_emotion_detector.py]: sessions, [get_statistics], [reset] *)

Module GenuineEmotionSession.
Import GenuineEmotionDetector.

Definition reset (st : State) : State :=
  mkState (history_length st) (onset_threshold st) (offset_threshold st)
          [] (fun _ => []) [] "neutral" None 0.0 O O O.

Record Statistics := mkStatistics {
  stat_total_emotions : nat;
  stat_genuine_count : nat;
  stat_fake_count : nat;
  genuine_rate : Q;
  fake_rate : Q
}.

Definition get_statistics (st : State) : Statistics :=
  let rate := fun (n : nat) =>
    if (0 <? total_emotions st)%nat
    then inject_Z (Z.of_nat n) / inject_Z (Z.of_nat (total_emotions st))
    else 0.0 in
  mkStatistics (total_emotions st) (genuine_count st) (fake_count st)
               (rate (genuine_count st)) (rate (fake_count st)).

(** The calls a session makes on the detector, oldest first. *)
Inductive Call :=
| Analyze (emotion : string) (au_results : AUResults) (timestamp : Q)
| Reset.

Definition step (st : State) (c : Call) : State :=
  match c with
  | Analyze emotion au_results timestamp => snd (analyze st emotion au_results timestamp)
  | Reset => reset st
  end.

Definition run (st : State) (calls : list Call) : State := fold_left step calls st.

(** The number of [analyze] calls since the last [reset]. *)
Fixpoint analyses_since_reset (calls : list Call) : nat :=
  match calls with
  | [] => O
  | c :: r =>
      if existsb (fun c' => match c' with Reset => true | _ => false end) r
      then analyses_since_reset r
      else match c with
           | Analyze _ _ _ => S (analyses_since_reset r)
           | Reset => analyses_since_reset r
           end
  end.

End GenuineEmotionSession.

(** ** [phq9_assessor.py]: sessions of [update] calls *)

Module PHQ9Session.
Import PHQ9Assessor.

(** The arguments of one [update] call and the time it is made at. *)
Record Update := mkUpdate {
  now : Q;
  emotion_data : option (option string * option Q);
  au_data : option (option (list (string * bool)) * option (list string));
  eye_data : option (option Q * option bool);
  temporal_data : option (option Q * option Q)
}.

Definition step (st : State) (u : Update) : State :=
  update st (now u) (emotion_data u) (au_data u) (eye_data u) (temporal_data u).

Definition run (st : State) (updates : list Update) : State := fold_left step updates st.

End PHQ9Session.

(** ** Concrete sessions used as test inputs *)

Module Scenarios.

Import MedicalGradeClinicalAssessor.

(** A sad frame recognised with confidence 0.9 and nothing else reported:
    [{'emotion': 'sad', 'confidence': 0.9}] with empty AU, eye and
    genuineness dictionaries and no micro-expressions. *)
Definition sad_frame : EmotionResult := mkEmotionResult (Some "sad") (Some 0.9).
Definition no_aus : AUResult := mkAUResult None None.
Definition no_eye : EyeAnalysis := mkEyeAnalysis None None None None.
Definition no_genuineness : GenuinenessResult := mkGenuinenessResult None None None.

Definition first_sad_assessment : Assessment :=
  fst (assess (init 900) sad_frame no_aus no_eye no_genuineness []).

(** A smile frame for the genuineness analyser: AU6 and AU12 active at
    intensity 3. *)
Definition smile_aus : GenuineEmotionDetector.AUResults :=
  [("AU6", GenuineEmotionDetector.mkEntry true 3);
   ("AU12", GenuineEmotionDetector.mkEntry true 3)].

(** The analyser after one smile frame at time 100 under the label
    [label]; a second frame follows one second later. *)
Definition after_first_smile (label : string) : GenuineEmotionDetector.State :=
  snd (GenuineEmotionDetector.analyze GenuineEmotionDetector.default label smile_aus 100).

Definition second_smile_verdict (label : string) : GenuineEmotionDetector.Verdict :=
  fst (GenuineEmotionDetector.analyze (after_first_smile label) label smile_aus 101).





(** Frames whose mouth corners sit [h] above the mouth centre (AU12 is
    [h], AU15 its opposite) while every other feature is 1, and the basic
    detector calibrated on 30 frames with the corners level to within
    1e-9. *)
Definition mouth_features (h : Q) : AUDetector.Features :=
  fun au =>
    match au with
    | AUDetector.AU12 => Some h
    | AUDetector.AU15 => Some (- h)
    | _ => Some 1
    end.

Definition calibrated_level_mouth : AUDetector.State :=
  AUDetector.run (AUDetector.init 30)
                 (repeat (AUDetector.Detect (mouth_features 1e-9)) 30).






(** The PHQ-9 assessor after 300 frames of sadness recognised with
    confidence 0.95, one frame per time unit, and nothing else observed. *)
Definition all_extreme_sad : PHQ9Assessor.State :=
  fold_left (fun st t => PHQ9Assessor.update st (inject_Z (Z.of_nat t))
                           (Some (Some "sad", Some 0.95)) None None None)
            (seq 0 300) (PHQ9Assessor.init 1800).

(** A temporal analyser with a short window of 10 frames, after 12
    neutral frames. *)
Definition twelve_neutral : TemporalFeatureAnalyzer.State :=
  fold_left (fun st t => TemporalFeatureAnalyzer.update st "neutral" 0.8 None
                           (inject_Z (Z.of_nat t)))
            (seq 0 12) (TemporalFeatureAnalyzer.init 300 10 900).

End Scenarios.

(** ** Invariants of the detector states *)

Module Invariants.



(** Every adaptive threshold lies within [0.5, 2] times its initial
    value. *)
Definition thresholds_in_range (st : AdvancedAUDetector.State) : Prop :=
  forall au,
    AdvancedAUDetector.INITIAL_THRESHOLDS au * 0.5
    <= AdvancedAUDetector.thresholds st au
    <= AdvancedAUDetector.INITIAL_THRESHOLDS au * 2.0.

(** Every entry of a score dictionary is non-negative. *)
Definition nonneg (d : EmotionRecognizer.Dist) : Prop :=
  Forall (fun kv => 0 <= snd kv) d.

End Invariants.

(** ** Sessions of the two AU classifiers *)

Module AdvancedSessions.
Import AdvancedAUDetector.

(** A session that only calls [detect], oldest frame first. *)
Definition detects (fs : list Features) : list Call := map Detect fs.

(** The state of calibration after [k] frames of a session without
    resets. *)
Definition calibration_after (n k : nat) (st : State) : Prop :=
  baseline_frames st = n
  /\ (forall au, length (baseline_buffer st au) = Nat.min k n)
  /\ baseline_calibrated st = (n <=? k)%nat
  /\ calibration_progress st
     = (if (n <=? k)%nat then 100
        else if (k =? 0)%nat then 0
        else progress_percent (length all_AUs * k) (length all_AUs * n))%Z.

(** The samples of one AU over the first [n] frames of a session. *)
Definition samples (n : nat) (au : AU) (fs : list Features) : list Q :=
  map (fun f => f au) (firstn n fs).

(** The state of the detector after the frames [seen] of a session
    without resets. *)
Definition calibrated_on (n : nat) (seen : list Features) (st : State) : Prop :=
  baseline_frames st = n
  /\ (forall au, baseline_buffer st au = samples n au seen)
  /\ baseline_calibrated st = (n <=? length seen)%nat
  /\ (forall au, baseline st au
                 = if (n <=? length seen)%nat then Some (median (samples n au seen))
                   else None).

End AdvancedSessions.

Module BasicSessions.
Import AUDetector.

(** A session that only calls [detect], oldest frame first. *)
Definition basic_detects (fs : list Features) : list Call := map Detect fs.

(** Frames in which every AU feature is available. *)
Definition full_frame (g : AU -> Q) : Features := fun au => Some (g au).

(** The samples of one AU over the first [n] frames of a session of
    full frames. *)
Definition basic_samples (n : nat) (au : AU) (gs : list (AU -> Q)) : list Q :=
  map (fun g => g au) (firstn n gs).

(** The state of the detector after the full frames [seen] of a session
    without resets. *)
Definition basic_calibrated_on (n : nat) (seen : list (AU -> Q)) (st : State) : Prop :=
  baseline_frames st = n
  /\ (forall au, baseline_buffer st au = basic_samples n au seen)
  /\ baseline_calibrated st = (n <=? length seen)%nat
  /\ (forall au, baseline st au
                 = if (n <=? length seen)%nat
                   then Some (Py.mean (basic_samples n au seen))
                   else None).

End BasicSessions.

(** ** Further concrete inputs *)

Module MoreScenarios.

(** A rational approximation of the square root (four Newton steps). *)
Definition newton_sqrt (x : Q) : Q :=
  if Qle_bool x 0 then 0 else Nat.iter 4 (fun y => Qred ((y + x / y) / 2)) 1.

(** A face in the layout of the 68-point model. *)
Definition landmarks_68 : AUFeatureExtraction.KeyPoints :=
  AUFeatureExtraction.mkKeyPoints
    [(36, 40); (38, 38); (40, 38); (42, 40); (40, 42); (38, 42)]
    [(58, 40); (60, 38); (62, 38); (64, 40); (62, 42); (60, 42)]
    [(34, 32); (37, 30); (40, 29); (43, 30); (46, 32)]
    [(54, 32); (57, 30); (60, 29); (63, 30); (66, 32)]
    [(40, 70); (43, 68); (47, 67); (50, 68); (53, 67); (57, 68);
     (60, 70); (57, 73); (53, 75); (50, 76); (47, 75); (43, 73)]
    [(43, 70); (47, 69); (50, 70); (53, 69); (57, 70); (53, 72); (50, 73); (47, 72)]
    [(50, 40); (50, 45); (50, 50); (50, 55); (46, 58); (48, 59);
     (50, 60); (52, 59); (54, 58)].

Definition features_68 : AUDetector.Features :=
  fun au =>
    match AUFeatureExtraction.attempt newton_sqrt landmarks_68 au with
    | Some v => v
    | None => None
    end.

(** The results of two calls of [detect] on that face. *)
Definition two_frames_68 : list AUDetector.Result :=
  let r1 := AUDetector.detect (AUDetector.init 2) features_68 in
  let r2 := AUDetector.detect (snd r1) features_68 in
  [fst r1; fst r2].

(** A window of the emotion analyser holding a happy, a sad and an
    unlabelled frame. *)
Definition mixed_window : EmotionAnalyzer.State :=
  let rec := fun e => EmotionRecognizer.mkRecognition e 0.6 [] "au" None in
  EmotionAnalyzer.add_emotion
    (EmotionAnalyzer.add_emotion
       (EmotionAnalyzer.add_emotion (EmotionAnalyzer.init 300) (rec "happy") 1)
       (rec "sad") 2)
    (rec "unknown") 3.

Definition mixed_analysis : EmotionAnalyzer.Analysis :=
  match EmotionAnalyzer.analyze mixed_window with
  | Some a => a
  | None => EmotionAnalyzer.mkAnalysis [] 0 0 0 0 0 "" 0
  end.

(** A detection in which AU1 and AU12 were examined and found inactive. *)
Definition still_face : EmotionRecognizer.AUData :=
  EmotionRecognizer.mkAUData [("AU1", false); ("AU12", false)] [].

(** The temporal analyser with its default windows after 90 neutral
    frames. *)
Definition ninety_neutral : TemporalFeatureAnalyzer.State :=
  fold_left (fun st t => TemporalFeatureAnalyzer.update st "neutral" 0.8 None
                           (inject_Z (Z.of_nat t)))
            (seq 0 90) TemporalFeatureAnalyzer.default.

(** Landmarks holding nothing but an outer mouth of six points. *)
Definition six_point_mouth : AUFeatureExtraction.KeyPoints :=
  AUFeatureExtraction.mkKeyPoints [] [] [] []
    [(40, 70); (45, 67); (50, 68); (55, 67); (60, 70); (50, 76)] [] [].

(** Activations of a smile (AU6, AU12) beside raised inner brows and
    depressed lip corners (AU1, AU15). *)
Definition sad_smile : AUDetector.AU -> option bool :=
  fun au =>
    match au with
    | AUDetector.AU1 | AUDetector.AU15 | AUDetector.AU6 | AUDetector.AU12 => Some true
    | _ => Some false
    end.

(** Ten buffered frames of the advanced detector: every AU at rest but
    for AU12, reported at intensity 4 in the sixth frame; the event the
    micro-expression scan reports for them; and a frame of features. *)
Definition quiet_frame : AdvancedAUDetector.AU -> AdvancedAUDetector.AUResult :=
  fun _ => AdvancedAUDetector.mkAUResult false 0 0 0 0.

Definition spike_frame : AdvancedAUDetector.AU -> AdvancedAUDetector.AUResult :=
  fun au =>
    match au with
    | AdvancedAUDetector.AU12 => AdvancedAUDetector.mkAUResult true 4 0 0 0
    | _ => AdvancedAUDetector.mkAUResult false 0 0 0 0
    end.

Definition spike_buffer : list (AdvancedAUDetector.AU -> AdvancedAUDetector.AUResult) :=
  repeat quiet_frame 5 ++ [spike_frame] ++ repeat quiet_frame 4.

Definition spike_event : AdvancedAUDetector.MicroExpression :=
  AdvancedAUDetector.mkMicro AdvancedAUDetector.AU12 4 (10 / 30.0).

Definition level_frame : AdvancedAUDetector.Features := fun _ => 1.

(** Two frames handed to the genuineness analyser. *)
Definition two_analyses : list GenuineEmotionSession.Call :=
  [GenuineEmotionSession.Analyze "happiness" [] 1;
   GenuineEmotionSession.Analyze "sadness" [] 2].

End MoreScenarios.

(** ** Relations between the entries two AUs hold in a detector *)

Module Pairing.

(** Two optional values present together, the second the negation of the
    first. *)
Definition mirror (a b : option Q) : Prop :=
  match a, b with
  | Some x, Some y => y == - x
  | None, None => True
  | _, _ => False
  end.

(** Two optional activations present together, the first implying the
    second. *)
Definition follows (a b : option bool) : Prop :=
  match a, b with
  | Some x, Some y => implb x y = true
  | None, None => True
  | _, _ => False
  end.

(** The entries of AU [b] in the state mirror those of AU [a]. *)
Definition paired (a b : AUDetector.AU) (st : AUDetector.State) : Prop :=
  Forall2 (fun x y => y == - x)
          (AUDetector.baseline_buffer st a) (AUDetector.baseline_buffer st b)
  /\ mirror (AUDetector.baseline st a) (AUDetector.baseline st b)
  /\ Forall2 (fun x y => implb x y = true)
             (AUDetector.au_history st a) (AUDetector.au_history st b).

End Pairing.

(** ** Sums read off the dictionaries of the analysers *)

Module Counting.

(** The occurrences of the seven emotion labels in a list, grouped as the
    emotion analyser groups them: positive, negative, neutral. *)
Definition seven_counts (labels : list string) : Q :=
  EmotionRecognizer.count_label "happy" labels
  + EmotionRecognizer.count_label "surprise" labels
  + (EmotionRecognizer.count_label "sad" labels
     + EmotionRecognizer.count_label "angry" labels
     + EmotionRecognizer.count_label "fear" labels
     + EmotionRecognizer.count_label "disgust" labels)
  + EmotionRecognizer.count_label "neutral" labels.

End Counting.

(** * Properties *)

(** ** Reading the boolean comparisons *)

Lemma Qgtb_true (x y : Q) : Py.Qgtb x y = true <-> y < x.
Proof.
  unfold Py.Qgtb. rewrite negb_true_iff. split; intro H.
  - apply Qnot_le_lt. intro L. apply Qle_bool_iff in L. congruence.
  - destruct (Qle_bool x y) eqn:E; [|reflexivity].
    apply Qle_bool_iff in E. exfalso. apply (Qlt_not_le _ _ H E).
Qed.

Lemma Qgtb_false (x y : Q) : Py.Qgtb x y = false <-> x <= y.
Proof.
  unfold Py.Qgtb. rewrite negb_false_iff. apply Qle_bool_iff.
Qed.

Lemma Qltb_true (x y : Q) : Py.Qltb x y = true <-> x < y.
Proof. apply (Qgtb_true y x). Qed.

Lemma Qltb_false (x y : Q) : Py.Qltb x y = false <-> y <= x.
Proof. apply (Qgtb_false y x). Qed.

Lemma Qgeb_true (x y : Q) : Py.Qgeb x y = true <-> y <= x.
Proof. apply Qle_bool_iff. Qed.

Lemma Qneqb_false (x y : Q) : Py.Qneqb x y = false <-> x == y.
Proof. unfold Py.Qneqb. rewrite negb_false_iff. apply Qeq_bool_iff. Qed.

(** Case analysis on every test that still guards the goal. *)
Ltac case_guards :=
  repeat match goal with
         | |- context [if ?c then _ else _] => destruct c
         end.

Lemma Qlen_nonneg {A : Type} (l : list A) : 0 <= Py.Qlen l.
Proof.
  unfold Py.Qlen. change 0 with (inject_Z 0). rewrite <- Zle_Qle. lia.
Qed.

Lemma Qlen_pos {A : Type} (l : list A) : l <> [] -> 0 < Py.Qlen l.
Proof.
  intro H. unfold Py.Qlen. change 0 with (inject_Z 0). rewrite <- Zlt_Qlt.
  destruct l; [congruence | simpl; lia].
Qed.

(** ** Concrete runs *)

Example intensity_staircase :
  map AdvancedAUDetector._calculate_intensity [0; 0.02; 0.07; 0.15; 0.2; 0.35; 4]
  = [0; 1; 2; 3; 4; 5; 5]%Z.
Proof. reflexivity. Qed.

Example median_of_even_and_odd :
  AdvancedAUDetector.median [3; 1; 2] == 2 /\ AdvancedAUDetector.median [4; 1; 3; 2] == 2.5.
Proof. split; reflexivity. Qed.

Example vote_two_of_five :
  Py.vote [false; false; true; true; false] = true
  /\ Py.vote [false; false; false; true; false] = false
  /\ Py.vote [false] = true.
Proof. repeat split. Qed.

Example deque_drops_oldest :
  Py.deque_append 3 [1; 2; 3]%Z 4%Z = [2; 3; 4]%Z
  /\ Py.deque_append 3 [1]%Z 2%Z = [1; 2]%Z.
Proof. split; reflexivity. Qed.

Example duchenne_smile_is_happy :
  let r := EmotionRecognizer._recognize_by_au
             (EmotionRecognizer.mkAUData [("AU6", true); ("AU12", true)] ["genuine_smile"]) in
  EmotionRecognizer.emotion r = "happy" /\ EmotionRecognizer.confidence r == 1.
Proof. split; vm_compute; reflexivity. Qed.

Example no_activation_is_neutral :
  let r := EmotionRecognizer._recognize_by_au (EmotionRecognizer.mkAUData [] []) in
  EmotionRecognizer.emotion r = "neutral" /\ EmotionRecognizer.confidence r == 1.
Proof. split; vm_compute; reflexivity. Qed.

Example bright_image_by_simple_rule :
  let r := EmotionRecognizer._recognize_by_simple_rule 200 in
  EmotionRecognizer.emotion r = "happy"
  /\ EmotionRecognizer.prob (EmotionRecognizer.probabilities r) "happy" == 0.6
  /\ EmotionRecognizer.prob (EmotionRecognizer.probabilities r) "neutral" == 0.16.
Proof. repeat split; vm_compute; reflexivity. Qed.

Example severity_bands :
  map (fun t => fst (MedicalGradeClinicalAssessor._determine_severity t))
      [0; 4; 5; 9; 10; 14; 15; 19; 20; 27]%Z
  = ["minimal"; "minimal"; "mild"; "mild"; "moderate"; "moderate";
     "moderately_severe"; "moderately_severe"; "severe"; "severe"].
Proof. reflexivity. Qed.

Example extreme_sadness_scores_one :
  PHQ9Assessor._assess_suicidal_ideation Scenarios.all_extreme_sad = Some 1%Z
  /\ PHQ9Assessor._assess_suicidal_ideation (PHQ9Assessor.init 1800) = None.
Proof. split; vm_compute; reflexivity. Qed.

Example extreme_sadness_assessment :
  match PHQ9Assessor.assess Scenarios.all_extreme_sad with
  | Some (PHQ9Assessor.assessed a, _) =>
      PHQ9Assessor.PHQ9 (PHQ9Assessor.phq9_items a) = 1%Z
      /\ PHQ9Assessor.phq9_total_score a = 7%Z
      /\ PHQ9Assessor.phq9_severity a = "mild"
  | _ => False
  end.
Proof. vm_compute. repeat split. Qed.

Example steady_neutral_trend :
  match TemporalFeatureAnalyzer.analyze Scenarios.twelve_neutral with
  | TemporalFeatureAnalyzer.analysed f =>
      Qeq_bool (TemporalFeatureAnalyzer.f_emotion_change_rate f) 0
      && Qeq_bool (TemporalFeatureAnalyzer.expression_duration f) 12
      && Qeq_bool (TemporalFeatureAnalyzer.emotion_stability f) 1
      && Qeq_bool (TemporalFeatureAnalyzer.short_term_trend f) 0
  | TemporalFeatureAnalyzer.insufficient_data => false
  end = true.
Proof. vm_compute. reflexivity. Qed.

(** ** Insufficient history (C7) and the item-9 score (C10) *)

Lemma per_emotion_frame_some (st : PHQ9Assessor.State) (n : Q) :
  PHQ9Assessor.emotion_history st <> [] ->
  PHQ9Assessor.per_emotion_frame st n
  = Some (n / Py.Qlen (PHQ9Assessor.emotion_history st)).
Proof.
  unfold PHQ9Assessor.per_emotion_frame.
  destruct (PHQ9Assessor.emotion_history st); [congruence | reflexivity].
Qed.

Lemma suicidal_ideation_cases (st : PHQ9Assessor.State) :
  match PHQ9Assessor._assess_suicidal_ideation st with
  | Some v => v = 0%Z \/ v = 1%Z
  | None => PHQ9Assessor.emotion_history st = []
  end.
Proof.
  unfold PHQ9Assessor._assess_suicidal_ideation, PHQ9Assessor.per_emotion_frame.
  destruct (PHQ9Assessor.emotion_history st) as [|r h]; [reflexivity|].
  case_guards; auto.
Qed.

(** C7.  With fewer than 300 emotion frames [PHQ9Assessor.assess] returns
    the [insufficient_data] status and leaves the assessor untouched; with
    fewer than [short_window] frames [TemporalFeatureAnalyzer.analyze] and
    [get_depression_indicators] return their [insufficient_data] status.
    Neither carries a numeric score. *)
Theorem C7_insufficient_history_status :
  forall (p : PHQ9Assessor.State) (t : TemporalFeatureAnalyzer.State),
    (length (PHQ9Assessor.emotion_history p) < 300)%nat ->
    (length (TemporalFeatureAnalyzer.emotion_history t)
     < TemporalFeatureAnalyzer.short_window t)%nat ->
    PHQ9Assessor.assess p = Some (PHQ9Assessor.insufficient_data, p)
    /\ TemporalFeatureAnalyzer.analyze t = TemporalFeatureAnalyzer.insufficient_data
    /\ TemporalFeatureAnalyzer.get_depression_indicators t
       = TemporalFeatureAnalyzer.indicators_insufficient_data.
Proof.
  intros p t Hp Ht.
  assert (A : TemporalFeatureAnalyzer.analyze t = TemporalFeatureAnalyzer.insufficient_data).
  { unfold TemporalFeatureAnalyzer.analyze.
    apply Nat.ltb_lt in Ht. rewrite Ht. reflexivity. }
  repeat split.
  - unfold PHQ9Assessor.assess. apply Nat.ltb_lt in Hp. rewrite Hp. reflexivity.
  - exact A.
  - unfold TemporalFeatureAnalyzer.get_depression_indicators. rewrite A. reflexivity.
Qed.

(** Freshly constructed assessor and analyser. *)
Lemma C7_insufficient_history_witness :
  PHQ9Assessor.assess (PHQ9Assessor.init 1800)
  = Some (PHQ9Assessor.insufficient_data, PHQ9Assessor.init 1800)
  /\ TemporalFeatureAnalyzer.analyze TemporalFeatureAnalyzer.default
     = TemporalFeatureAnalyzer.insufficient_data
  /\ TemporalFeatureAnalyzer.get_depression_indicators TemporalFeatureAnalyzer.default
     = TemporalFeatureAnalyzer.indicators_insufficient_data.
Proof.
  apply (C7_insufficient_history_status
           (PHQ9Assessor.init 1800) TemporalFeatureAnalyzer.default);
    simpl; lia.
Defined.

(** From 300 frames on, the assessor does produce an assessment: none of
    its divisions can fail. *)
Lemma assess_enough_history (st : PHQ9Assessor.State) :
  (300 <= length (PHQ9Assessor.emotion_history st))%nat ->
  exists a st',
    PHQ9Assessor.assess st = Some (PHQ9Assessor.assessed a, st')
    /\ PHQ9Assessor.phq9_total_score a = PHQ9Assessor.items_sum (PHQ9Assessor.phq9_items a)
    /\ PHQ9Assessor._assess_suicidal_ideation st = Some (PHQ9Assessor.PHQ9 (PHQ9Assessor.phq9_items a)).
Proof.
  intro H. unfold PHQ9Assessor.assess.
  assert (E : (length (PHQ9Assessor.emotion_history st) <? 300)%nat = false)
    by (apply Nat.ltb_ge; exact H).
  rewrite E.
  assert (N : PHQ9Assessor.emotion_history st <> []).
  { intro Z. rewrite Z in H. simpl in H. lia. }
  unfold PHQ9Assessor._assess_anhedonia, PHQ9Assessor._assess_depressed_mood,
    PHQ9Assessor._assess_suicidal_ideation.
  rewrite !(per_emotion_frame_some st _ N).
  eexists. eexists. split; [reflexivity|]. split; reflexivity.
Qed.

(** C10.  [_assess_suicidal_ideation] returns 0 or 1 on every non-empty
    history (and raises on the empty one), and every outcome of [assess]
    is either the insufficient-data status or an assessment whose item 9
    is 0 or 1 and whose total is the sum of the nine items: item 9 adds at
    most one point. *)
Theorem C10_item9_is_zero_or_one :
  forall st : PHQ9Assessor.State,
    match PHQ9Assessor._assess_suicidal_ideation st with
    | Some v => v = 0%Z \/ v = 1%Z
    | None => PHQ9Assessor.emotion_history st = []
    end
    /\ match PHQ9Assessor.assess st with
       | Some (PHQ9Assessor.assessed a, _) =>
           let i := PHQ9Assessor.phq9_items a in
           (PHQ9Assessor.PHQ9 i = 0%Z \/ PHQ9Assessor.PHQ9 i = 1%Z)
           /\ PHQ9Assessor.phq9_total_score a
              = (PHQ9Assessor.PHQ1 i + PHQ9Assessor.PHQ2 i + PHQ9Assessor.PHQ3 i
                 + PHQ9Assessor.PHQ4 i + PHQ9Assessor.PHQ5 i + PHQ9Assessor.PHQ6 i
                 + PHQ9Assessor.PHQ7 i + PHQ9Assessor.PHQ8 i + PHQ9Assessor.PHQ9 i)%Z
       | Some (PHQ9Assessor.insufficient_data, _) =>
           (length (PHQ9Assessor.emotion_history st) < 300)%nat
       | None => False
       end.
Proof.
  intro st. split; [apply suicidal_ideation_cases|].
  destruct (Nat.lt_ge_cases (length (PHQ9Assessor.emotion_history st)) 300) as [L|G].
  - unfold PHQ9Assessor.assess.
    assert (E := L). apply Nat.ltb_lt in E. rewrite E. exact L.
  - destruct (assess_enough_history st G) as (a & st' & Ha & Ht & H9).
    rewrite Ha. cbv zeta. split.
    + pose proof (suicidal_ideation_cases st) as C. rewrite H9 in C. exact C.
    + exact Ht.
Qed.

(** ** The medical-grade scorer: severity and the self-harm item (C1) *)

Section MedicalScorer.

Import MedicalGradeClinicalAssessor Scenarios.

Lemma b2z_bounds (b : bool) : (0 <= b2z b 1 <= 1)%Z.
Proof. destruct b; simpl; lia. Qed.

Lemma symptom_scores_bounds hist e a eye g (s : Symptom) :
  (0 <= symptom_scores hist e a eye g s <= 3)%Z.
Proof.
  destruct s; simpl;
    unfold _assess_sleep_problems, _assess_fatigue, _assess_self_worth,
      _assess_concentration, _assess_psychomotor, _assess_suicidal_risk, min3;
    repeat match goal with
           | |- context [b2z ?b 1] => pose proof (b2z_bounds b); generalize dependent (b2z b 1); intros
           | |- context [if ?c then _ else _] => destruct c
           end; lia.
Qed.

Lemma weighted_ratio_bounds (sc : Symptom -> Z) :
  (forall s, (0 <= sc s <= 3)%Z) ->
  let weighted_total := Py.Qsum (map (fun s => inject_Z (sc s) * weight s) all_symptoms) in
  let max_weighted := Py.Qsum (map (fun s => 3 * weight s) all_symptoms) in
  0 <= weighted_total / max_weighted * 27 <= 27.
Proof.
  intros H wt mw.
  assert (M : mw == 29.1) by (unfold mw; vm_compute; reflexivity).
  assert (B : 0 <= wt <= 29.1).
  { unfold wt. simpl.
    repeat match goal with
           | |- context [inject_Z (sc ?s)] =>
               let x := fresh "x" in
               pose proof (H s) as [? ?];
               assert (0 <= inject_Z (sc s) <= 3)
                 by (split; [change 0 with (inject_Z 0) | change 3 with (inject_Z 3)];
                     rewrite <- Zle_Qle; assumption);
               generalize dependent (inject_Z (sc s)); intros x; intros
           end.
    split; lra. }
  rewrite M. split.
  - apply Qmult_le_0_compat; [|lra]. apply Qle_shift_div_l; lra.
  - setoid_replace (wt / 29.1 * 27) with (wt * (27 / 29.1)) by field.
    setoid_replace (27 / 29.1) with (270 # 291) by reflexivity. lra.
Qed.

Lemma py_int_bounds (x : Q) : 0 <= x <= 27 -> (0 <= py_int x <= 27)%Z.
Proof.
  intros [L U]. unfold py_int.
  assert (E : Qle_bool 0 x = true) by (apply Qle_bool_iff; exact L).
  rewrite E. split.
  - rewrite <- (Qfloor_Z 0). apply Qfloor_resp_le. exact L.
  - rewrite <- (Qfloor_Z 27). apply Qfloor_resp_le. exact U.
Qed.

Lemma total_bounds hist e a eye g :
  (0 <= total (_calculate_phq9_scores hist e a eye g) <= 27)%Z.
Proof.
  unfold _calculate_phq9_scores.
  destruct (_determine_severity _) as [sv rl] eqn:E. cbn [total].
  apply py_int_bounds.
  apply (weighted_ratio_bounds (symptom_scores hist e a eye g)).
  apply symptom_scores_bounds.
Qed.

Lemma severity_is_band hist e a eye g :
  let p := _calculate_phq9_scores hist e a eye g in
  (severity p, risk_level p) = _determine_severity (total p).
Proof.
  unfold _calculate_phq9_scores.
  destruct (_determine_severity _) as [sv rl] eqn:E.
  cbn [total severity risk_level]. symmetry. exact E.
Qed.

Lemma determine_severity_severe (t : Z) :
  (0 <= t <= 27)%Z ->
  (fst (_determine_severity t) = "severe" <-> (20 <= t)%Z).
Proof.
  intro B. unfold _determine_severity, RISK_LEVELS, severity_lookup.
  repeat match goal with
         | |- context [(?x <=? ?y)%Z] => destruct (Z.leb_spec x y)
         end; simpl; split; intro Hs; try discriminate; try lia; reflexivity.
Qed.

(** C1 at the failing path.  On a frame recognised as sad with confidence
    0.9 a fresh assessor scores the self-harm item 1 and raises the
    call-the-hotline alarm, yet reports a total of 7 and the tier [mild]:
    [_determine_severity] reads the total alone, so an assessment with a
    self-harm sub-score of at least 1 and a total below 20 is never
    [severe].  The sibling [AdvancedMultimodalAssessor._assess_risk] does
    force [severe] on a positive self-harm score. *)
Theorem C1_self_harm_item_leaves_tier_to_total :
  ((1 <= scores (phq9_scores first_sad_assessment) suicidal_thoughts)%Z
   /\ total_score first_sad_assessment = 7%Z
   /\ a_severity first_sad_assessment = "mild"
   /\ a_risk_level first_sad_assessment = "mild"
   /\ In rec_suicide_call_hotline (recommendations first_sad_assessment))
  /\ (forall hist e a eye g c t,
        let p := _calculate_phq9_scores hist e a eye g in
        (1 <= scores p suicidal_thoughts)%Z ->
        (total p < 20)%Z ->
        severity p <> "severe"
        /\ In rec_suicide_call_hotline (_generate_recommendations p c t))
  /\ (forall (overall_score : Q) (total : Z) (suicidal : Z),
        (0 < suicidal)%Z ->
        AdvancedMultimodalAssessor.level
          (AdvancedMultimodalAssessor._assess_risk overall_score total (Some suicidal))
        = "severe").
Proof.
  split; [|split].
  - vm_compute. repeat split; try discriminate. right. left. reflexivity.
  - intros hist e a eye g c t p H T.
    pose proof (total_bounds hist e a eye g) as B.
    pose proof (severity_is_band hist e a eye g) as S. cbv zeta in S.
    fold p in B, S. split.
    + intro Hs. assert (F : fst (_determine_severity (total p)) = "severe").
      { rewrite <- S. exact Hs. }
      apply (determine_severity_severe _ B) in F. lia.
    + unfold _generate_recommendations.
      apply Z.leb_le in H. rewrite H.
      rewrite !in_app_iff. right. right. right. left. reflexivity.
  - intros o t z Hz. unfold AdvancedMultimodalAssessor._assess_risk.
    cbn [AdvancedMultimodalAssessor.level Py.get].
    apply Z.ltb_lt in Hz. rewrite Hz. reflexivity.
Qed.

(** The sad frame as an instance of the general part. *)
Lemma C1_self_harm_item_leaves_tier_to_total_witness :
  let p := _calculate_phq9_scores [sad_frame] sad_frame no_aus no_eye no_genuineness in
  severity p <> "severe"
  /\ In rec_suicide_call_hotline
        (_generate_recommendations p
           (_detect_concealed_depression sad_frame [] no_genuineness) "stable").
Proof.
  apply (proj1 (proj2 C1_self_harm_item_leaves_tier_to_total)
               [sad_frame] sad_frame no_aus no_eye no_genuineness).
  - vm_compute. discriminate.
  - vm_compute. reflexivity.
Defined.

End MedicalScorer.

(** ** The emotion recogniser's distributions (C2) *)

Section RecogniserDistributions.

Import EmotionRecognizer Scenarios Invariants.

Lemma set_nonneg (k : string) (v : Q) (d : Dist) :
  0 <= v -> nonneg d -> nonneg (set k v d).
Proof.
  intros Hv H. induction H as [|[k' v'] r Hx Hr IH]; simpl.
  - constructor.
  - destruct (String.eqb k k'); constructor; auto.
Qed.

Lemma prob_nonneg (d : Dist) (k : string) : nonneg d -> 0 <= prob d k.
Proof.
  unfold prob. intro H. induction H as [|[k' v'] r Hx Hr IH]; simpl.
  - apply Qle_refl.
  - destruct (String.eqb k k'); simpl; auto.
Qed.

Lemma add_nonneg (k : string) (v : Q) (d : Dist) :
  0 <= v -> nonneg d -> nonneg (add k v d).
Proof.
  intros Hv H. unfold add. apply set_nonneg; [|exact H].
  pose proof (prob_nonneg d k H). lra.
Qed.

Lemma zeros_nonneg : nonneg zeros.
Proof. unfold zeros, EMOTIONS, nonneg. simpl. repeat constructor; simpl; lra. Qed.

Lemma emotion_scores_nonneg (d : AUData) : nonneg (emotion_scores d).
Proof.
  unfold emotion_scores.
  assert (F : forall l s, nonneg s ->
            nonneg (fold_left (fun s expr =>
                                 match Py.lookup expr expression_emotion_map with
                                 | Some mapped => add mapped 0.3 s
                                 | None => s
                                 end) l s)).
  { induction l as [|x l IH]; intros s Hs; cbn [fold_left]; [exact Hs|].
    apply IH. destruct (Py.lookup x expression_emotion_map);
      [apply add_nonneg; [lra | exact Hs] | exact Hs]. }
  specialize (F (micro_expressions d) zeros zeros_nonneg).
  repeat match goal with
         | |- nonneg (if ?c then _ else _) => destruct c
         | |- nonneg (add _ _ _) => apply add_nonneg; [lra|]
         end; exact F.
Qed.

Lemma Qsum_scaled (t : Q) (d : Dist) :
  Py.Qsum (values (map (fun es => (fst es, snd es / t)) d)) == Py.Qsum (values d) / t.
Proof.
  unfold values. induction d as [|[k v] r IH]; simpl.
  - unfold Qdiv. ring.
  - rewrite IH. unfold Qdiv. ring.
Qed.

Lemma Qsum_nonneg (d : Dist) : nonneg d -> 0 <= Py.Qsum (values d).
Proof.
  unfold values. intro H. induction H as [|[k v] r Hx Hr IH]; simpl in *; lra.
Qed.

Lemma member_le_Qsum (d : Dist) :
  nonneg d -> Forall (fun kv => snd kv <= Py.Qsum (values d)) d.
Proof.
  unfold values. intro H. induction H as [|[k v] r Hx Hr IH]; simpl in *.
  - constructor.
  - pose proof (Qsum_nonneg r Hr) as S. unfold values in S.
    constructor; simpl; [lra|].
    eapply Forall_impl; [|exact IH]. simpl. intros a Ha. lra.
Qed.

(** The AU-rule path normalises its scores: the distribution it returns
    sums to 1 and every entry lies in [0, 1]. *)
Lemma au_path_is_distribution (d : AUData) :
  let r := _recognize_by_au d in
  Py.Qsum (values (probabilities r)) == 1
  /\ Forall (fun kv => 0 <= snd kv <= 1) (probabilities r).
Proof.
  unfold _recognize_by_au. cbn [probabilities].
  pose proof (emotion_scores_nonneg d) as N.
  destruct (Py.Qgtb (Py.Qsum (values (emotion_scores d))) 0) eqn:E.
  - apply Qgtb_true in E. split.
    + rewrite Qsum_scaled. field. lra.
    + pose proof (member_le_Qsum _ N) as M.
      apply Forall_map.
      unfold nonneg in N. rewrite Forall_forall in N, M |- *. intros kv Hin. simpl.
      specialize (N kv Hin). specialize (M kv Hin). simpl in N, M. split.
      * apply Qle_shift_div_l; lra.
      * apply Qle_shift_div_r; lra.
  - split; [vm_compute; reflexivity|].
    unfold zeros, EMOTIONS. simpl. repeat constructor; simpl; lra.
Qed.

Lemma set_keys (k : string) (v : Q) (d : Dist) : map fst (set k v d) = map fst d.
Proof.
  induction d as [|[k' v'] r IH]; [reflexivity|].
  cbn [set]. destruct (String.eqb k k'); cbn [map fst]; [reflexivity|].
  rewrite IH. reflexivity.
Qed.

Lemma emotion_scores_keys (d : AUData) : map fst (emotion_scores d) = EMOTIONS.
Proof.
  unfold emotion_scores.
  assert (F : forall l s, map fst s = EMOTIONS ->
            map fst (fold_left (fun s expr =>
                                  match Py.lookup expr expression_emotion_map with
                                  | Some mapped => add mapped 0.3 s
                                  | None => s
                                  end) l s) = EMOTIONS).
  { induction l as [|x l IH]; intros s Hs; cbn [fold_left]; [exact Hs|].
    apply IH. destruct (Py.lookup x expression_emotion_map); [|exact Hs].
    unfold add. rewrite set_keys. exact Hs. }
  specialize (F (micro_expressions d) zeros eq_refl).
  repeat match goal with
         | |- map fst (if ?c then _ else _) = _ => destruct c
         | |- map fst (add _ _ _) = _ => unfold add at 1; rewrite set_keys
         end; exact F.
Qed.

Lemma au_path_keys (d : AUData) : map fst (probabilities (_recognize_by_au d)) = EMOTIONS.
Proof.
  unfold _recognize_by_au. cbn [probabilities].
  destruct (Py.Qgtb _ 0).
  - rewrite map_map. cbn [fst]. apply emotion_scores_keys.
  - reflexivity.
Qed.

(** Reading a dictionary keyed by [EMOTIONS] at each emotion in turn gives
    back its values. *)
Lemma prob_over_EMOTIONS (d : Dist) :
  map fst d = EMOTIONS -> map (prob d) EMOTIONS = values d.
Proof.
  unfold EMOTIONS, values. intro K.
  repeat (destruct d as [|[? ?] d]; [discriminate K|]).
  destruct d; [|discriminate K].
  cbn [map fst] in K. injection K as -> -> -> -> -> -> ->.
  reflexivity.
Qed.

Lemma Qsum_convex (xs ys : list Q) :
  length xs = length ys ->
  Py.Qsum (map (fun p => fst p * 0.7 + snd p * 0.3) (combine xs ys))
  == Py.Qsum xs * 0.7 + Py.Qsum ys * 0.3.
Proof.
  revert ys. induction xs as [|x xs IH]; intros [|y ys] L; try discriminate L.
  - cbn. ring.
  - cbn [combine map Py.Qsum fst snd]. rewrite IH by (injection L; auto). ring.
Qed.

Lemma map_weighted_pair (f g : string -> Q) (l : list string) :
  map (fun x => f x * 0.7 + g x * 0.3) l
  = map (fun p => fst p * 0.7 + snd p * 0.3) (combine (map f l) (map g l)).
Proof.
  induction l as [|x l IH]; [reflexivity|].
  cbn [map combine fst snd]. rewrite IH. reflexivity.
Qed.

(** The fused path keeps what it is given: when the row returned by the
    model is a distribution over the seven emotions, so is the fusion with
    the AU-rule distribution. *)
Lemma fused_path_is_distribution (outputs : list Q) (d : AUData) :
  length outputs = length EMOTIONS ->
  Py.Qsum outputs == 1 ->
  Forall (fun p => 0 <= p <= 1) outputs ->
  let r := _fuse_with_au (_recognize_by_model outputs) d in
  Py.Qsum (values (probabilities r)) == 1
  /\ Forall (fun kv => 0 <= snd kv <= 1) (probabilities r).
Proof.
  intros L S B r.
  destruct (au_path_is_distribution d) as [Sa Ba].
  set (pa := probabilities (_recognize_by_au d)) in *.
  assert (Km : map fst (combine EMOTIONS outputs) = EMOTIONS).
  { clear - L. unfold EMOTIONS in *.
    repeat (destruct outputs as [|? outputs]; [discriminate L|]).
    destruct outputs; [reflexivity | discriminate L]. }
  assert (Vm : values (combine EMOTIONS outputs) = outputs).
  { clear - L. unfold EMOTIONS, values in *.
    repeat (destruct outputs as [|? outputs]; [discriminate L|]).
    destruct outputs; [reflexivity | discriminate L]. }
  assert (E : values (probabilities r)
              = map (fun p => fst p * 0.7 + snd p * 0.3) (combine outputs (values pa))).
  { unfold r, _fuse_with_au, _recognize_by_model. cbn [probabilities]. fold pa.
    unfold values at 1. rewrite map_map. cbn [snd].
    rewrite (map_weighted_pair (prob (combine EMOTIONS outputs)) (prob pa)).
    rewrite (prob_over_EMOTIONS _ Km), (prob_over_EMOTIONS pa (au_path_keys d)), Vm.
    reflexivity. }
  assert (La : length outputs = length (values pa)).
  { unfold values. rewrite length_map, <- (length_map fst pa).
    unfold pa. rewrite au_path_keys. exact L. }
  split.
  - rewrite E, (Qsum_convex _ _ La), S, Sa. reflexivity.
  - assert (F : Forall (fun v => 0 <= v <= 1) (values (probabilities r))).
    { rewrite E. clear E. revert La.
      assert (Ba' : Forall (fun v => 0 <= v <= 1) (values pa)).
      { unfold values. apply Forall_map. exact Ba. }
      clear - B Ba'. generalize dependent (values pa). intro ys. revert outputs B.
      induction ys as [|y ys IH]; intros [|x xs] B Ba La; try discriminate La;
        cbn [combine map]; constructor.
      - inversion B; inversion Ba; subst. cbn [fst snd]. lra.
      - inversion B; inversion Ba; subst. apply IH; auto. }
    unfold values in F. rewrite Forall_map in F. exact F.
Qed.

Lemma smoothing_keeps_probabilities (h : list Recognition) (r : Recognition) :
  probabilities (fst (_temporal_smoothing h r)) = probabilities r
  /\ method (fst (_temporal_smoothing h r)) = method r.
Proof.
  unfold _temporal_smoothing.
  destruct (length (Py.deque_append 10 h r) <? 3)%nat; simpl; [auto|].
  destruct (negb _); simpl; auto.
Qed.

(** C2 at the failing path.  Without a model and without AU data
    [recognize] answers through [_recognize_by_simple_rule], and for every
    image the dictionary it returns as [probabilities] sums to 0.76 (a
    bright or a dark image: 0.6 for the label, 0.16 for neutral) or to 0.16
    (neutral alone), never to 1 within 1e-6. *)
Theorem C2_simple_rule_sum_is_not_one :
  forall (use_au_fusion : bool) (history : list Recognition) (mean_brightness : Q),
    let r := fst (recognize use_au_fusion history None mean_brightness None) in
    method r = "simple_rule"
    /\ (Py.Qsum (values (probabilities r)) == 0.76
        \/ Py.Qsum (values (probabilities r)) == 0.16)
    /\ ~ Qabs (Py.Qsum (values (probabilities r)) - 1) <= 1e-6.
Proof.
  intros u h b. unfold recognize.
  destruct (smoothing_keeps_probabilities h (_recognize_by_simple_rule b)) as [P M].
  cbv zeta. rewrite P, M. clear P M.
  unfold _recognize_by_simple_rule.
  destruct (Py.Qgtb b 150); [|destruct (Py.Qltb b 80)];
    (split; [reflexivity|]); split;
    solve [ left; vm_compute; reflexivity
          | right; vm_compute; reflexivity
          | vm_compute; intro H; apply H; reflexivity ].
Qed.

End RecogniserDistributions.

(** ** Concealed affect (C4) and smile genuineness (C5) *)

Section Genuineness.

Import GenuineEmotionDetector Scenarios.

Lemma micro_count_pos (label : string) (micro : list MicroEvent) :
  In (mkMicroEvent (Some label)) micro -> (0 < micro_count label micro)%nat.
Proof.
  unfold micro_count. induction micro as [|m r IH]; intro H; [destruct H|].
  destruct H as [E|H]; cbn [map count_occ_string].
  - subst m. unfold micro_label at 1. cbn [micro_emotion Py.get].
    rewrite String.eqb_refl. lia.
  - specialize (IH H). lia.
Qed.

Lemma hidden_events_counted (label : string) (micro : list MicroEvent) :
  label = "sadness" \/ label = "fear" ->
  In (mkMicroEvent (Some label)) micro ->
  (0 < fold_right (fun e n => micro_count e micro + n) 0
         (filter (fun e => 0 <? micro_count e micro) ["sadness"; "fear"; "anger"]))%nat.
Proof.
  intros L H. pose proof (micro_count_pos label micro H) as P.
  cbn [filter].
  destruct L; subst label.
  - assert (E := P). apply Nat.ltb_lt in E. rewrite E. cbn [fold_right]. lia.
  - assert (E := P). apply Nat.ltb_lt in E. rewrite E.
    destruct (0 <? micro_count "sadness" micro)%nat; cbn [fold_right]; lia.
Qed.

Lemma negative_micro_found (label : string)
      (micro : list MedicalGradeClinicalAssessor.MicroExpression) :
  label = "sadness" \/ label = "fear" ->
  In (MedicalGradeClinicalAssessor.mkMicroExpression (Some label)) micro ->
  (0 < length (filter MedicalGradeClinicalAssessor.micro_is_negative micro))%nat.
Proof.
  intros L H. induction micro as [|m r IH]; [destruct H|].
  cbn [filter]. destruct H as [E|H].
  - subst m. destruct L; subst label; simpl; lia.
  - specialize (IH H).
    destruct (MedicalGradeClinicalAssessor.micro_is_negative m); simpl; lia.
Qed.

(** C4, as the code has it.  The concealed-affect analysis compares
    against the labels ["happiness"]/["neutral"] and
    ["sadness"]/["fear"] (and ["anger"]): for such a macro label and a
    micro-expression list holding at least one such event, the detector's
    inconsistency score is positive.  The clinical assessor's score is
    positive for the macro label ["neutral"] and such an event, as long as
    the reported fake probability is not negative. *)
Theorem C4_concealed_score_positive :
  forall (macro label : string) (micro : list MicroEvent)
         (confidence : option Q) (g : MedicalGradeClinicalAssessor.GenuinenessResult)
         (micro' : list MedicalGradeClinicalAssessor.MicroExpression),
    macro = "happiness" \/ macro = "neutral" ->
    label = "sadness" \/ label = "fear" ->
    In (mkMicroEvent (Some label)) micro ->
    In (MedicalGradeClinicalAssessor.mkMicroExpression (Some label)) micro' ->
    0 <= Py.get (MedicalGradeClinicalAssessor.fake_probability g) 0 ->
    0 < inconsistency_score (detect_concealed_depression macro micro)
    /\ 0 < MedicalGradeClinicalAssessor.inconsistency_score
             (MedicalGradeClinicalAssessor._detect_concealed_depression
                (MedicalGradeClinicalAssessor.mkEmotionResult (Some "neutral") confidence)
                micro' g).
Proof.
  intros macro label micro conf g micro' Hm Hl Hin Hin' Hf.
  assert (M : Py.mem macro ["happiness"; "neutral"] = true)
    by (destruct Hm; subst macro; reflexivity).
  assert (M' : Py.mem "neutral" ["happiness"; "neutral"] = true) by reflexivity.
  split.
  - unfold detect_concealed_depression. cbn [inconsistency_score]. rewrite M.
    assert (T : (0 < length micro)%nat) by (destruct micro; [destruct Hin | simpl; lia]).
    assert (E := T). apply Nat.ltb_lt in E. rewrite E.
    pose proof (hidden_events_counted label micro Hl Hin) as P.
    apply Qlt_shift_div_l.
    + change 0 with (inject_Z 0). rewrite <- Zlt_Qlt. lia.
    + rewrite Qmult_0_l. change 0 with (inject_Z 0). rewrite <- Zlt_Qlt. lia.
  - unfold MedicalGradeClinicalAssessor._detect_concealed_depression.
    cbn [MedicalGradeClinicalAssessor.inconsistency_score
           MedicalGradeClinicalAssessor.emotion Py.get].
    rewrite M'.
    pose proof (negative_micro_found label micro' Hl Hin') as P.
    apply Nat.ltb_lt in P. rewrite P. cbn [andb].
    destruct (negb _); lra.
Qed.

(** Under the recognisers' labels the analysis stays silent: a happy (or
    neutral) macro label with a micro-expression labelled ["sad"] scores
    0, in the detector and in the clinical assessor. *)
Lemma C4_counterexample :
  inconsistency_score (detect_concealed_depression "happy" [mkMicroEvent (Some "sad")]) == 0
  /\ ~ 0 < inconsistency_score
             (detect_concealed_depression "happy" [mkMicroEvent (Some "sad")])
  /\ ~ 0 < inconsistency_score
             (detect_concealed_depression "neutral" [mkMicroEvent (Some "sad")])
  /\ ~ 0 < MedicalGradeClinicalAssessor.inconsistency_score
             (MedicalGradeClinicalAssessor._detect_concealed_depression
                (MedicalGradeClinicalAssessor.mkEmotionResult (Some "happy") (Some 0.9))
                [MedicalGradeClinicalAssessor.mkMicroExpression (Some "sad")]
                no_genuineness).
Proof.
  repeat split; vm_compute; intro H; discriminate H.
Qed.

(** One ["sadness"] micro-expression under a ["happiness"] macro label
    (["neutral"] for the assessor). *)
Lemma C4_concealed_score_positive_witness :
  0 < inconsistency_score
        (detect_concealed_depression "happiness" [mkMicroEvent (Some "sadness")])
  /\ 0 < MedicalGradeClinicalAssessor.inconsistency_score
           (MedicalGradeClinicalAssessor._detect_concealed_depression
              (MedicalGradeClinicalAssessor.mkEmotionResult (Some "neutral") (Some 0.9))
              [MedicalGradeClinicalAssessor.mkMicroExpression (Some "sadness")]
              no_genuineness).
Proof.
  apply (C4_concealed_score_positive "happiness" "sadness").
  - left. reflexivity.
  - left. reflexivity.
  - simpl. left. reflexivity.
  - simpl. left. reflexivity.
  - vm_compute. discriminate.
Defined.

Lemma max_abs_below (t : Q) (l : list Q) :
  l <> [] -> Forall (fun d => Qabs d < t) l -> max_abs l < t.
Proof.
  intros N F. induction F as [|x r Hx Hr IH]; [congruence|].
  cbn [max_abs]. destruct (Py.Qgtb (Qabs x) (max_abs r)) eqn:E; [exact Hx|].
  destruct r as [|y r']; [|apply IH; discriminate].
  cbn [max_abs]. pose proof (Qabs_nonneg x). lra.
Qed.

Lemma diff_of_ten (h : list Q) :
  (10 <= length h)%nat -> diff (Py.lastn 10 h) <> [].
Proof.
  intro L. unfold Py.lastn.
  pose proof (length_skipn (length h - 10) h) as S.
  destruct (skipn (length h - 10) h) as [|x [|y r]]; cbn [length] in S; try lia.
  cbn [diff]. discriminate.
Qed.

Lemma onset_natural_of_small_deltas (st : State) (au : Tracked) :
  Forall (fun d => Qabs d < onset_threshold st)
         (diff (Py.lastn 10 (au_intensity_history st au))) ->
  _check_onset_naturalness st au = true.
Proof.
  intro F. unfold _check_onset_naturalness.
  destruct (length (au_intensity_history st au) <? 10)%nat eqn:E; [reflexivity|].
  apply Nat.ltb_ge in E. apply Qltb_true.
  apply max_abs_below; [apply diff_of_ten; exact E | exact F].
Qed.

(** C5, as the code has it.  The analyser's happy label is
    ["happiness"]: under it, with AU6 and AU12 active at intensity 3 or
    more, a current duration within [0.5 s, 4 s] and the AU12 intensity
    steps of the last ten frames all below the onset and offset thresholds,
    [analyze] returns [is_genuine = true] with a score of at least 0.6. *)
Theorem C5_genuine_smile_under_happiness :
  forall (st : State) (au_results : AUResults) (timestamp : Q),
    let st1 := track st "happiness" au_results timestamp in
    let steps := diff (Py.lastn 10 (au_intensity_history st1 T_AU12)) in
    entry_active au_results "AU6" = true ->
    entry_active au_results "AU12" = true ->
    3 <= entry_intensity au_results "AU6" ->
    3 <= entry_intensity au_results "AU12" ->
    0.5 <= emotion_duration st1 <= 4 ->
    Forall (fun d => Qabs d < onset_threshold st) steps ->
    Forall (fun d => Qabs d < offset_threshold st) steps ->
    let v := fst (analyze st "happiness" au_results timestamp) in
    is_genuine v = true /\ 0.6 <= genuineness_score v.
Proof.
  intros st au ts st1 steps A6 A12 I6 I12 [Dl Du] On Off v.
  assert (N : _check_onset_naturalness st1 T_AU12 = true)
    by (apply onset_natural_of_small_deltas; exact On).
  unfold v, analyze. fold st1. cbn [String.eqb Ascii.eqb Bool.eqb fst].
  unfold _analyze_smile_genuineness, _check_offset_naturalness.
  cbn [is_genuine genuineness_score].
  rewrite A6, A12, N. cbn [andb].
  assert (D0 : Py.Qgtb (emotion_duration st1) 0 = true) by (apply Qgtb_true; lra).
  assert (D1 : Qle_bool 0.5 (emotion_duration st1) = true) by (apply Qle_bool_iff; exact Dl).
  assert (D2 : Qle_bool (emotion_duration st1) 4.0 = true) by (apply Qle_bool_iff; lra).
  rewrite D0, D1, D2. cbn [andb].
  case_guards; split; first [reflexivity | lra].
Qed.

(** Two smile frames one second apart under the recognisers' label
    ["happy"]: every condition on the AUs, the duration and the intensity
    steps holds, and the verdict is the default one with score 0.5. *)
Lemma C5_counterexample :
  let st1 := track (after_first_smile "happy") "happy" smile_aus 101 in
  entry_active smile_aus "AU6" = true
  /\ entry_active smile_aus "AU12" = true
  /\ 3 <= entry_intensity smile_aus "AU6"
  /\ 3 <= entry_intensity smile_aus "AU12"
  /\ emotion_duration st1 == 1
  /\ forallb (fun d => Py.Qltb (Qabs d) 0.3)
             (diff (Py.lastn 10 (au_intensity_history st1 T_AU12))) = true
  /\ is_genuine (second_smile_verdict "happy") = true
  /\ genuineness_score (second_smile_verdict "happy") == 0.5
  /\ ~ 0.6 <= genuineness_score (second_smile_verdict "happy").
Proof.
  cbv zeta. repeat split; vm_compute; try reflexivity; try discriminate.
  intro H. apply H. reflexivity.
Qed.

(** The same two frames under ["happiness"]. *)
Lemma C5_genuine_smile_under_happiness_witness :
  is_genuine (second_smile_verdict "happiness") = true
  /\ 0.6 <= genuineness_score (second_smile_verdict "happiness").
Proof.
  apply (C5_genuine_smile_under_happiness (after_first_smile "happiness") smile_aus 101);
    try (vm_compute; reflexivity);
    try (vm_compute; discriminate);
    try (split; vm_compute; discriminate);
    vm_compute; repeat constructor.
Defined.

End Genuineness.

(** ** The temporal smoother (C8) *)

Lemma deque_append_constant_window {A : Type} (W : nat) (x : A) :
  Py.deque_append W (repeat x W) x = repeat x W.
Proof.
  unfold Py.deque_append, Py.lastn.
  rewrite length_app, repeat_length. cbn [length].
  replace (W + 1 - W)%nat with 1%nat by lia.
  destruct W as [|w]; [reflexivity|].
  cbn [repeat app skipn]. rewrite <- repeat_cons. reflexivity.
Qed.

Lemma push_many_constant_window {A : Type} (W n : nat) (x : A) :
  Py.push_many W (repeat x W) x n = repeat x W.
Proof.
  unfold Py.push_many. induction n as [|n IH]; [reflexivity|].
  rewrite Nat.iter_succ, IH. apply deque_append_constant_window.
Qed.

(** C8.  A window already filled with one (activation, intensity) value
    is left as it is by any number of further pushes of that value, so the
    majority vote and the mean reported after [W] more pushes are the ones
    reported before. *)
Theorem C8_smoothing_idempotent :
  forall (W n : nat) (a : bool) (i : Z),
    Py.push_many W (repeat a W) a n = repeat a W
    /\ Py.push_many W (repeat i W) i n = repeat i W
    /\ Py.vote (Py.push_many W (repeat a W) a W) = Py.vote (repeat a W)
    /\ AdvancedAUDetector.Zmean (Py.push_many W (repeat i W) i W)
       = AdvancedAUDetector.Zmean (repeat i W).
Proof.
  intros W n a i. rewrite !push_many_constant_window. repeat split.
Qed.

(** ** The basic AU classifier *)

Section BasicDetector.

Import AUDetector Scenarios Invariants.

Lemma all_AUs_complete (au : AU) : In au all_AUs.
Proof. destruct au; simpl; tauto. Qed.











(** C6 at the failing path.  The basic detector divides by [abs(baseline)]
    whenever the baseline is not exactly zero: calibrated with the mouth
    corners level to within 1e-9, a frame whose corners rise by 0.01 is
    reported with an AU12 intensity of 9999999, and in general the
    intensity exceeds any bound for a small enough non-zero baseline. *)
Theorem C6_basic_detector_divides_unguarded :
  (exists b i,
      baseline calibrated_level_mouth AU12 = Some b
      /\ b == 1e-9
      /\ au_intensities (fst (detect calibrated_level_mouth (mouth_features 0.01))) AU12
         = Some i
      /\ i == 9999999)
  /\ forall B : Q, exists b : Q, ~ b == 0 /\ B < Qabs (relative_intensity 1 b).
Proof.
  split.
  - eexists. eexists.
    split; [vm_compute; reflexivity|].
    split; [vm_compute; reflexivity|].
    split; vm_compute; reflexivity.
  - intro B.
    set (k := (Z.to_pos (Qceiling (Qabs B)) + 2)%positive).
    exists (1 # k). split; [intro H; discriminate H|].
    assert (R : relative_intensity 1 (1 # k) == inject_Z (Zpos k) - 1).
    { unfold relative_intensity.
      assert (N : Py.Qneqb (1 # k) 0 = true) by reflexivity.
      rewrite N. rewrite (Qabs_pos (1 # k)) by discriminate.
      unfold Qdiv. change (/ (1 # k)) with (inject_Z (Zpos k)).
      setoid_replace (1 # k) with (/ inject_Z (Zpos k)) by reflexivity.
      field. intro H; discriminate H. }
    rewrite R.
    assert (K : Qabs B + 1 <= inject_Z (Zpos k) - 1).
    { pose proof (Qle_ceiling (Qabs B)) as C.
      pose proof (Qabs_nonneg B) as P.
      assert (Z0 : (0 <= Qceiling (Qabs B))%Z).
      { rewrite <- (Qceiling_Z 0). apply Qceiling_resp_le. exact P. }
      assert (E : inject_Z (Zpos k) == inject_Z (Qceiling (Qabs B)) + 2
                  \/ inject_Z (Zpos k) == 1 + 2 /\ Qceiling (Qabs B) = 0%Z).
      { unfold k. destruct (Qceiling (Qabs B)) as [|p|p] eqn:Ec.
        - right. split; reflexivity.
        - left. cbn [Z.to_pos]. rewrite Pos2Z.inj_add.
          rewrite inject_Z_plus. reflexivity.
        - lia. }
      destruct E as [E|[E Ez]].
      - rewrite E. lra.
      - rewrite E. rewrite Ez in C. change (inject_Z 0) with 0 in C. lra. }
    pose proof (Qle_Qabs B) as L. pose proof (Qabs_nonneg B) as P.
    assert (A : Qabs (inject_Z (Z.pos k) - 1) == inject_Z (Z.pos k) - 1)
      by (apply Qabs_pos; lra).
    rewrite A. lra.
Qed.

End BasicDetector.

(** ** The advanced AU classifier: thresholds (C9) and baseline frames (C3) *)

Section AdvancedDetector.

Import AdvancedAUDetector Scenarios Invariants.

Lemma INITIAL_THRESHOLDS_pos (au : AU) : 0 < INITIAL_THRESHOLDS au.
Proof. destruct au; reflexivity. Qed.

Lemma np_clip_cases (x lo hi : Q) :
  lo <= hi ->
  lo <= np_clip x lo hi <= hi
  /\ (lo <= x <= hi -> np_clip x lo hi = x)
  /\ (x < lo -> np_clip x lo hi = lo)
  /\ (hi < x -> np_clip x lo hi = hi).
Proof.
  intro H. unfold np_clip.
  destruct (Py.Qltb x lo) eqn:E1.
  - apply Qltb_true in E1.
    destruct (Py.Qgtb lo hi) eqn:E2.
    + apply Qgtb_true in E2. lra.
    + repeat split; intros; try lra; try reflexivity.
  - apply Qltb_false in E1.
    destruct (Py.Qgtb x hi) eqn:E2.
    + apply Qgtb_true in E2. repeat split; intros; try lra; try reflexivity.
    + apply Qgtb_false in E2. repeat split; intros; try lra; try reflexivity.
Qed.

(** One adaptive update moves a threshold that lies within
    [0.5, 2] times its initial value by a factor between 0.99 and 1.01 and
    keeps it in that range. *)
Lemma adapt_one_bounded (frame_count count : nat) (initial t : Q) :
  0 < initial ->
  initial * 0.5 <= t <= initial * 2.0 ->
  let t' := adapt_one frame_count count initial t in
  initial * 0.5 <= t' <= initial * 2.0 /\ 0.99 * t <= t' <= 1.01 * t.
Proof.
  intros Hi [Hl Hu]. unfold adapt_one.
  destruct (frame_count <? 100)%nat; [cbv zeta; repeat split; lra|].
  cbv zeta.
  assert (R : initial * 0.5 <= initial * 2.0) by lra.
  match goal with
  | |- context [np_clip ?x _ _] =>
      destruct (np_clip_cases x (initial * 0.5) (initial * 2.0) R) as (B & Cin & Clo & Chi);
      set (y := x) in *
  end.
  split; [exact B|].
  destruct (Qlt_le_dec y (initial * 0.5)) as [L|L].
  - rewrite (Clo L). subst y.
    destruct (Py.Qgtb _ 0.5); [lra|]. destruct (Py.Qltb _ 0.05); lra.
  - destruct (Qlt_le_dec (initial * 2.0) y) as [U|U].
    + rewrite (Chi U). subst y.
      destruct (Py.Qgtb _ 0.5); [lra|]. destruct (Py.Qltb _ 0.05); lra.
    + rewrite (Cin (conj L U)). subst y.
      destruct (Py.Qgtb _ 0.5); [lra|]. destruct (Py.Qltb _ 0.05); lra.
Qed.

Lemma update_baseline_thresholds (st : State) (f : Features) :
  thresholds (_update_baseline st f) = thresholds st.
Proof. reflexivity. Qed.

Lemma detect_thresholds_step (st : State) (f : Features) (au : AU) :
  thresholds_in_range st ->
  INITIAL_THRESHOLDS au * 0.5 <= thresholds (snd (detect st f)) au
                              <= INITIAL_THRESHOLDS au * 2.0
  /\ 0.99 * thresholds st au <= thresholds (snd (detect st f)) au
                             <= 1.01 * thresholds st au.
Proof.
  intro I. unfold detect. cbn [snd thresholds].
  assert (T : thresholds (if baseline_calibrated st then st else _update_baseline st f)
              = thresholds st)
    by (destruct (baseline_calibrated st); reflexivity).
  rewrite T. specialize (I au).
  match goal with
  | |- context [if ?c then _ else _] => destruct c
  end.
  - unfold _adapt_thresholds.
    apply adapt_one_bounded; [apply INITIAL_THRESHOLDS_pos | exact I].
  - pose proof (INITIAL_THRESHOLDS_pos au). split; [exact I | lra].
Qed.

Lemma step_thresholds (st : State) (c : Call) :
  thresholds_in_range st -> thresholds_in_range (step st c).
Proof.
  intros I au. destruct c as [f|]; cbn [step].
  - apply detect_thresholds_step. exact I.
  - apply I.
Qed.

Lemma run_thresholds (calls : list Call) (st : State) :
  thresholds_in_range st -> thresholds_in_range (run st calls).
Proof.
  unfold run. revert st. induction calls as [|c r IH]; intros st I; cbn [fold_left].
  - exact I.
  - apply IH. apply step_thresholds. exact I.
Qed.

Lemma init_thresholds (n : nat) (ad : bool) (w : nat) : thresholds_in_range (init n ad w).
Proof.
  intro au. unfold init. cbn [thresholds].
  pose proof (INITIAL_THRESHOLDS_pos au). lra.
Qed.

(** C9.  Whatever calls a detector has served since its construction
    (frames and baseline resets, with any configuration), the next frame
    moves each AU's threshold by a factor between 0.99 and 1.01, and the
    threshold stays within [0.5, 2] times the AU's initial threshold, both
    before and after the frame. *)
Theorem C9_adaptive_thresholds_bounded :
  forall (frames : nat) (adaptive : bool) (window : nat)
         (calls : list Call) (f : Features) (au : AU),
    let st := run (init frames adaptive window) calls in
    let st' := snd (detect st f) in
    (INITIAL_THRESHOLDS au * 0.5 <= thresholds st au <= INITIAL_THRESHOLDS au * 2.0)
    /\ (INITIAL_THRESHOLDS au * 0.5 <= thresholds st' au <= INITIAL_THRESHOLDS au * 2.0)
    /\ (0.99 * thresholds st au <= thresholds st' au <= 1.01 * thresholds st au).
Proof.
  intros n ad w calls f au st st'.
  pose proof (run_thresholds calls _ (init_thresholds n ad w)) as I. fold st in I.
  destruct (detect_thresholds_step st f au I) as [B R].
  split; [apply I|]. split; [exact B | exact R].
Qed.




Lemma relative_change_at_baseline (f b : Q) :
  f == b -> relative_change_of f b == 0.
Proof.
  intro E. unfold relative_change_of.
  destruct (Py.Qgtb (Qabs b) 1e-6); [|reflexivity].
  rewrite E. unfold Qdiv. ring.
Qed.

Lemma calculate_intensity_zero (c : Q) : c == 0 -> _calculate_intensity (Qabs c) = 0%Z.
Proof.
  intro E. unfold _calculate_intensity.
  assert (L : Py.Qltb (Qabs c) 0.02 = true).
  { apply Qltb_true. rewrite E. reflexivity. }
  rewrite L. reflexivity.
Qed.



(** The sibling guard: the advanced detector divides only by a baseline
    whose magnitude exceeds 1e-6, reports no deviation otherwise, and maps
    every deviation to a level between 0 and 5. *)
Lemma advanced_division_guarded (f b : Q) :
  (Qabs b <= 1e-6 -> relative_change_of f b = 0)
  /\ (1e-6 < Qabs b -> relative_change_of f b = (f - b) / Qabs b)
  /\ (0 <= _calculate_intensity (Qabs (relative_change_of f b)) <= 5)%Z.
Proof.
  unfold relative_change_of. repeat split.
  - intro H. apply Qgtb_false in H. rewrite H. reflexivity.
  - intro H. apply Qgtb_true in H. rewrite H. reflexivity.
  - unfold _calculate_intensity. case_guards; lia.
  - unfold _calculate_intensity. case_guards; lia.
Qed.

(** One frame of the advanced detector on a window that is full of one
    value, when the frame's own classification is that value again: the
    windows stay as they are and the reported values are the vote and the
    mean of the constant window. *)
Lemma advanced_detect_on_constant_window
      (st : State) (feats : Features) (au : AU) (a : bool) (i : Z) :
  baseline_calibrated st = true ->
  au_activation_history st au = repeat a (smoothing_window st) ->
  au_intensity_history st au = repeat i (smoothing_window st) ->
  let change := relative_change_of (feats au) (Py.get (baseline st au) (feats au)) in
  Py.Qgtb (Qabs change) (thresholds st au) = a ->
  _calculate_intensity (Qabs change) = i ->
  let r := au_results (fst (detect st feats)) au in
  let st' := snd (detect st feats) in
  au_activation_history st' au = au_activation_history st au
  /\ au_intensity_history st' au = au_intensity_history st au
  /\ activated r = Py.vote (repeat a (smoothing_window st))
  /\ intensity r = Zmean (repeat i (smoothing_window st)).
Proof.
  intros C Ha Hi change Ea Ei r st'.
  unfold r, st', detect. rewrite C.
  cbn [fst snd au_results au_activation_history au_intensity_history activated intensity].
  fold change. rewrite Ea, Ei, Ha, Hi, !deque_append_constant_window.
  repeat split.
Qed.

End AdvancedDetector.

(** ** Frames at the calibrated baseline (C3) *)




(** * Further properties of the modelled code *)

(** ** Bounded windows *)

Lemma lastn_length {A : Type} (n : nat) (l : list A) :
  length (Py.lastn n l) = Nat.min n (length l).
Proof. unfold Py.lastn. rewrite length_skipn. lia. Qed.

Lemma deque_append_length {A : Type} (maxlen : nat) (d : list A) (x : A) :
  length (Py.deque_append maxlen d x) = Nat.min maxlen (S (length d)).
Proof.
  unfold Py.deque_append. rewrite lastn_length, length_app. cbn [length]. lia.
Qed.

Lemma lastn_Forall {A : Type} (P : A -> Prop) (n : nat) (l : list A) :
  Forall P l -> Forall P (Py.lastn n l).
Proof.
  intro F. unfold Py.lastn. rewrite Forall_forall in F |- *.
  intros x H. apply F.
  rewrite <- (firstn_skipn (length l - n) l). apply in_or_app. right. exact H.
Qed.

Lemma deque_append_Forall {A : Type} (P : A -> Prop) (maxlen : nat) (d : list A) (x : A) :
  Forall P d -> P x -> Forall P (Py.deque_append maxlen d x).
Proof.
  intros F H. unfold Py.deque_append. apply lastn_Forall.
  apply Forall_app. split; [exact F | constructor; [exact H | constructor]].
Qed.

Lemma vote_short_window (h : list bool) : (length h <= 1)%nat -> Py.vote h = true.
Proof.
  intro L. unfold Py.vote, Py.half_len.
  destruct h as [|a [|b r]]; cbn in *; try reflexivity; lia.
Qed.

Section AdvancedDetectorMore.

Import AdvancedAUDetector.

(** A property kept by every call holds in every state a session can
    reach. *)
Lemma advanced_run_invariant (P : State -> Prop) :
  (forall st c, P st -> P (step st c)) ->
  forall calls st, P st -> P (run st calls).
Proof.
  intros H calls. unfold run.
  induction calls as [|c r IH]; intros st I; cbn [fold_left]; [exact I|].
  apply IH. apply H. exact I.
Qed.

Lemma detect_parameters (st : State) (f : Features) :
  baseline_frames (snd (detect st f)) = baseline_frames st
  /\ smoothing_window (snd (detect st f)) = smoothing_window st
  /\ adaptive_threshold (snd (detect st f)) = adaptive_threshold st.
Proof.
  unfold detect. cbn [snd baseline_frames smoothing_window adaptive_threshold].
  destruct (baseline_calibrated st); repeat split.
Qed.

(** The calibration step of [detect] touches the baseline fields only. *)
Lemma calibration_step_keeps (st : State) (f : Features) :
  let st1 := if baseline_calibrated st then st else _update_baseline st f in
  smoothing_window st1 = smoothing_window st
  /\ au_intensity_history st1 = au_intensity_history st
  /\ au_activation_history st1 = au_activation_history st
  /\ micro_expression_buffer st1 = micro_expression_buffer st
  /\ au_activation_counts st1 = au_activation_counts st
  /\ thresholds st1 = thresholds st
  /\ baseline_frames st1 = baseline_frames st.
Proof. destruct (baseline_calibrated st); repeat split. Qed.

(** X1.  Every buffer of the advanced detector is bounded in every state a
    session can reach: the two smoothing windows of an AU have the same
    length, at most [smoothing_window]; the calibration buffer holds at
    most [baseline_frames] samples; the micro-expression buffer at most 30
    frames. *)
Theorem advanced_buffers_bounded :
  forall (frames : nat) (adaptive : bool) (window : nat) (calls : list Call) (au : AU),
    let st := run (init frames adaptive window) calls in
    (length (au_intensity_history st au) <= window)%nat
    /\ length (au_activation_history st au) = length (au_intensity_history st au)
    /\ (length (baseline_buffer st au) <= frames)%nat
    /\ (length (micro_expression_buffer st) <= 30)%nat.
Proof.
  intros n ad w calls au.
  set (P := fun st : State =>
              baseline_frames st = n /\ smoothing_window st = w
              /\ (forall a, (length (au_intensity_history st a) <= w)%nat
                            /\ length (au_activation_history st a)
                               = length (au_intensity_history st a)
                            /\ (length (baseline_buffer st a) <= n)%nat)
              /\ (length (micro_expression_buffer st) <= 30)%nat).
  assert (I : P (run (init n ad w) calls)).
  { apply advanced_run_invariant.
    - intros st c (Hn & Hw & Ha & Hm). destruct c as [f|]; cbn [step].
      + destruct (detect_parameters st f) as (En & Ew & _).
        destruct (calibration_step_keeps st f) as (Kw & Ki & Ka & Km & _).
        cbv zeta in Kw, Ki, Ka, Km.
        unfold P. rewrite En, Ew. repeat split; try assumption.
        * unfold detect. cbn [snd au_intensity_history].
          rewrite deque_append_length, Kw. lia.
        * unfold detect. cbn [snd au_intensity_history au_activation_history].
          rewrite !deque_append_length, Ki, Ka.
          destruct (Ha a) as (_ & E & _). rewrite E. reflexivity.
        * unfold detect. cbn [snd baseline_buffer].
          destruct (baseline_calibrated st); [apply Ha|].
          unfold _update_baseline. cbn [baseline_buffer].
          rewrite deque_append_length. lia.
        * unfold detect. cbn [snd micro_expression_buffer].
          rewrite deque_append_length. lia.
      + unfold P, reset_baseline. cbn. repeat split; try assumption; try lia;
          apply Ha.
    - unfold P, init. cbn. repeat split; lia. }
  destruct I as (_ & _ & Ha & Hm). destruct (Ha au) as (H1 & H2 & H3).
  repeat split; assumption.
Qed.

Lemma Zmean_bounds (h : list Z) :
  h <> [] -> Forall (fun z => (0 <= z <= 5)%Z) h -> 0 <= Zmean h <= 5.
Proof.
  intros N F. unfold Zmean, Py.mean.
  assert (L : 0 < Py.Qlen (map inject_Z h)).
  { apply Qlen_pos. destruct h; [congruence | discriminate]. }
  assert (S : 0 <= Py.Qsum (map inject_Z h) <= 5 * Py.Qlen (map inject_Z h)).
  { clear N L. unfold Py.Qlen. induction F as [|z r Hz Hr IH].
    - cbn. split; discriminate.
    - cbn [map Py.Qsum length]. rewrite Nat2Z.inj_succ, <- Z.add_1_r, inject_Z_plus.
      assert (0 <= inject_Z z <= 5).
      { split; [change 0 with (inject_Z 0) | change 5 with (inject_Z 5)];
          rewrite <- Zle_Qle; lia. }
      change (inject_Z 1) with 1. lra. }
  split.
  - apply Qle_shift_div_l; [exact L | lra].
  - apply Qle_shift_div_r; [exact L | lra].
Qed.

Lemma calculate_intensity_range (c : Q) : (0 <= _calculate_intensity c <= 5)%Z.
Proof. unfold _calculate_intensity. case_guards; lia. Qed.

(** The intensity staircase is monotone and stays within 0..5. *)
Theorem calculate_intensity_monotone :
  forall x y : Q,
    x <= y ->
    (0 <= _calculate_intensity x <= _calculate_intensity y)%Z
    /\ (_calculate_intensity y <= 5)%Z.
Proof.
  intros x y H. unfold _calculate_intensity.
  repeat match goal with
         | |- context [Py.Qltb ?a ?b] =>
             let E := fresh "E" in
             destruct (Py.Qltb a b) eqn:E;
             [apply Qltb_true in E | apply Qltb_false in E]
         end; try lia; exfalso; lra.
Qed.

Lemma calculate_intensity_monotone_witness :
  (0 <= _calculate_intensity 0.03 <= _calculate_intensity 0.25)%Z
  /\ (_calculate_intensity 0.25 <= 5)%Z.
Proof.
  apply (calculate_intensity_monotone 0.03 0.25). vm_compute. discriminate.
Defined.

(** X2.  With a smoothing window of at least one frame, the intensity
    the advanced detector reports for an AU always lies between 0 and 5,
    whatever the session did before. *)
Theorem advanced_reported_intensity_range :
  forall (frames : nat) (adaptive : bool) (window : nat)
         (calls : list Call) (f : Features) (au : AU),
    (1 <= window)%nat ->
    let st := run (init frames adaptive window) calls in
    0 <= intensity (au_results (fst (detect st f)) au) <= 5.
Proof.
  intros n ad w calls f au W st.
  set (P := fun s : State =>
              smoothing_window s = w
              /\ forall a, Forall (fun z => (0 <= z <= 5)%Z) (au_intensity_history s a)).
  assert (I : P st).
  { apply advanced_run_invariant.
    - intros s c (Hw & Hh). destruct c as [g|]; cbn [step].
      + destruct (detect_parameters s g) as (_ & Ew & _).
        split; [rewrite Ew; exact Hw|]. intro a.
        unfold detect. cbn [snd au_intensity_history].
        apply deque_append_Forall; [|apply calculate_intensity_range].
        destruct (baseline_calibrated s); apply Hh.
      + split; [exact Hw | exact Hh].
    - split; [reflexivity | intro a; constructor]. }
  destruct I as (Hw & Hh).
  unfold detect. cbn [fst au_results intensity].
  apply Zmean_bounds.
  - intro E. apply (f_equal (@length Z)) in E. rewrite deque_append_length in E.
    assert (smoothing_window (if baseline_calibrated st then st else _update_baseline st f) = w)
      by (destruct (baseline_calibrated st); exact Hw).
    cbn [length] in E. lia.
  - apply deque_append_Forall; [|apply calculate_intensity_range].
    destruct (baseline_calibrated st); apply Hh.
Qed.

Lemma advanced_reported_intensity_range_witness :
  0 <= intensity (au_results (fst (detect (run (init 2 true 7) []) (fun _ => 1))) AU12) <= 5.
Proof.
  apply (advanced_reported_intensity_range 2 true 7 [] (fun _ => 1) AU12). lia.
Defined.

(** X3.  The activation counter of an AU never exceeds the frame counter,
    so the activation rate the adaptive thresholds use lies in [0, 1]. *)
Theorem advanced_counts_within_frames :
  forall (frames : nat) (adaptive : bool) (window : nat) (calls : list Call) (au : AU),
    let st := run (init frames adaptive window) calls in
    (au_activation_counts st au <= frame_count st)%nat.
Proof.
  intros n ad w calls au.
  apply (advanced_run_invariant
           (fun st => forall a, (au_activation_counts st a <= frame_count st)%nat)).
  - intros st c H a. destruct c as [f|]; cbn [step].
    + unfold detect. cbn [snd au_activation_counts frame_count].
      assert (E : au_activation_counts
                    (if baseline_calibrated st then st else _update_baseline st f) a
                  = au_activation_counts st a)
        by (destruct (baseline_calibrated st); reflexivity).
      rewrite E. specialize (H a).
      match goal with |- context [if ?c then _ else _] => destruct c end; lia.
    + cbn. lia.
  - intro a. cbn. lia.
Qed.

(** X4.  A fresh advanced detector reports every AU as activated on its
    first frame, whatever the features: the vote compares the count of
    active entries with [len // 2], which is 0 for a window of one. *)
Theorem advanced_first_frame_all_activated :
  forall (frames : nat) (adaptive : bool) (window : nat) (f : Features) (au : AU),
    activated (au_results (fst (detect (init frames adaptive window) f)) au) = true.
Proof.
  intros n ad w f au. unfold detect. cbn [fst au_results activated].
  apply vote_short_window. rewrite deque_append_length.
  unfold init. cbn [baseline_calibrated _update_baseline au_activation_history length]. lia.
Qed.

End AdvancedDetectorMore.

Section AdvancedCalibration.

Import AdvancedAUDetector AdvancedSessions.

Lemma total_frames_uniform (len : AU -> nat) (k : nat) :
  (forall au, len au = k) ->
  fold_right (fun au n => (len au + n)%nat) O all_AUs = (length all_AUs * k)%nat.
Proof.
  intro H. unfold all_AUs. cbn [fold_right length]. rewrite !H. lia.
Qed.

Lemma forallb_uniform (len : AU -> nat) (n k : nat) :
  (forall au, len au = k) ->
  forallb (fun au => (n <=? len au)%nat) all_AUs = (n <=? k)%nat.
Proof.
  intro H. unfold all_AUs. cbn [forallb]. rewrite !H.
  destruct (n <=? k)%nat; reflexivity.
Qed.

Lemma calibration_step (n k : nat) (st : State) (f : Features) :
  (1 <= n)%nat ->
  calibration_after n k st -> calibration_after n (S k) (snd (detect st f)).
Proof.
  intros N (Hn & Hb & Hc & Hp). unfold calibration_after, detect.
  cbn [snd baseline_frames baseline_buffer baseline_calibrated calibration_progress].
  rewrite Hc. destruct (n <=? k)%nat eqn:E.
  - apply Nat.leb_le in E.
    assert (E' : (n <=? S k)%nat = true) by (apply Nat.leb_le; lia).
    rewrite E'. repeat split; try assumption.
    intro au. rewrite Hb. lia.
  - apply Nat.leb_gt in E.
    assert (L : forall au, length (Py.deque_append n (baseline_buffer st au) (f au)) = S k).
    { intro au. rewrite deque_append_length, Hb. lia. }
    unfold _update_baseline.
    cbn [baseline_frames baseline_buffer baseline_calibrated calibration_progress].
    rewrite Hn.
    rewrite (forallb_uniform _ _ (S k) L), (total_frames_uniform _ (S k) L).
    split; [reflexivity|]. split; [|split].
    + intro au. rewrite L. destruct (n <=? S k)%nat eqn:E2.
      * apply Nat.leb_le in E2. lia.
      * apply Nat.leb_gt in E2. lia.
    + destruct (n <=? S k)%nat; [reflexivity | exact Hc].
    + destruct (n <=? S k)%nat; reflexivity.
Qed.

Lemma calibration_run (n : nat) (fs : list Features) :
  (1 <= n)%nat ->
  forall k st, calibration_after n k st ->
               calibration_after n (k + length fs) (run st (detects fs)).
Proof.
  intro N. unfold run, detects.
  induction fs as [|f r IH]; intros k st H; cbn [map fold_left length].
  - rewrite Nat.add_0_r. exact H.
  - replace (k + S (length r))%nat with (S k + length r)%nat by lia.
    apply IH. cbn [step]. apply calibration_step; assumption.
Qed.

(** X5.  Calibration of the advanced detector completes exactly at frame
    [baseline_frames]: in a session of [k] frames without reset the detector
    is calibrated if and only if [k >= baseline_frames] and each calibration
    buffer holds [min k baseline_frames] samples.  The progress value is
    100 from then on; before, it is 0 until the first frame and afterwards
    the integer part of the double [(18 k / (18 baseline_frames)) * 100],
    which can fall one short of [100 k // baseline_frames]: 57 after 29 of
    50 frames. *)
Theorem advanced_calibration_completes_on_time :
  forall (frames : nat) (adaptive : bool) (window : nat) (fs : list Features) (au : AU),
    (1 <= frames)%nat ->
    let st := run (init frames adaptive window) (detects fs) in
    baseline_calibrated st = (frames <=? length fs)%nat
    /\ length (baseline_buffer st au) = Nat.min (length fs) frames
    /\ calibration_progress st
       = (if (frames <=? length fs)%nat then 100
          else if (length fs =? 0)%nat then 0
          else progress_percent (length all_AUs * length fs)
                                (length all_AUs * frames))%Z.
Proof.
  intros n ad w fs au N st.
  assert (I : calibration_after n 0 (init n ad w)).
  { unfold calibration_after, init.
    cbn [baseline_frames baseline_buffer baseline_calibrated calibration_progress length].
    destruct n as [|m]; [lia|]. repeat split. }
  destruct (calibration_run n fs N 0 _ I) as (_ & Hb & Hc & Hp).
  cbn [Nat.add] in *. repeat split; [exact Hc | apply Hb | exact Hp].
Qed.

Lemma advanced_calibration_completes_on_time_witness :
  let st := run (init 50 true 7) (detects (repeat MoreScenarios.level_frame 29)) in
  baseline_calibrated st = false
  /\ length (baseline_buffer st AU12) = 29%nat
  /\ calibration_progress st = 57%Z.
Proof.
  exact (advanced_calibration_completes_on_time 50 true 7
           (repeat MoreScenarios.level_frame 29) AU12
           (Nat.lt_0_succ 49)).
Defined.

(** Once calibrated, the advanced detector never touches its
    baselines again: any further frames leave [baseline], the calibration
    buffers and the calibrated flag as they are. *)
Theorem advanced_baseline_frozen :
  forall (st : State) (fs : list Features),
    baseline_calibrated st = true ->
    let st' := run st (detects fs) in
    baseline st' = baseline st
    /\ baseline_buffer st' = baseline_buffer st
    /\ baseline_calibrated st' = true.
Proof.
  intros st fs. revert st. unfold run, detects.
  induction fs as [|f r IH]; intros st C; cbn [map fold_left]; [repeat split; exact C|].
  assert (S1 : baseline (step st (Detect f)) = baseline st
               /\ baseline_buffer (step st (Detect f)) = baseline_buffer st
               /\ baseline_calibrated (step st (Detect f)) = true).
  { cbn [step]. unfold detect. rewrite C. repeat split. exact C. }
  destruct S1 as (B & U & K). destruct (IH _ K) as (B' & U' & K').
  cbv zeta in B', U', K'. repeat split; congruence.
Qed.

Lemma advanced_baseline_frozen_witness :
  let st := run (init 1 true 7) (detects [fun _ => 1]) in
  let st' := run st (detects [fun _ => 5; fun _ => 6]) in
  baseline st' = baseline st
  /\ baseline_buffer st' = baseline_buffer st
  /\ baseline_calibrated st' = true.
Proof.
  apply (advanced_baseline_frozen (run (init 1 true 7) (detects [fun _ => 1]))
                                  [fun _ => 5; fun _ => 6]).
  reflexivity.
Defined.

(** Until calibration completes, the advanced detector has no baseline at
    all. *)
Lemma advanced_uncalibrated_no_baseline (n : nat) (ad : bool) (w : nat) (calls : list Call) :
  let st := run (init n ad w) calls in
  baseline_calibrated st = false -> forall au, baseline st au = None.
Proof.
  apply (advanced_run_invariant
           (fun st => baseline_calibrated st = false -> forall au, baseline st au = None)).
  - intros st c H. destruct c as [f|]; cbn [step].
    + unfold detect. cbn [snd baseline_calibrated baseline].
      destruct (baseline_calibrated st) eqn:C; [intro X; congruence|].
      unfold _update_baseline. cbn [baseline_calibrated baseline].
      match goal with |- context [if ?c then _ else _] => destruct c end;
        [discriminate | intros _; apply H; reflexivity].
    + intros _ au. reflexivity.
  - intros _ au. reflexivity.
Qed.

(** X6.  While calibration is incomplete the advanced detector classifies
    every frame with a deviation of zero: when a frame is returned with
    [baseline_calibrated = False], each AU's relative change is 0 and the
    entries pushed into its smoothing windows are level 0 and inactive. *)
Theorem advanced_uncalibrated_zero_deviation :
  forall (frames : nat) (adaptive : bool) (window : nat)
         (calls : list Call) (f : Features) (au : AU),
    let st := run (init frames adaptive window) calls in
    let r := fst (detect st f) in
    let st' := snd (detect st f) in
    res_baseline_calibrated r = false ->
    relative_change (au_results r au) == 0
    /\ res_baseline (au_results r au) = f au
    /\ au_intensity_history st' au
       = Py.deque_append (smoothing_window st) (au_intensity_history st au) 0%Z
    /\ au_activation_history st' au
       = Py.deque_append (smoothing_window st) (au_activation_history st au) false.
Proof.
  intros n ad w calls f au st r st' C.
  assert (Cst : baseline_calibrated st = false).
  { destruct (baseline_calibrated st) eqn:E; [|reflexivity].
    unfold r, detect in C. rewrite E in C.
    cbn [fst res_baseline_calibrated] in C. congruence. }
  assert (B : baseline (_update_baseline st f) au = None).
  { pose proof (advanced_uncalibrated_no_baseline n ad w calls Cst au) as B0.
    fold st in B0. unfold r, detect in C. cbn [fst res_baseline_calibrated] in C.
    rewrite Cst in C. unfold _update_baseline in C |- *.
    cbn [baseline_calibrated baseline] in C |- *.
    match type of C with
    | (if ?c then _ else _) = false => destruct c; [discriminate C | exact B0]
    end. }
  assert (T : 0 < thresholds st au).
  { pose proof (run_thresholds calls _ (init_thresholds n ad w) au) as [L _].
    fold st in L. pose proof (INITIAL_THRESHOLDS_pos au). lra. }
  assert (Z : relative_change_of (f au) (f au) == 0)
    by (apply relative_change_at_baseline; reflexivity).
  unfold r, st', detect. rewrite Cst.
  cbn [fst snd au_results relative_change res_baseline
         au_intensity_history au_activation_history].
  rewrite B. cbn [Py.get]. repeat split.
  - exact Z.
  - f_equal. apply calculate_intensity_zero. exact Z.
  - f_equal. apply Qgtb_false. rewrite Z.
    change (thresholds (_update_baseline st f) au) with (thresholds st au).
    simpl. lra.
Qed.

Lemma advanced_uncalibrated_zero_deviation_witness :
  let st := run (init 3 true 7) [] in
  let r := fst (detect st (fun _ => 4)) in
  let st' := snd (detect st (fun _ => 4)) in
  relative_change (au_results r AU12) == 0
  /\ res_baseline (au_results r AU12) = 4
  /\ au_intensity_history st' AU12
     = Py.deque_append (smoothing_window st) (au_intensity_history st AU12) 0%Z
  /\ au_activation_history st' AU12
     = Py.deque_append (smoothing_window st) (au_activation_history st AU12) false.
Proof.
  apply (advanced_uncalibrated_zero_deviation 3 true 7 [] (fun _ => 4) AU12).
  reflexivity.
Defined.

Lemma flat_map_keys_In {A B : Type} (g : B -> A) (f : A -> list B) (l : list A) (x : A) :
  (forall a, map g (f a) = [] \/ map g (f a) = [a]) ->
  In x (map g (flat_map f l)) -> In x l.
Proof.
  intros H. induction l as [|a r IH]; [intros []|].
  cbn [flat_map]. rewrite map_app, in_app_iff. intros [I | I].
  - destruct (H a) as [E | E]; rewrite E in I.
    + destruct I.
    + destruct I as [<- | []]. left. reflexivity.
  - right. apply IH. exact I.
Qed.

Lemma flat_map_keys_NoDup {A B : Type} (g : B -> A) (f : A -> list B) (l : list A) :
  (forall a, map g (f a) = [] \/ map g (f a) = [a]) ->
  NoDup l -> NoDup (map g (flat_map f l)).
Proof.
  intros H N. induction N as [|a r Na Nr IH]; [constructor|].
  cbn [flat_map]. rewrite map_app.
  destruct (H a) as [E | E]; rewrite E; cbn [app]; [exact IH|].
  constructor; [|exact IH].
  intro I. apply Na. exact (flat_map_keys_In g f r a H I).
Qed.

Lemma advanced_AUs_NoDup : NoDup all_AUs.
Proof.
  unfold all_AUs.
  repeat (constructor; [cbn [In]; intro H;
                        repeat (destruct H as [H | H]; [discriminate H|]); exact H|]).
  constructor.
Qed.

Lemma Qmaximum_In (l : list Q) : forall x, In (Qmaximum x l) (x :: l).
Proof.
  induction l as [|y r IH]; intro x; cbn [Qmaximum]; [left; reflexivity|].
  destruct (Py.Qgtb y x).
  - right. apply IH.
  - destruct (IH x) as [E | I]; [left; exact E | right; right; exact I].
Qed.

(** X7.  The micro-expression scan of the advanced detector reports at
    most one event per AU, and none before ten frames are buffered; the
    intensity of an event is one that the AU was reported with in the
    last ten frames, it is above 3, and the duration is the fixed
    [10 / 30.0] s. *)
Theorem advanced_micro_expression_events :
  forall buffer : list (AU -> AUResult),
    NoDup (map micro_au (_detect_micro_expressions buffer))
    /\ forall e, In e (_detect_micro_expressions buffer) ->
         (10 <= length buffer)%nat
         /\ 3 < micro_intensity e
         /\ micro_duration e == 10 / 30.0
         /\ In (micro_intensity e)
               (map (fun frame => intensity (frame (micro_au e))) (Py.lastn 10 buffer)).
Proof.
  intro buffer. unfold _detect_micro_expressions. split.
  - destruct (length buffer <? 10)%nat; [constructor|].
    apply flat_map_keys_NoDup; [|apply advanced_AUs_NoDup].
    intro au. destruct (map _ (Py.lastn 10 buffer)) as [|i0 rest]; [left; reflexivity|].
    match goal with |- context [if ?c then _ else _] => destruct c end;
      [right | left]; reflexivity.
  - intros e H. destruct (length buffer <? 10)%nat eqn:L; [destruct H|].
    apply Nat.ltb_ge in L. apply in_flat_map in H. destruct H as (au & _ & H).
    assert (Len : length (map (fun frame => intensity (frame au)) (Py.lastn 10 buffer))
                  = 10%nat).
    { rewrite length_map, lastn_length. lia. }
    destruct (map (fun frame => intensity (frame au)) (Py.lastn 10 buffer))
      as [|i0 rest] eqn:R; [destruct H|].
    match type of H with
    | In e (if ?c then _ else _) => destruct c eqn:G; [|destruct H]
    end.
    destruct H as [<-|[]]. cbn [micro_intensity micro_duration micro_au].
    apply andb_prop in G. destruct G as [G _]. apply Qgtb_true in G.
    split; [exact L|]. split; [exact G|]. split.
    + unfold Py.Qlen. rewrite Len. reflexivity.
    + rewrite R. apply Qmaximum_In.
Qed.

Lemma advanced_micro_expression_events_witness :
  _detect_micro_expressions MoreScenarios.spike_buffer = [MoreScenarios.spike_event]
  /\ (10 <= length MoreScenarios.spike_buffer)%nat
  /\ 3 < micro_intensity MoreScenarios.spike_event
  /\ micro_duration MoreScenarios.spike_event == 10 / 30.0
  /\ In (micro_intensity MoreScenarios.spike_event)
        (map (fun frame => intensity (frame (micro_au MoreScenarios.spike_event)))
             (Py.lastn 10 MoreScenarios.spike_buffer)).
Proof.
  assert (E : _detect_micro_expressions MoreScenarios.spike_buffer
              = [MoreScenarios.spike_event]) by (vm_compute; reflexivity).
  split; [exact E|].
  apply (proj2 (advanced_micro_expression_events MoreScenarios.spike_buffer)).
  rewrite E. left. reflexivity.
Defined.

End AdvancedCalibration.

Section AdvancedBaselineValue.

Import AdvancedAUDetector AdvancedSessions.

Lemma deque_append_not_full {A : Type} (maxlen : nat) (d : list A) (x : A) :
  (length d < maxlen)%nat -> Py.deque_append maxlen d x = d ++ [x].
Proof.
  intro L. unfold Py.deque_append, Py.lastn. rewrite length_app. cbn [length].
  replace (length d + 1 - maxlen)%nat with 0%nat by lia. reflexivity.
Qed.

Lemma calibrated_on_step (n : nat) (seen : list Features) (st : State) (f : Features) :
  (1 <= n)%nat ->
  calibrated_on n seen st -> calibrated_on n (seen ++ [f]) (snd (detect st f)).
Proof.
  intros N (Hn & Hb & Hc & Hv). unfold calibrated_on, detect.
  cbn [snd baseline_frames baseline_buffer baseline_calibrated baseline].
  rewrite Hc. rewrite length_app. cbn [length].
  destruct (n <=? length seen)%nat eqn:E.
  - assert (Eb := E). apply Nat.leb_le in E.
    assert (E' : (n <=? length seen + 1)%nat = true) by (apply Nat.leb_le; lia).
    assert (F : forall au, samples n au (seen ++ [f]) = samples n au seen).
    { intro au. unfold samples. rewrite firstn_app.
      replace (n - length seen)%nat with 0%nat by lia.
      cbn [firstn]. rewrite app_nil_r. reflexivity. }
    rewrite E'. repeat split; try assumption.
    + intro au. rewrite F. apply Hb.
    + intro au. rewrite F, Hv. reflexivity.
  - apply Nat.leb_gt in E.
    assert (F : forall au, Py.deque_append n (baseline_buffer st au) (f au)
                           = samples n au (seen ++ [f])).
    { intro au. rewrite deque_append_not_full.
      - rewrite Hb. unfold samples. rewrite !firstn_all2 by (try rewrite length_app; cbn [length]; lia).
        rewrite map_app. reflexivity.
      - rewrite Hb. unfold samples. rewrite length_map, length_firstn. lia. }
    assert (L : forall au, length (Py.deque_append n (baseline_buffer st au) (f au))
                           = S (length seen)).
    { intro au. rewrite deque_append_length, Hb. unfold samples.
      rewrite length_map, length_firstn. lia. }
    unfold _update_baseline.
    cbn [baseline_frames baseline_buffer baseline_calibrated baseline].
    rewrite Hn, (forallb_uniform _ _ (S (length seen)) L).
    replace (length seen + 1)%nat with (S (length seen)) by lia.
    repeat split.
    + exact F.
    + destruct (n <=? S (length seen))%nat; [reflexivity | exact Hc].
    + intro au. destruct (n <=? S (length seen))%nat.
      * rewrite F. reflexivity.
      * rewrite Hv. apply Nat.leb_gt in E. destruct (n <=? length seen)%nat eqn:E2;
          [apply Nat.leb_le in E2; lia | reflexivity].
Qed.

Lemma calibrated_on_run (n : nat) (fs : list Features) :
  (1 <= n)%nat ->
  forall seen st, calibrated_on n seen st ->
                  calibrated_on n (seen ++ fs) (run st (detects fs)).
Proof.
  intro N. unfold run, detects.
  induction fs as [|f r IH]; intros seen st H; cbn [map fold_left].
  - rewrite app_nil_r. exact H.
  - replace (seen ++ f :: r) with ((seen ++ [f]) ++ r)
      by (rewrite <- app_assoc; reflexivity).
    apply IH. cbn [step]. apply calibrated_on_step; assumption.
Qed.

(** X8.  The baseline the advanced detector settles on is, for each AU,
    the median of that AU's feature over the first [baseline_frames] frames
    of the session; later frames have no influence on it. *)
Theorem advanced_baseline_is_median_of_first_frames :
  forall (frames : nat) (adaptive : bool) (window : nat) (fs : list Features) (au : AU),
    (1 <= frames <= length fs)%nat ->
    baseline (run (init frames adaptive window) (detects fs)) au
    = Some (median (map (fun f => f au) (firstn frames fs))).
Proof.
  intros n ad w fs au [N L].
  assert (I : calibrated_on n [] (init n ad w)).
  { unfold calibrated_on, init, samples.
    cbn [baseline_frames baseline_buffer baseline_calibrated baseline length].
    destruct n as [|m]; [lia|]. repeat split. }
  destruct (calibrated_on_run n fs N [] _ I) as (_ & _ & _ & Hv).
  cbn [app] in Hv. rewrite Hv.
  apply Nat.leb_le in L. rewrite L. reflexivity.
Qed.

Lemma advanced_baseline_is_median_of_first_frames_witness :
  baseline (run (init 3 true 7)
                (detects [fun _ => 5; fun _ => 1; fun _ => 3; fun _ => 100])) AU12
  = Some (median [5; 1; 3]).
Proof.
  apply (advanced_baseline_is_median_of_first_frames
           3 true 7 [fun _ => 5; fun _ => 1; fun _ => 3; fun _ => 100] AU12).
  cbn. lia.
Defined.

End AdvancedBaselineValue.

(** ** The basic AU classifier, continued *)

Section BasicDetectorMore.

Import AUDetector BasicSessions.

(** X9.  A fresh basic detector reports every AU that has a feature as
    activated on its first frame, and with it a genuine smile whenever the
    AU6 and AU12 features are present. *)
Theorem basic_first_frame_all_activated :
  forall (frames : nat) (f : Features),
    let r := fst (detect (init frames) f) in
    (forall au, f au <> None -> au_activations r au = Some true)
    /\ (f AU6 <> None -> f AU12 <> None -> In "genuine_smile" (micro_expressions r)).
Proof.
  intros n f r.
  assert (A : forall au, f au <> None -> au_activations r au = Some true).
  { intros au H. unfold r, detect. cbn [fst au_activations].
    destruct (f au) as [v|]; [reflexivity | congruence]. }
  split; [exact A|].
  intros H6 H12. unfold r, detect. cbn [fst micro_expressions].
  unfold _classify_micro_expressions, act.
  pose proof (A AU6 H6) as E6. pose proof (A AU12 H12) as E12.
  unfold r, detect in E6, E12. cbn [fst au_activations] in E6, E12.
  rewrite E6, E12. cbn [Py.get andb]. apply in_or_app. left. left. reflexivity.
Qed.

Lemma basic_first_frame_all_activated_witness :
  let r := fst (detect (init 30) (fun _ => Some 1)) in
  au_activations r AU4 = Some true /\ In "genuine_smile" (micro_expressions r).
Proof.
  destruct (basic_first_frame_all_activated 30 (fun _ => Some 1)) as [A S].
  split; [apply A; discriminate | apply S; discriminate].
Defined.

Lemma filter_one_fails {A : Type} (p : A -> bool) (l : list A) (x : A) :
  In x l -> p x = false -> (length (filter p l) < length l)%nat.
Proof.
  induction l as [|a l IH]; intros H E; [destruct H|].
  cbn [filter length]. pose proof (filter_length_le p l) as L.
  destruct H as [->|H].
  - rewrite E. lia.
  - specialize (IH H E). destruct (p a); cbn [length]; lia.
Qed.

(** X10.  The basic detector completes calibration only when every one of
    its fourteen AUs has collected a baseline: in a session where one AU's
    feature is never available the detector stays uncalibrated however many
    frames arrive, and the sample buffer of every AU that is always
    available grows by one entry per frame, without bound. *)
Theorem basic_never_calibrates_without_an_AU :
  forall (frames : nat) (fs : list Features) (missing present : AU),
    (forall f, In f fs -> f missing = None) ->
    (forall f, In f fs -> f present <> None) ->
    let st := run (init frames) (basic_detects fs) in
    baseline_calibrated st = false
    /\ baseline st missing = None
    /\ length (baseline_buffer st present) = length fs.
Proof.
  intros n fs missing present Hm Hp.
  assert (G : forall st k,
             baseline_calibrated st = false -> baseline st missing = None ->
             length (baseline_buffer st present) = k ->
             let st' := run st (basic_detects fs) in
             baseline_calibrated st' = false /\ baseline st' missing = None
             /\ length (baseline_buffer st' present) = (k + length fs)%nat).
  { unfold run, basic_detects. induction fs as [|f r IH]; intros st k C B L;
      cbn [map fold_left length].
    - rewrite Nat.add_0_r. repeat split; assumption.
    - replace (k + S (length r))%nat with (S k + length r)%nat by lia.
      apply IH.
      + intros g Hg. apply Hm. right. exact Hg.
      + intros g Hg. apply Hp. right. exact Hg.
      + cbn [step]. unfold detect. rewrite C.
        cbn [snd baseline_calibrated]. unfold _update_baseline.
        cbn [baseline_calibrated]. rewrite C.
        match goal with |- (if ?c then _ else _) = false => destruct c eqn:E end;
          [|reflexivity].
        apply Nat.leb_le in E. unfold baseline_size in E.
        match type of E with
        | (_ <= length (filter ?p _))%nat =>
            pose proof (filter_one_fails p all_AUs missing (all_AUs_complete missing)) as F
        end.
        cbv beta in F. rewrite (Hm f (or_introl eq_refl)), B in F.
        specialize (F eq_refl). lia.
      + cbn [step]. unfold detect. rewrite C.
        cbn [snd baseline]. unfold _update_baseline. cbn [baseline].
        rewrite (Hm f (or_introl eq_refl)). exact B.
      + cbn [step]. unfold detect. rewrite C.
        cbn [snd baseline_buffer]. unfold _update_baseline. cbn [baseline_buffer].
        destruct (f present) eqn:P; [|exfalso; exact (Hp f (or_introl eq_refl) P)].
        rewrite length_app, L. cbn [length]. lia. }
  intro st. apply (G (init n) 0%nat); reflexivity.
Qed.

Lemma basic_never_calibrates_without_an_AU_witness :
  let no_mouth := fun au => match au with AU12 | AU15 | AU20 => None | _ => Some 1 end in
  let st := run (init 2) (basic_detects [no_mouth; no_mouth; no_mouth]) in
  baseline_calibrated st = false
  /\ baseline st AU12 = None
  /\ length (baseline_buffer st AU1) = 3%nat.
Proof.
  apply (basic_never_calibrates_without_an_AU 2
           (let no_mouth := fun au => match au with AU12 | AU15 | AU20 => None | _ => Some 1 end in
            [no_mouth; no_mouth; no_mouth]) AU12 AU1).
  - intros f H. cbn in H. destruct H as [<-|[<-|[<-|[]]]]; reflexivity.
  - intros f H. cbn in H. destruct H as [<-|[<-|[<-|[]]]]; discriminate.
Defined.

Lemma filter_all_true {A : Type} (p : A -> bool) (l : list A) :
  (forall x, p x = true) -> filter p l = l.
Proof.
  intro H. induction l as [|a l IH]; [reflexivity|].
  cbn [filter]. rewrite H, IH. reflexivity.
Qed.

Lemma filter_all_false {A : Type} (p : A -> bool) (l : list A) :
  (forall x, p x = false) -> filter p l = [].
Proof.
  intro H. induction l as [|a l IH]; [reflexivity|].
  cbn [filter]. rewrite H, IH. reflexivity.
Qed.

Lemma basic_calibrated_on_step (n : nat) (seen : list (AU -> Q)) (st : State) (g : AU -> Q) :
  (1 <= n)%nat ->
  basic_calibrated_on n seen st ->
  basic_calibrated_on n (seen ++ [g]) (snd (detect st (full_frame g))).
Proof.
  intros N (Hn & Hb & Hc & Hv). unfold basic_calibrated_on, detect.
  cbn [snd baseline_frames baseline_buffer baseline_calibrated baseline].
  rewrite Hc. rewrite length_app. cbn [length].
  destruct (n <=? length seen)%nat eqn:E.
  - apply Nat.leb_le in E.
    assert (E' : (n <=? length seen + 1)%nat = true) by (apply Nat.leb_le; lia).
    assert (F : forall au, basic_samples n au (seen ++ [g]) = basic_samples n au seen).
    { intro au. unfold basic_samples. rewrite firstn_app.
      replace (n - length seen)%nat with 0%nat by lia.
      cbn [firstn]. rewrite app_nil_r. reflexivity. }
    rewrite E'. repeat split; try assumption.
    + intro au. rewrite F. apply Hb.
    + intro au. rewrite F, Hv. reflexivity.
  - apply Nat.leb_gt in E.
    assert (F : forall au, baseline_buffer st au ++ [g au]
                           = basic_samples n au (seen ++ [g])).
    { intro au. rewrite Hb. unfold basic_samples.
      rewrite !firstn_all2 by (try rewrite length_app; cbn [length]; lia).
      rewrite map_app. reflexivity. }
    assert (L : forall au, length (baseline_buffer st au ++ [g au]) = S (length seen)).
    { intro au. rewrite F. unfold basic_samples.
      rewrite length_map, length_firstn, length_app. cbn [length]. lia. }
    unfold _update_baseline, full_frame.
    cbn [baseline_frames baseline_buffer baseline_calibrated baseline].
    rewrite Hn. replace (length seen + 1)%nat with (S (length seen)) by lia.
    assert (Z : baseline_size
                  (fun au => if (n <=? length (baseline_buffer st au ++ [g au]))%nat
                             then Some (Py.mean (baseline_buffer st au ++ [g au]))
                             else baseline st au)
                = if (n <=? S (length seen))%nat then length all_AUs else 0%nat).
    { unfold baseline_size. destruct (n <=? S (length seen))%nat eqn:E2.
      - rewrite filter_all_true; [reflexivity|].
        intro au. rewrite L, E2. reflexivity.
      - rewrite filter_all_false; [reflexivity|].
        intro au. rewrite L, E2, Hv. reflexivity. }
    rewrite Z. repeat split.
    + exact F.
    + destruct (n <=? S (length seen))%nat; [reflexivity|].
      cbn [length Nat.leb]. exact Hc.
    + intro au. rewrite L. destruct (n <=? S (length seen))%nat.
      * rewrite F. reflexivity.
      * apply Hv.
Qed.

(** X11.  When every AU feature is available in every frame, the basic
    detector is calibrated from frame [baseline_frames] on, and the baseline
    it keeps for an AU is the mean of that AU's feature over the first
    [baseline_frames] frames; later frames do not move it. *)
Theorem basic_baseline_is_mean_of_first_frames :
  forall (frames : nat) (gs : list (AU -> Q)) (au : AU),
    (1 <= frames <= length gs)%nat ->
    let st := run (init frames) (basic_detects (map full_frame gs)) in
    baseline_calibrated st = true
    /\ baseline st au = Some (Py.mean (map (fun g => g au) (firstn frames gs))).
Proof.
  intros n gs au [N L] st.
  assert (G : forall gs' seen s,
             basic_calibrated_on n seen s ->
             basic_calibrated_on n (seen ++ gs')
                                 (run s (basic_detects (map full_frame gs')))).
  { unfold run, basic_detects. induction gs' as [|g r IH]; intros seen s H;
      cbn [map fold_left].
    - rewrite app_nil_r. exact H.
    - replace (seen ++ g :: r) with ((seen ++ [g]) ++ r)
        by (rewrite <- app_assoc; reflexivity).
      apply IH. cbn [step]. apply basic_calibrated_on_step; assumption. }
  assert (I : basic_calibrated_on n [] (init n)).
  { unfold basic_calibrated_on, init, basic_samples.
    cbn [baseline_frames baseline_buffer baseline_calibrated baseline length].
    destruct n as [|m]; [lia|]. repeat split. }
  destruct (G gs [] _ I) as (_ & _ & Hc & Hv). cbn [app] in Hc, Hv.
  apply Nat.leb_le in L. unfold st. rewrite Hc, Hv, L. split; reflexivity.
Qed.

Lemma basic_baseline_is_mean_of_first_frames_witness :
  let st := run (init 2) (basic_detects (map full_frame [fun _ => 1; fun _ => 3; fun _ => 50])) in
  baseline_calibrated st = true
  /\ baseline st AU12 = Some (Py.mean [1; 3]).
Proof.
  apply (basic_baseline_is_mean_of_first_frames 2 [fun _ => 1; fun _ => 3; fun _ => 50] AU12).
  cbn. lia.
Defined.

End BasicDetectorMore.

(** ** Landmark geometry of the basic detector *)

Section FeatureExtraction.
Import AUDetector AUFeatureExtraction.

Variable sqrt : Q -> Q.

Lemma forallb_false_exists {A : Type} (p : A -> bool) (l : list A) :
  forallb p l = false -> exists x, In x l /\ p x = false.
Proof.
  induction l as [|a l IH]; [discriminate|].
  cbn [forallb]. destruct (p a) eqn:E.
  - intro H. destruct (IH H) as [x [I Px]]. exists x. split; [right; exact I | exact Px].
  - intros _. exists a. split; [left; reflexivity | exact E].
Qed.

Lemma extraction_raises_iff (kp : KeyPoints) :
  _calculate_au_features sqrt kp = None <-> exists au, attempt sqrt kp au = None.
Proof.
  unfold _calculate_au_features.
  destruct (forallb _ all_AUs) eqn:E; split.
  - discriminate.
  - intros [au Hau]. rewrite forallb_forall in E.
    specialize (E au (all_AUs_complete au)). rewrite Hau in E. discriminate.
  - intros _.
    destruct (forallb_false_exists _ _ E) as [au [_ Hau]]. exists au.
    destruct (attempt sqrt kp au); [discriminate | reflexivity].
  - reflexivity.
Qed.

Ltac short_list l :=
  destruct l as [|? [|? [|? [|? [|? [|? [|? ?]]]]]]].

Lemma attempt_AU1 (kp : KeyPoints) :
  attempt sqrt kp AU1 = None <-> length (left_eye kp) = 1%nat /\ left_eyebrow kp <> [].
Proof.
  destruct kp as [le re lb rb mo mi ns]. cbn [attempt left_eye left_eyebrow].
  destruct lb as [|b lb]; destruct le as [|e0 [|e1 le]]; cbn;
    split; intros; try discriminate; try (split; [reflexivity | discriminate]);
    try (destruct H; (discriminate || congruence)); reflexivity.
Qed.

Lemma attempt_AU2 (kp : KeyPoints) :
  attempt sqrt kp AU2 = None -> length (left_eye kp) = 1%nat /\ left_eyebrow kp <> [].
Proof.
  destruct kp as [le re lb rb mo mi ns]. cbn [attempt left_eye left_eyebrow].
  destruct lb as [|b0 [|b1 [|b2 lb]]]; destruct le as [|e0 [|e1 le]]; cbn;
    intros; try discriminate; split; (reflexivity || discriminate).
Qed.

Lemma attempt_AU4 (kp : KeyPoints) : attempt sqrt kp AU4 <> None.
Proof.
  destruct kp as [le re lb rb mo mi ns]. cbn [attempt left_eyebrow right_eyebrow nose].
  destruct (_ && _); [|discriminate].
  destruct ns; cbn; discriminate.
Qed.

Lemma attempt_eyelid (kp : KeyPoints) (au : AU) :
  au = AU5 \/ au = AU7 ->
  attempt sqrt kp au = None <-> (3 <= length (left_eye kp) <= 5)%nat.
Proof.
  destruct kp as [le re lb rb mo mi ns].
  intros [-> | ->]; cbn [attempt left_eye]; short_list le; cbn;
    split; intros; try discriminate; try lia; reflexivity.
Qed.

Lemma attempt_AU6 (kp : KeyPoints) :
  attempt sqrt kp AU6 = None <->
  (1 <= length (left_eye kp) <= 4)%nat /\ mouth_outer kp <> [].
Proof.
  destruct kp as [le re lb rb mo mi ns]. cbn [attempt left_eye mouth_outer].
  destruct mo as [|m mo]; short_list le; cbn;
    split; intros; try discriminate; try lia;
    try (destruct H; (lia || congruence));
    try (split; [lia | discriminate]); reflexivity.
Qed.

Lemma attempt_AU9 (kp : KeyPoints) : attempt sqrt kp AU9 <> None.
Proof.
  destruct kp as [le re lb rb mo mi ns]. cbn [attempt nose].
  short_list ns; cbn; discriminate.
Qed.

Lemma attempt_mouth_corners (kp : KeyPoints) (au : AU) :
  au = AU12 \/ au = AU15 \/ au = AU20 ->
  attempt sqrt kp au = None <-> length (mouth_outer kp) = 6%nat.
Proof.
  destruct kp as [le re lb rb mo mi ns].
  intros [-> | [-> | ->]]; cbn [attempt mouth_outer]; short_list mo; cbn;
    split; intros; try discriminate; try lia; reflexivity.
Qed.

Lemma lower_lip_point_found (mo : list Point) :
  mo <> [] -> exists p, lower_lip_point mo = Some p.
Proof.
  intro H. unfold lower_lip_point.
  destruct (9 <? length mo)%nat eqn:E.
  - apply Nat.ltb_lt in E. unfold index.
    destruct (nth_error mo 9) eqn:N; [eauto|].
    apply nth_error_None in N. lia.
  - destruct mo; [congruence|]. cbn. eauto.
Qed.

Lemma attempt_AU17 (kp : KeyPoints) : attempt sqrt kp AU17 <> None.
Proof.
  destruct kp as [le re lb rb mo mi ns]. cbn [attempt mouth_outer].
  destruct mo as [|m mo]; [cbn; discriminate|].
  destruct (lower_lip_point_found (m :: mo)) as [p Hp]; [discriminate|].
  rewrite Hp. cbn. discriminate.
Qed.

Lemma attempt_AU25 (kp : KeyPoints) : attempt sqrt kp AU25 <> None.
Proof.
  destruct kp as [le re lb rb mo mi ns]. cbn [attempt mouth_outer mouth_inner].
  destruct (3 <? length mo)%nat eqn:E; [|cbn; discriminate].
  destruct (3 <? length mi)%nat; [|cbn; discriminate].
  cbn [andb]. apply Nat.ltb_lt in E.
  destruct (lower_lip_point_found mo) as [p Hp]; [destruct mo; [cbn in E; lia | discriminate]|].
  rewrite Hp. unfold index.
  destruct (nth_error mo 3) eqn:N; [cbn; discriminate|].
  apply nth_error_None in N. lia.
Qed.

Lemma attempt_AU26 (kp : KeyPoints) : attempt sqrt kp AU26 <> None.
Proof.
  destruct kp as [le re lb rb mo mi ns]. cbn [attempt mouth_outer].
  destruct (9 <? length mo)%nat eqn:E; [|cbn; discriminate].
  apply Nat.ltb_lt in E. unfold index.
  destruct (nth_error mo 3) eqn:N3; [|apply nth_error_None in N3; lia].
  destruct (nth_error mo 9) eqn:N9; [|apply nth_error_None in N9; lia].
  cbn. discriminate.
Qed.

Lemma attempt_AU43 (kp : KeyPoints) : attempt sqrt kp AU43 <> None.
Proof.
  destruct kp as [le re lb rb mo mi ns]. cbn [attempt left_eye right_eye].
  destruct (_ && _); cbn; discriminate.
Qed.

(** X13.  The landmark sizes on which the feature extraction of the basic
    detector raises [IndexError]: a one-point left eye beside a non-empty
    left eyebrow, a left eye of three to five points, a left eye of one
    to four points beside a non-empty outer mouth, or an outer mouth of
    exactly six points; on every other input it returns the features. *)
Theorem feature_extraction_raises_exactly (kp : KeyPoints) :
  _calculate_au_features sqrt kp = None <->
  (length (left_eye kp) = 1%nat /\ left_eyebrow kp <> [])
  \/ (3 <= length (left_eye kp) <= 5)%nat
  \/ ((1 <= length (left_eye kp) <= 4)%nat /\ mouth_outer kp <> [])
  \/ length (mouth_outer kp) = 6%nat.
Proof.
  rewrite extraction_raises_iff. split.
  - intros [au H]. destruct au.
    + left. apply attempt_AU1. exact H.
    + left. apply attempt_AU2. exact H.
    + destruct (attempt_AU4 kp H).
    + right; left. apply (attempt_eyelid kp AU5); auto.
    + right; right; left. apply attempt_AU6. exact H.
    + right; left. apply (attempt_eyelid kp AU7); auto.
    + destruct (attempt_AU9 kp H).
    + right; right; right. apply (attempt_mouth_corners kp AU12); auto.
    + right; right; right. apply (attempt_mouth_corners kp AU15); auto.
    + destruct (attempt_AU17 kp H).
    + right; right; right. apply (attempt_mouth_corners kp AU20); auto.
    + destruct (attempt_AU25 kp H).
    + destruct (attempt_AU26 kp H).
    + destruct (attempt_AU43 kp H).
  - intros [H | [H | [H | H]]].
    + exists AU1. apply attempt_AU1. exact H.
    + exists AU5. apply (attempt_eyelid kp AU5); auto.
    + exists AU6. apply attempt_AU6. exact H.
    + exists AU12. apply (attempt_mouth_corners kp AU12); auto.
Qed.

(** X14.  Landmark groups at least as large as those of the 68-point
    model give a feature for each of the fourteen AUs. *)
Theorem full_landmarks_give_all_features (kp : KeyPoints) :
  (6 <= length (left_eye kp))%nat ->
  (3 <= length (right_eye kp))%nat ->
  (3 <= length (left_eyebrow kp))%nat ->
  (1 <= length (right_eyebrow kp))%nat ->
  (10 <= length (mouth_outer kp))%nat ->
  (4 <= length (mouth_inner kp))%nat ->
  (4 <= length (nose kp))%nat ->
  exists f, _calculate_au_features sqrt kp = Some f /\ forall au, f au <> None.
Proof.
  destruct kp as [le re lb rb mo mi ns].
  cbn [left_eye right_eye left_eyebrow right_eyebrow mouth_outer mouth_inner nose].
  intros Hle Hre Hlb Hrb Hmo Hmi Hns.
  assert (A : forall au, exists v,
             attempt sqrt (mkKeyPoints le re lb rb mo mi ns) au = Some (Some v)).
  { destruct le as [|e0 [|e1 [|e2 [|e3 [|e4 [|e5 le]]]]]]; cbn [length] in Hle; try lia.
    destruct re as [|r0 [|r1 [|r2 re]]]; cbn [length] in Hre; try lia.
    destruct lb as [|b0 [|b1 [|b2 lb]]]; cbn [length] in Hlb; try lia.
    destruct rb as [|c0 rb]; cbn [length] in Hrb; try lia.
    destruct mo as [|m0 [|m1 [|m2 [|m3 [|m4 [|m5 [|m6 [|m7 [|m8 [|m9 mo]]]]]]]]]];
      cbn [length] in Hmo; try lia.
    destruct mi as [|i0 [|i1 [|i2 [|i3 mi]]]]; cbn [length] in Hmi; try lia.
    destruct ns as [|n0 [|n1 [|n2 [|n3 ns]]]]; cbn [length] in Hns; try lia.
    intro au.
    destruct au;
      cbn [attempt left_eye right_eye left_eyebrow right_eyebrow mouth_outer
           mouth_inner nose length Nat.ltb Nat.leb andb with1 with2 with3 index
           index_last nth_error lower_lip_point];
      eexists; reflexivity. }
  unfold _calculate_au_features.
  assert (E : forallb (fun au => match attempt sqrt (mkKeyPoints le re lb rb mo mi ns) au with
                                 | Some _ => true | None => false end) all_AUs = true).
  { apply forallb_forall. intros au _. destruct (A au) as [v ->]. reflexivity. }
  rewrite E. eexists. split; [reflexivity|].
  intro au. destruct (A au) as [v ->]. discriminate.
Qed.

(** The dictionary returned holds, for each AU, what the block of that
    AU computed. *)
Lemma extraction_entries (kp : KeyPoints) (f : Features) :
  _calculate_au_features sqrt kp = Some f ->
  forall au, attempt sqrt kp au = Some (f au).
Proof.
  unfold _calculate_au_features.
  destruct (forallb _ all_AUs) eqn:E; [|discriminate].
  intro H. injection H as <-. intro au.
  rewrite forallb_forall in E. specialize (E au (all_AUs_complete au)).
  destruct (attempt sqrt kp au); [reflexivity | discriminate].
Qed.

(** X15.  Two pairs of features are mirror images of each other: the AU7
    feature is the negated AU5 feature, and the AU15 feature is the
    negated AU12 feature; each pair is present or absent together. *)
Theorem mirrored_features (kp : KeyPoints) (f : Features) :
  _calculate_au_features sqrt kp = Some f ->
  f AU7 = option_map Qopp (f AU5)
  /\ match f AU12, f AU15 with
     | Some a, Some b => b == - a
     | None, None => True
     | _, _ => False
     end.
Proof.
  intro H. pose proof (extraction_entries kp f H) as A.
  pose proof (A AU5) as A5. pose proof (A AU7) as A7.
  pose proof (A AU12) as A12. pose proof (A AU15) as A15. clear A H.
  destruct kp as [le re lb rb mo mi ns].
  cbn [attempt left_eye mouth_outer] in *.
  split.
  - destruct (2 <? length le)%nat.
    + destruct (index le 1), (index le 5); cbn in A5, A7; try discriminate.
      injection A5 as <-. injection A7 as <-. reflexivity.
    + injection A5 as <-. injection A7 as <-. reflexivity.
  - destruct (6 <=? length mo)%nat.
    + destruct (index mo 0), (index mo 6), (index mo 3); cbn in A12, A15;
        try discriminate.
      injection A12 as <-. injection A15 as <-. field.
    + injection A12 as <-. injection A15 as <-. exact I.
Qed.

End FeatureExtraction.

Lemma full_landmarks_give_all_features_witness :
  exists f, AUFeatureExtraction._calculate_au_features MoreScenarios.newton_sqrt
              MoreScenarios.landmarks_68 = Some f
            /\ forall au, f au <> None.
Proof.
  apply (full_landmarks_give_all_features MoreScenarios.newton_sqrt MoreScenarios.landmarks_68);
    cbn; lia.
Defined.

Lemma mirrored_features_witness :
  MoreScenarios.features_68 AUDetector.AU7
  = option_map Qopp (MoreScenarios.features_68 AUDetector.AU5).
Proof.
  refine (proj1 (mirrored_features MoreScenarios.newton_sqrt MoreScenarios.landmarks_68
                   MoreScenarios.features_68 _)).
  reflexivity.
Defined.

Lemma feature_extraction_raises_exactly_witness :
  AUFeatureExtraction._calculate_au_features MoreScenarios.newton_sqrt
    MoreScenarios.six_point_mouth = None.
Proof.
  apply (proj2 (feature_extraction_raises_exactly MoreScenarios.newton_sqrt
                  MoreScenarios.six_point_mouth)).
  right. right. right. reflexivity.
Defined.

(** ** Mirrored features in the basic detector *)

Section MirroredPairs.
Import AUDetector AUFeatureExtraction Pairing.

Lemma Qgtb_compat (x x' y y' : Q) : x == x' -> y == y' -> Py.Qgtb x y = Py.Qgtb x' y'.
Proof.
  intros Hx Hy. unfold Py.Qgtb. f_equal.
  destruct (Qle_bool x y) eqn:E, (Qle_bool x' y') eqn:E'; try reflexivity.
  - apply Qle_bool_iff in E. rewrite Hx, Hy in E. apply Qle_bool_iff in E. congruence.
  - apply Qle_bool_iff in E'. rewrite <- Hx, <- Hy in E'. apply Qle_bool_iff in E'. congruence.
Qed.

Lemma Qneqb_compat (x x' y y' : Q) : x == x' -> y == y' -> Py.Qneqb x y = Py.Qneqb x' y'.
Proof.
  intros Hx Hy. unfold Py.Qneqb. f_equal.
  destruct (Qeq_bool x y) eqn:E, (Qeq_bool x' y') eqn:E'; try reflexivity.
  - apply Qeq_bool_iff in E. rewrite Hx, Hy in E. apply Qeq_bool_iff in E. congruence.
  - apply Qeq_bool_iff in E'. rewrite <- Hx, <- Hy in E'. apply Qeq_bool_iff in E'. congruence.
Qed.

Lemma mirror_sym (a b : option Q) : mirror a b -> mirror b a.
Proof.
  destruct a, b; cbn; try tauto. intro H. rewrite H. ring.
Qed.

Lemma Qsum_mirrored (l1 l2 : list Q) :
  Forall2 (fun x y => y == - x) l1 l2 -> Py.Qsum l2 == - Py.Qsum l1.
Proof.
  induction 1 as [|x y l1 l2 H _ IH]; cbn [Py.Qsum]; [ring|].
  rewrite H, IH. ring.
Qed.

Lemma mean_mirrored (l1 l2 : list Q) :
  Forall2 (fun x y => y == - x) l1 l2 -> Py.mean l2 == - Py.mean l1.
Proof.
  intro H. unfold Py.mean, Py.Qlen.
  rewrite (Qsum_mirrored _ _ H), <- (Forall2_length H).
  unfold Qdiv. ring.
Qed.

Lemma relative_intensity_mirrored (x y bx bY : Q) :
  y == - x -> bY == - bx ->
  relative_intensity y bY == - relative_intensity x bx.
Proof.
  intros Hy Hb. unfold relative_intensity.
  assert (E : Py.Qneqb bY 0 = Py.Qneqb bx 0).
  { unfold Py.Qneqb. f_equal.
    destruct (Qeq_bool bY 0) eqn:E1, (Qeq_bool bx 0) eqn:E2; try reflexivity.
    - apply Qeq_bool_iff in E1. rewrite Hb in E1.
      assert (Z : bx == 0) by lra. apply Qeq_bool_iff in Z. congruence.
    - apply Qeq_bool_iff in E2.
      assert (Z : bY == 0) by lra. apply Qeq_bool_iff in Z. congruence. }
  rewrite E. destruct (Py.Qneqb bx 0); [|ring].
  rewrite Hy, Hb, Qabs_opp. unfold Qdiv. ring.
Qed.

Lemma raw_activated_mirrored (a b : AU) (i j : Q) :
  AU_THRESHOLDS b <= AU_THRESHOLDS a -> j == - i ->
  implb (raw_activated a i) (raw_activated b j) = true.
Proof.
  intros T H. unfold raw_activated.
  destruct (Py.Qgtb (Qabs i) (AU_THRESHOLDS a)) eqn:E; [|reflexivity].
  apply Qgtb_true in E. cbn [implb].
  assert (A : Qabs j == Qabs i) by (rewrite H; apply Qabs_opp).
  unfold Py.Qgtb. destruct (Qle_bool (Qabs j) (AU_THRESHOLDS b)) eqn:L; [|reflexivity].
  apply Qle_bool_iff in L. lra.
Qed.

Lemma Forall2_skipn {A B : Type} (R : A -> B -> Prop) (n : nat) (l1 : list A) (l2 : list B) :
  Forall2 R l1 l2 -> Forall2 R (skipn n l1) (skipn n l2).
Proof.
  intro H. revert n. induction H as [|x y l1 l2 Hxy Ht IH]; intro n.
  - rewrite !skipn_nil. constructor.
  - destruct n; cbn [skipn]; [constructor; assumption | apply IH].
Qed.

Lemma deque_append_paired {A B : Type} (R : A -> B -> Prop) (n : nat)
      (l1 : list A) (l2 : list B) (x : A) (y : B) :
  Forall2 R l1 l2 -> R x y ->
  Forall2 R (Py.deque_append n l1 x) (Py.deque_append n l2 y).
Proof.
  intros H Hxy. unfold Py.deque_append, Py.lastn.
  rewrite !length_app, (Forall2_length H).
  apply Forall2_skipn. apply Forall2_app; [exact H | constructor; [exact Hxy | constructor]].
Qed.

Lemma count_true_paired (h1 h2 : list bool) :
  Forall2 (fun x y => implb x y = true) h1 h2 ->
  (Py.count_true h1 <= Py.count_true h2)%nat.
Proof.
  induction 1 as [|x y h1 h2 H _ IH]; cbn [Py.count_true]; [lia|].
  destruct x, y; cbn in H; try discriminate; lia.
Qed.

Lemma vote_paired (h1 h2 : list bool) :
  Forall2 (fun x y => implb x y = true) h1 h2 ->
  implb (Py.vote h1) (Py.vote h2) = true.
Proof.
  intro H. unfold Py.vote, Py.half_len.
  pose proof (count_true_paired _ _ H) as C.
  rewrite <- (Forall2_length H).
  destruct (Nat.div2 (length h1) <=? Py.count_true h1)%nat eqn:E; [|reflexivity].
  apply Nat.leb_le in E. cbn [implb]. apply Nat.leb_le. lia.
Qed.

Lemma update_baseline_paired (a b : AU) (st : State) (f : Features) :
  paired a b st -> mirror (f a) (f b) -> paired a b (_update_baseline st f).
Proof.
  intros (B & M & H) F. unfold paired, _update_baseline.
  cbn [baseline_buffer baseline au_history].
  destruct (f a) as [x|], (f b) as [y|]; cbn [mirror] in F; try contradiction.
  - assert (B' : Forall2 (fun x y => y == - x)
                         (baseline_buffer st a ++ [x]) (baseline_buffer st b ++ [y])).
    { apply Forall2_app; [exact B | constructor; [exact F | constructor]]. }
    split; [exact B'|]. split; [|exact H].
    rewrite <- (Forall2_length B').
    destruct (baseline_frames st <=? _)%nat; [|exact M].
    cbn [mirror]. apply mean_mirrored. exact B'.
  - split; [exact B|]. split; [exact M | exact H].
Qed.

Lemma detect_paired (a b : AU) (st : State) (f : Features) :
  AU_THRESHOLDS b <= AU_THRESHOLDS a ->
  paired a b st -> mirror (f a) (f b) ->
  paired a b (snd (detect st f))
  /\ follows (au_activations (fst (detect st f)) a) (au_activations (fst (detect st f)) b).
Proof.
  intros T P F. unfold detect.
  set (st1 := if baseline_calibrated st then st else _update_baseline st f).
  assert (P1 : paired a b st1).
  { unfold st1. destruct (baseline_calibrated st);
      [exact P | apply update_baseline_paired; assumption]. }
  clearbody st1. destruct P1 as (B & M & H).
  cbn [fst snd au_activations]. unfold paired.
  cbn [baseline_buffer baseline au_history].
  destruct (f a) as [x|], (f b) as [y|]; cbn [mirror] in F; try contradiction.
  - assert (I : relative_intensity y (baseline_value st1 b y)
                == - relative_intensity x (baseline_value st1 a x)).
    { apply relative_intensity_mirrored; [exact F|].
      unfold baseline_value.
      destruct (baseline st1 a), (baseline st1 b); cbn [mirror Py.get] in *;
        try contradiction; assumption. }
    assert (H' : Forall2 (fun x y => implb x y = true)
                   (Py.deque_append 5 (au_history st1 a)
                      (raw_activated a (relative_intensity x (baseline_value st1 a x))))
                   (Py.deque_append 5 (au_history st1 b)
                      (raw_activated b (relative_intensity y (baseline_value st1 b y))))).
    { apply deque_append_paired; [exact H|].
      apply raw_activated_mirrored; assumption. }
    split; [split; [exact B | split; [exact M | exact H']]|].
    cbn [follows]. apply vote_paired. exact H'.
  - split; [split; [exact B | split; [exact M | exact H]]|]. exact I.
Qed.

Lemma init_paired (a b : AU) (n : nat) : paired a b (init n).
Proof.
  unfold paired, init. cbn. repeat split; constructor.
Qed.

Variable sqrt : Q -> Q.

Lemma extracted_features_mirrored (kp : KeyPoints) (f : Features) :
  _calculate_au_features sqrt kp = Some f ->
  mirror (f AU5) (f AU7) /\ mirror (f AU12) (f AU15).
Proof.
  intro H. pose proof (extraction_entries sqrt kp f H) as A.
  pose proof (A AU5) as A5. pose proof (A AU7) as A7.
  pose proof (A AU12) as A12. pose proof (A AU15) as A15. clear A H.
  destruct kp as [le re lb rb mo mi ns].
  cbn [attempt left_eye mouth_outer] in *.
  split.
  - destruct (2 <? length le)%nat.
    + destruct (index le 1), (index le 5); cbn in A5, A7; try discriminate.
      injection A5 as <-. injection A7 as <-. cbn. reflexivity.
    + injection A5 as <-. injection A7 as <-. exact I.
  - destruct (6 <=? length mo)%nat.
    + destruct (index mo 0), (index mo 6), (index mo 3); cbn in A12, A15;
        try discriminate.
      injection A12 as <-. injection A15 as <-. cbn. field.
    + injection A12 as <-. injection A15 as <-. exact I.
Qed.

Lemma detect_frames_paired (frames : list KeyPoints) :
  forall (st : State) (results : list Result),
  paired AU5 AU7 st -> paired AU12 AU15 st -> paired AU15 AU12 st ->
  detect_frames sqrt st frames = Some results ->
  Forall (fun r => follows (au_activations r AU5) (au_activations r AU7)
                   /\ follows (au_activations r AU12) (au_activations r AU15)
                   /\ follows (au_activations r AU15) (au_activations r AU12)) results.
Proof.
  induction frames as [|kp frames IH]; intros st results P1 P2 P3 E.
  - injection E as <-. constructor.
  - cbn [detect_frames] in E. unfold detect_key_points in E.
    destruct (_calculate_au_features sqrt kp) as [f|] eqn:Ef; [|discriminate].
    destruct (extracted_features_mirrored kp f Ef) as [M1 M2].
    destruct (detect_paired AU5 AU7 st f ltac:(cbn; lra) P1 M1) as [Q1 R1].
    destruct (detect_paired AU12 AU15 st f ltac:(cbn; lra) P2 M2) as [Q2 R2].
    destruct (detect_paired AU15 AU12 st f ltac:(cbn; lra) P3 (mirror_sym _ _ M2)) as [Q3 R3].
    destruct (detect st f) as [r st'] eqn:D. cbn [fst snd] in *.
    destruct (detect_frames sqrt st' frames) as [rs|] eqn:Er; [|discriminate].
    injection E as <-. constructor; [tauto|].
    exact (IH st' rs Q1 Q2 Q3 Er).
Qed.

(** X16.  In a session of the basic detector fed from landmarks, the lip
    corner puller AU12 and the lip corner depressor AU15 are reported with
    the same activation in every frame, and the lid tightener AU7 is
    reported active in every frame that reports the upper lid raiser AU5
    active. *)
Theorem paired_action_units_agree (n : nat) (frames : list KeyPoints) (results : list Result) :
  detect_frames sqrt (init n) frames = Some results ->
  Forall (fun r => au_activations r AU12 = au_activations r AU15
                   /\ (act (au_activations r) AU5 = true ->
                       act (au_activations r) AU7 = true)) results.
Proof.
  intro E.
  pose proof (detect_frames_paired frames (init n) results
                (init_paired _ _ n) (init_paired _ _ n) (init_paired _ _ n) E) as F.
  eapply Forall_impl; [|exact F]. cbn beta.
  intros r (F1 & F2 & F3). unfold act. split.
  - destruct (au_activations r AU12) as [[|]|], (au_activations r AU15) as [[|]|];
      cbn in *; try contradiction; try discriminate; reflexivity.
  - destruct (au_activations r AU5) as [[|]|], (au_activations r AU7) as [[|]|];
      cbn in *; try contradiction; try discriminate; auto.
Qed.

End MirroredPairs.

Lemma paired_action_units_agree_witness :
  AUFeatureExtraction.detect_frames MoreScenarios.newton_sqrt (AUDetector.init 2)
    [MoreScenarios.landmarks_68; MoreScenarios.landmarks_68] = Some MoreScenarios.two_frames_68
  /\ Forall (fun r => AUDetector.au_activations r AUDetector.AU12
                      = AUDetector.au_activations r AUDetector.AU15
                      /\ (AUDetector.act (AUDetector.au_activations r) AUDetector.AU5 = true ->
                          AUDetector.act (AUDetector.au_activations r) AUDetector.AU7 = true))
            MoreScenarios.two_frames_68.
Proof.
  assert (E : AUFeatureExtraction.detect_frames MoreScenarios.newton_sqrt (AUDetector.init 2)
                [MoreScenarios.landmarks_68; MoreScenarios.landmarks_68]
              = Some MoreScenarios.two_frames_68) by reflexivity.
  split; [exact E|].
  exact (paired_action_units_agree MoreScenarios.newton_sqrt 2 _ _ E).
Defined.

(** ** The micro-expression classifier *)

Section MicroExpressions.
Import AUDetector.

Lemma mem_true (x : string) (l : list string) : Py.mem x l = true <-> In x l.
Proof.
  unfold Py.mem. rewrite existsb_exists. split.
  - intros [y [I E]]. apply String.eqb_eq in E. subst y. exact I.
  - intro I. exists x. split; [exact I | apply String.eqb_refl].
Qed.

(** The check of the next theorem, on each of the activation patterns the
    classification reads. *)
Lemma classification_checked (b6 b12 b1 b15 b4 b7 b9 b2 b5 b26 b43 : bool) :
  let a := fun au =>
    Some match au with
         | AU6 => b6 | AU12 => b12 | AU1 => b1 | AU15 => b15 | AU4 => b4
         | AU7 => b7 | AU9 => b9 | AU2 => b2 | AU5 => b5 | AU26 => b26
         | AU43 => b43 | _ => false
         end in
  match MicroExpressionClassifier.classify_emotion (_classify_micro_expressions a) with
  | None =>
      match _classify_micro_expressions a with
      | [] => true
      | _ => false
      end
  | Some e =>
      Py.mem e EmotionRecognizer.EMOTIONS
      && implb (b1 && (b15 || b4)) (String.eqb e "sad")
  end = true.
Proof.
  destruct b6, b12, b1, b15, b4, b7, b9, b2, b5, b26, b43; vm_compute; reflexivity.
Qed.

(** X17.  The emotion inferred from the micro-expressions of a detection
    is one of the seven emotions of the recogniser, it is missing only
    when the detection found no micro-expression, and it is "sad"
    whenever AU1 is active together with AU15 or AU4, whatever smile was
    found beside it. *)
Theorem classified_emotion_of_detection (a : AU -> option bool) :
  match MicroExpressionClassifier.classify_emotion (_classify_micro_expressions a) with
  | None => _classify_micro_expressions a = []
  | Some e =>
      In e EmotionRecognizer.EMOTIONS
      /\ (act a AU1 && (act a AU15 || act a AU4) = true -> e = "sad")
  end.
Proof.
  pose proof (classification_checked
                (act a AU6) (act a AU12) (act a AU1) (act a AU15) (act a AU4)
                (act a AU7) (act a AU9) (act a AU2) (act a AU5) (act a AU26)
                (act a AU43)) as H.
  cbv zeta in H. unfold _classify_micro_expressions in *.
  unfold act in *. cbn [Py.get] in H.
  destruct (MicroExpressionClassifier.classify_emotion _) as [e|].
  - apply andb_prop in H. destruct H as [M S]. split.
    + apply mem_true. exact M.
    + intro C. rewrite C in S. apply String.eqb_eq. exact S.
  - match type of H with (match ?l with _ => _ end) = true => destruct l end;
      [reflexivity | discriminate].
Qed.

End MicroExpressions.

Lemma classified_emotion_of_detection_witness :
  match MicroExpressionClassifier.classify_emotion
          (AUDetector._classify_micro_expressions MoreScenarios.sad_smile) with
  | None => AUDetector._classify_micro_expressions MoreScenarios.sad_smile = []
  | Some e =>
      In e EmotionRecognizer.EMOTIONS
      /\ (AUDetector.act MoreScenarios.sad_smile AUDetector.AU1
          && (AUDetector.act MoreScenarios.sad_smile AUDetector.AU15
              || AUDetector.act MoreScenarios.sad_smile AUDetector.AU4) = true ->
          e = "sad")
  end.
Proof.
  exact (classified_emotion_of_detection MoreScenarios.sad_smile).
Defined.

(** ** The emotion analyser of [emotion_recognizer.py] *)

Section EmotionAnalysis.
Import EmotionRecognizer.

Lemma first_occurrences_In (l : list string) :
  forall (seen : list string) (e : string),
  In e (first_occurrences seen l) <-> In e l /\ ~ In e seen.
Proof.
  induction l as [|x r IH]; intros seen e; cbn [first_occurrences].
  - cbn. tauto.
  - destruct (Py.mem x seen) eqn:M.
    + apply mem_true in M. rewrite IH. cbn [In]. split.
      * tauto.
      * intros [[-> | I] N]; [contradiction | tauto].
    + assert (N : ~ In x seen).
      { intro I. apply mem_true in I. congruence. }
      cbn [In]. rewrite IH. cbn [In].
      destruct (String.string_dec x e) as [-> | D]; tauto.
Qed.

Lemma lookup_keyed (g : string -> Q) (e : string) (l : list string) :
  Py.lookup e (map (fun k => (k, g k)) l) = if Py.mem e l then Some (g e) else None.
Proof.
  induction l as [|k r IH]; [reflexivity|].
  cbn [map Py.lookup Py.mem existsb]. destruct (String.eqb e k) eqn:E.
  - apply String.eqb_eq in E. subst k. reflexivity.
  - cbn [orb]. exact IH.
Qed.

Lemma count_label_absent (e : string) (l : list string) :
  ~ In e l -> count_label e l == 0.
Proof.
  induction l as [|y r IH]; intro N; cbn [count_label]; [reflexivity|].
  destruct (String.eqb y e) eqn:E.
  - apply String.eqb_eq in E. subst y. exfalso. apply N. left. reflexivity.
  - rewrite IH; [ring|]. intro I. apply N. right. exact I.
Qed.

(** The share an emotion holds in the distribution of a label list. *)
Lemma prob_of_distribution (t : Q) (labels : list string) (e : string) :
  prob (map (fun ec => (fst ec, snd ec / t)) (emotion_counts labels)) e
  == count_label e labels / t.
Proof.
  unfold prob, emotion_counts. rewrite map_map. cbn [fst snd].
  rewrite (lookup_keyed (fun k => count_label k labels / t)).
  destruct (Py.mem e (first_occurrences [] labels)) eqn:M; [reflexivity|].
  cbn [Py.get].
  rewrite count_label_absent; [unfold Qdiv; ring|].
  intro I. assert (I' : In e (first_occurrences [] labels)).
  { apply first_occurrences_In. split; [exact I | intros []]. }
  apply mem_true in I'. congruence.
Qed.

Lemma Qlen_cons {A : Type} (x : A) (l : list A) : Py.Qlen (x :: l) == 1 + Py.Qlen l.
Proof.
  unfold Py.Qlen. cbn [length]. rewrite Nat2Z.inj_succ, <- Z.add_1_l, inject_Z_plus.
  reflexivity.
Qed.

Ltac eval_label_tests :=
  repeat match goal with
         | |- context [String.eqb ?a ?b] =>
             let v := eval vm_compute in (String.eqb a b) in
             change (String.eqb a b) with v
         end;
  cbv iota.

Lemma seven_counts_le (labels : list string) : Counting.seven_counts labels <= Py.Qlen labels.
Proof.
  unfold Counting.seven_counts. induction labels as [|y r IH];
    [vm_compute; intro H; discriminate H|].
  rewrite Qlen_cons. cbn [count_label].
  destruct (String.eqb y "happy") eqn:E1;
    [apply String.eqb_eq in E1; subst y; eval_label_tests; lra|].
  destruct (String.eqb y "surprise") eqn:E2;
    [apply String.eqb_eq in E2; subst y; eval_label_tests; lra|].
  destruct (String.eqb y "sad") eqn:E3;
    [apply String.eqb_eq in E3; subst y; eval_label_tests; lra|].
  destruct (String.eqb y "angry") eqn:E4;
    [apply String.eqb_eq in E4; subst y; eval_label_tests; lra|].
  destruct (String.eqb y "fear") eqn:E5;
    [apply String.eqb_eq in E5; subst y; eval_label_tests; lra|].
  destruct (String.eqb y "disgust") eqn:E6;
    [apply String.eqb_eq in E6; subst y; eval_label_tests; lra|].
  destruct (String.eqb y "neutral") eqn:E7;
    [apply String.eqb_eq in E7; subst y; eval_label_tests; lra|].
  lra.
Qed.

Lemma seven_counts_eq (labels : list string) :
  Forall (fun e => In e EMOTIONS) labels -> Counting.seven_counts labels == Py.Qlen labels.
Proof.
  unfold Counting.seven_counts. induction 1 as [|y r Hy _ IH]; [reflexivity|].
  rewrite Qlen_cons. cbn [count_label].
  unfold EMOTIONS in Hy. cbn [In] in Hy.
  destruct Hy as [<- | [<- | [<- | [<- | [<- | [<- | [<- | []]]]]]]];
    eval_label_tests; lra.
Qed.

Lemma emotion_changes_bound (l : list EmotionAnalyzer.EmotionRecord) :
  (EmotionAnalyzer.emotion_changes l <= length l - 1)%nat.
Proof.
  induction l as [|x [|y r] IH]; cbn [EmotionAnalyzer.emotion_changes length] in *; try lia.
  destruct (String.eqb _ _); lia.
Qed.

(** X18.  In the time-window analysis of recognised emotions the
    positive, negative and neutral ratios add up to 1 to within 1e-9 when
    every recorded label is one of the seven emotions, and to at most
    1 + 1e-9 otherwise (the bound leaves room for the rounding of the
    returned doubles); the change rate is at least 0 and below 1. *)
Theorem analysis_ratios (st : EmotionAnalyzer.State) (a : EmotionAnalyzer.Analysis) :
  EmotionAnalyzer.analyze st = Some a ->
  EmotionAnalyzer.positive_ratio a + EmotionAnalyzer.negative_ratio a
  + EmotionAnalyzer.neutral_ratio a <= 1 + 1e-9
  /\ (Forall (fun r => In (EmotionAnalyzer.emotion r) EMOTIONS)
             (EmotionAnalyzer.emotion_history st) ->
      Qabs (EmotionAnalyzer.positive_ratio a + EmotionAnalyzer.negative_ratio a
            + EmotionAnalyzer.neutral_ratio a - 1) <= 1e-9)
  /\ 0 <= EmotionAnalyzer.change_rate a < 1.
Proof.
  unfold EmotionAnalyzer.analyze.
  destruct (EmotionAnalyzer.emotion_history st) as [|x h] eqn:Eh; [discriminate|].
  rewrite <- Eh. intro H. injection H as <-.
  cbn [EmotionAnalyzer.positive_ratio EmotionAnalyzer.negative_ratio
       EmotionAnalyzer.neutral_ratio EmotionAnalyzer.change_rate].
  set (hist := EmotionAnalyzer.emotion_history st) in *.
  set (labels := map EmotionAnalyzer.emotion hist).
  assert (T : 0 < Py.Qlen hist).
  { apply Qlen_pos. rewrite Eh. discriminate. }
  assert (L : Py.Qlen labels = Py.Qlen hist).
  { unfold Py.Qlen, labels. rewrite length_map. reflexivity. }
  assert (S : Py.Qsum (map (prob (map (fun ec => (fst ec, snd ec / Py.Qlen hist))
                                      (emotion_counts labels)))
                           ["happy"; "surprise"])
              + Py.Qsum (map (prob (map (fun ec => (fst ec, snd ec / Py.Qlen hist))
                                        (emotion_counts labels)))
                             ["sad"; "angry"; "fear"; "disgust"])
              + prob (map (fun ec => (fst ec, snd ec / Py.Qlen hist))
                          (emotion_counts labels)) "neutral"
              == Counting.seven_counts labels / Py.Qlen hist).
  { cbn [map Py.Qsum]. rewrite !prob_of_distribution. unfold Counting.seven_counts.
    field. lra. }
  split; [|split].
  - rewrite S.
    assert (B1 : Counting.seven_counts labels / Py.Qlen hist <= 1).
    { apply Qle_shift_div_r; [exact T|].
      pose proof (seven_counts_le labels) as B. rewrite L in B. lra. }
    apply (Qle_trans _ 1); [exact B1 | vm_compute; intro H; discriminate H].
  - intro F. rewrite S, seven_counts_eq, L.
    + setoid_replace (Py.Qlen hist / Py.Qlen hist - 1) with 0 by (field; lra).
      vm_compute. intro H. discriminate H.
    + unfold labels. apply Forall_map. exact F.
  - pose proof (emotion_changes_bound hist) as B.
    destruct (1 <? length hist)%nat eqn:E1; [|lra].
    apply Nat.ltb_lt in E1.
    assert (C : inject_Z (Z.of_nat (EmotionAnalyzer.emotion_changes hist)) < Py.Qlen hist).
    { unfold Py.Qlen. rewrite <- Zlt_Qlt. lia. }
    assert (C0 : 0 <= inject_Z (Z.of_nat (EmotionAnalyzer.emotion_changes hist))).
    { change 0 with (inject_Z 0). rewrite <- Zle_Qle. lia. }
    split.
    + apply Qle_shift_div_l; [exact T | lra].
    + apply Qlt_shift_div_r; [exact T | lra].
Qed.

End EmotionAnalysis.

Lemma analysis_ratios_witness :
  EmotionAnalyzer.positive_ratio MoreScenarios.mixed_analysis
  + EmotionAnalyzer.negative_ratio MoreScenarios.mixed_analysis
  + EmotionAnalyzer.neutral_ratio MoreScenarios.mixed_analysis <= 1 + 1e-9
  /\ 0 <= EmotionAnalyzer.change_rate MoreScenarios.mixed_analysis < 1.
Proof.
  assert (E : EmotionAnalyzer.analyze MoreScenarios.mixed_window = Some MoreScenarios.mixed_analysis)
    by reflexivity.
  destruct (analysis_ratios _ _ E) as (A & _ & C).
  split; [exact A | exact C].
Defined.

(** ** Attention weights of [temporal_analyzer.py] *)

Section AttentionWeights.
Import AttentionWeightCalculator.

Ltac closed_Q :=
  vm_compute;
  first [ reflexivity | let H := fresh in intro H; discriminate H ].

(** X19.  The attention weights of the five face regions are positive
    and add up to 1 to within 1e-9, whatever AUs are active.  Without an
    active region they are the base weights themselves.  When some
    regions hold an active AU and some do not, each of the former gets at
    least 1.008 times its base weight and each of the latter at most
    0.991 times.  When all five do, the weights are the base weights to
    within 1e-9. *)
Theorem attention_weights_normalised (au_activations : list (string * bool)) :
  let w := calculate_weights au_activations in
  let active := in_activated_regions au_activations in
  (forall r, 0 < w r)
  /\ Qabs (Py.Qsum (map w all_regions) - 1) <= 1e-9
  /\ (existsb active all_regions = false -> forall r, w r = region_weights r)
  /\ (existsb active all_regions = true ->
      forallb active all_regions = false ->
      forall r, if active r
                then 1.008 * region_weights r <= w r
                else w r <= 0.991 * region_weights r)
  /\ (forallb active all_regions = true ->
      forall r, Qabs (w r - region_weights r) <= 1e-9).
Proof.
  unfold calculate_weights.
  generalize (in_activated_regions au_activations). intro activated.
  cbv zeta. cbn [all_regions existsb forallb map].
  destruct (activated eyes) eqn:E1, (activated eyebrows) eqn:E2,
           (activated mouth) eqn:E3, (activated nose) eqn:E4,
           (activated cheeks) eqn:E5;
    cbn [orb andb];
    (split; [intro r; destruct r; rewrite ?E1, ?E2, ?E3, ?E4, ?E5; closed_Q|]);
    (split; [cbn [Py.Qsum]; rewrite ?E1, ?E2, ?E3, ?E4, ?E5; closed_Q|]);
    (split; [intro H; first [discriminate H | intro r; reflexivity]|]);
    (split; [intros H1 H2;
             first [ discriminate H1 | discriminate H2
                   | intro r; destruct r; rewrite ?E1, ?E2, ?E3, ?E4, ?E5; closed_Q ]|]);
    intro H;
    first [ discriminate H
          | intro r; destruct r; rewrite ?E1, ?E2, ?E3, ?E4, ?E5; closed_Q ].
Qed.

End AttentionWeights.

Lemma attention_weights_normalised_witness :
  1.008 * AttentionWeightCalculator.region_weights AttentionWeightCalculator.mouth
  <= AttentionWeightCalculator.calculate_weights [("AU12", true)]
       AttentionWeightCalculator.mouth.
Proof.
  refine (proj1 (proj2 (proj2 (proj2
            (attention_weights_normalised [("AU12", true)])))) _ _
          AttentionWeightCalculator.mouth); reflexivity.
Defined.

(** ** The recognised emotion *)

Section RecognisedEmotion.
Import EmotionRecognizer.

Lemma argmax_from_spec (d : Dist) :
  forall (best : string) (bv : Q),
  exists v, In (argmax_from best bv d, v) ((best, bv) :: d)
            /\ bv <= v /\ Forall (fun kv => snd kv <= v) d.
Proof.
  induction d as [|[k v] r IH]; intros best bv; cbn [argmax_from].
  - exists bv. split; [left; reflexivity|]. split; [lra | constructor].
  - destruct (Py.Qgtb v bv) eqn:E.
    + apply Qgtb_true in E. destruct (IH k v) as [m (I & B & F)].
      exists m. split; [right; exact I|]. split; [lra|].
      constructor; [exact B | exact F].
    + apply Qgtb_false in E. destruct (IH best bv) as [m (I & B & F)].
      exists m. split.
      * destruct I as [I | I]; [left; exact I | right; right; exact I].
      * split; [exact B|]. constructor; [cbn; lra | exact F].
Qed.

Lemma lookup_NoDup (d : Dist) (k : string) (v : Q) :
  NoDup (map fst d) -> In (k, v) d -> Py.lookup k d = Some v.
Proof.
  induction d as [|[k' v'] r IH]; intros N I; [destruct I|].
  cbn [map fst] in N. inversion N as [|? ? Nk Nr]; subst.
  cbn [Py.lookup]. destruct I as [I | I].
  - injection I as -> ->. rewrite String.eqb_refl. reflexivity.
  - destruct (String.eqb k k') eqn:E.
    + apply String.eqb_eq in E. subst k'. exfalso. apply Nk.
      change k with (fst (k, v)). apply in_map. exact I.
    + apply IH; assumption.
Qed.

Lemma lookup_In (d : Dist) (k : string) (v : Q) :
  Py.lookup k d = Some v -> In (k, v) d.
Proof.
  induction d as [|[k' v'] r IH]; [discriminate|].
  cbn [Py.lookup]. destruct (String.eqb k k') eqn:E.
  - apply String.eqb_eq in E. subst k'. intro H. injection H as ->. left. reflexivity.
  - intro H. right. apply IH. exact H.
Qed.

(** The key returned by [max(d, key=d.get)] holds a largest value. *)
Lemma argmax_is_largest (d : Dist) :
  d <> [] -> NoDup (map fst d) ->
  In (argmax d) (map fst d)
  /\ forall e, In e (map fst d) -> prob d e <= prob d (argmax d).
Proof.
  intros Hd N. destruct d as [|[k v] r]; [congruence|].
  unfold argmax. destruct (argmax_from_spec r k v) as [m (I & B & F)].
  set (res := argmax_from k v r) in *.
  assert (L : Py.lookup res ((k, v) :: r) = Some m) by (apply lookup_NoDup; assumption).
  split.
  - change res with (fst (res, m)). apply in_map. exact I.
  - intros e He. unfold prob. rewrite L. cbn [Py.get].
    destruct (Py.lookup e ((k, v) :: r)) as [w|] eqn:Le.
    + cbn [Py.get]. apply lookup_In in Le. destruct Le as [Le | Le].
      * injection Le as _ <-. exact B.
      * rewrite Forall_forall in F. exact (F _ Le).
    + exfalso. apply in_map_iff in He. destruct He as [[k' v'] [Hk I']].
      cbn [fst] in Hk. subst k'.
      rewrite (lookup_NoDup _ _ _ N I') in Le. discriminate.
Qed.

Lemma EMOTIONS_NoDup : NoDup EMOTIONS.
Proof.
  unfold EMOTIONS.
  repeat (constructor; [cbn [In]; intro H;
                        repeat (destruct H as [H | H]; [discriminate H|]); exact H|]).
  constructor.
Qed.

(** X20.  On the AU path and on the fusion path the recogniser reports
    one of its seven emotions, and no emotion has a larger probability in
    the reported distribution than the reported confidence. *)
Theorem recognised_emotion_is_most_probable (d : AUData) (model_result : Recognition) :
  let by_au := _recognize_by_au d in
  let fused := _fuse_with_au model_result d in
  (In (emotion by_au) EMOTIONS
   /\ forall e, In e EMOTIONS -> prob (probabilities by_au) e <= confidence by_au)
  /\ (In (emotion fused) EMOTIONS
      /\ forall e, In e EMOTIONS -> prob (probabilities fused) e <= confidence fused).
Proof.
  cbv zeta. split.
  - pose proof (au_path_keys d) as K.
    unfold _recognize_by_au in *. cbn [emotion confidence probabilities] in *.
    set (p := if Py.Qgtb _ 0 then _ else _) in *.
    assert (Hp : p <> []) by (intro Z; rewrite Z in K; discriminate K).
    assert (N : NoDup (map fst p)) by (rewrite K; apply EMOTIONS_NoDup).
    destruct (argmax_is_largest p Hp N) as [I M]. rewrite K in I, M.
    split; assumption.
  - unfold _fuse_with_au. cbn [emotion confidence probabilities].
    set (p := map _ EMOTIONS).
    assert (K : map fst p = EMOTIONS).
    { unfold p. rewrite map_map. cbn [fst]. apply map_id. }
    assert (Hp : p <> []) by (intro Z; rewrite Z in K; discriminate K).
    assert (N : NoDup (map fst p)) by (rewrite K; apply EMOTIONS_NoDup).
    destruct (argmax_is_largest p Hp N) as [I M]. rewrite K in I, M.
    split; assumption.
Qed.

Lemma au_false_everywhere (d : AUData) (name : string) :
  Forall (fun kv => snd kv = false) (au_activations d) -> au d name = false.
Proof.
  unfold au. intro F. induction F as [|[k b] r Hb _ IH]; [reflexivity|].
  cbn [Py.lookup]. cbn [snd] in Hb. subst b.
  destruct (String.eqb name k); [reflexivity | exact IH].
Qed.

(** X21.  A frame without an active AU and without a micro-expression is
    recognised on the AU path as neutral with confidence 1. *)
Theorem no_evidence_is_neutral (d : AUData) :
  Forall (fun kv => snd kv = false) (au_activations d) ->
  micro_expressions d = [] ->
  let r := _recognize_by_au d in
  emotion r = "neutral" /\ confidence r == 1
  /\ forall e, e <> "neutral" -> In e EMOTIONS -> prob (probabilities r) e == 0.
Proof.
  intros F M.
  assert (S : emotion_scores d = zeros).
  { unfold emotion_scores. rewrite M.
    rewrite !(au_false_everywhere d _ F). reflexivity. }
  cbv zeta. unfold _recognize_by_au. rewrite S.
  split; [reflexivity|]. split; [reflexivity|].
  intros e Ne I. unfold EMOTIONS in I. cbn [In] in I.
  destruct I as [<- | [<- | [<- | [<- | [<- | [<- | [<- | []]]]]]]];
    try reflexivity.
  congruence.
Qed.

End RecognisedEmotion.

Lemma no_evidence_is_neutral_witness :
  EmotionRecognizer.emotion (EmotionRecognizer._recognize_by_au MoreScenarios.still_face)
  = "neutral".
Proof.
  refine (proj1 (no_evidence_is_neutral MoreScenarios.still_face _ _)).
  - repeat constructor.
  - reflexivity.
Defined.

Lemma recognised_emotion_is_most_probable_witness :
  In (EmotionRecognizer.emotion (EmotionRecognizer._recognize_by_au MoreScenarios.still_face))
     EmotionRecognizer.EMOTIONS.
Proof.
  exact (proj1 (proj1 (recognised_emotion_is_most_probable MoreScenarios.still_face
                         (EmotionRecognizer._recognize_by_au MoreScenarios.still_face)))).
Defined.

(** ** Verdicts and statistics of the genuineness analyser *)

Section GenuinenessMore.
Import GenuineEmotionDetector GenuineEmotionSession.

Lemma Qmin2_cases (x y : Q) : (Py.Qmin2 x y == x /\ x <= y) \/ (Py.Qmin2 x y == y /\ y <= x).
Proof.
  unfold Py.Qmin2. destruct (Py.Qltb y x) eqn:E.
  - apply Qltb_true in E. right. split; [reflexivity | lra].
  - apply Qltb_false in E. left. split; [reflexivity | exact E].
Qed.

Lemma filter_Qlen_le {A : Type} (p : A -> bool) (l : list A) :
  Py.Qlen (filter p l) <= Py.Qlen l.
Proof.
  unfold Py.Qlen. rewrite <- Zle_Qle. pose proof (filter_length_le p l). lia.
Qed.

Lemma activation_ratio_range (au_results : AUResults) (keys : list string) :
  let r := match keys with
           | [] => 0.0
           | _ => Py.Qlen (filter (entry_active au_results) keys) / Py.Qlen keys
           end in
  0 <= r <= 1.
Proof.
  cbv zeta. destruct keys as [|k keys]; [lra|].
  set (l := k :: keys).
  assert (P : 0 < Py.Qlen l) by (apply Qlen_pos; discriminate).
  pose proof (filter_Qlen_le (entry_active au_results) l) as B.
  pose proof (Qlen_nonneg (filter (entry_active au_results) l)) as N.
  split.
  - apply Qle_shift_div_l; [exact P | lra].
  - apply Qle_shift_div_r; [exact P | lra].
Qed.

Lemma smile_score_range (st : State) (au_results : AUResults) :
  let v := _analyze_smile_genuineness st au_results in
  0 <= genuineness_score v <= 1
  /\ fake_probability v == 1 - genuineness_score v
  /\ 0.1 <= confidence v <= 0.95.
Proof.
  cbv zeta. unfold _analyze_smile_genuineness.
  cbn [genuineness_score fake_probability confidence].
  set (s := 0.0 + _ + _ + _ + _ + _).
  assert (R : 0 <= s <= 1).
  { unfold s. case_guards; lra. }
  split; [exact R|]. split; [lra|].
  destruct (Qmin2_cases 0.95 (s + 0.1)) as [[E L] | [E L]]; rewrite E; lra.
Qed.

Lemma negative_score_range (st : State) (emotion : string) (au_results : AUResults) :
  let v := _analyze_negative_emotion_genuineness st emotion au_results in
  0 <= genuineness_score v <= 1
  /\ fake_probability v == 1 - genuineness_score v
  /\ 0.1 <= confidence v <= 0.95.
Proof.
  cbv zeta. unfold _analyze_negative_emotion_genuineness.
  cbn [genuineness_score fake_probability confidence].
  pose proof (activation_ratio_range au_results (key_aus emotion)) as A. cbv zeta in A.
  set (r := match key_aus emotion with [] => 0.0 | _ => _ end) in *.
  set (s := 0.0 + _ + _ + _ + _).
  assert (R : 0 <= s <= 1).
  { unfold s. clearbody r. case_guards; lra. }
  split; [exact R|]. split; [lra|].
  destruct (Qmin2_cases 0.95 (s + 0.2)) as [[E L] | [E L]]; rewrite E; lra.
Qed.

(** X22.  Every verdict of the genuineness analyser has a score between 0
    and 1, a fake probability that is its complement, a confidence
    between 0.1 and 0.95, and names the emotion it was asked about. *)
Theorem verdict_ranges (st : State) (e : string) (au_results : AUResults) (timestamp : Q) :
  let v := fst (analyze st e au_results timestamp) in
  0 <= genuineness_score v <= 1
  /\ fake_probability v == 1 - genuineness_score v
  /\ 0.1 <= confidence v <= 0.95
  /\ emotion v = e.
Proof.
  cbv zeta. unfold analyze. cbn [fst].
  set (st1 := track st e au_results timestamp).
  destruct (String.eqb e "happiness") eqn:E.
  - apply String.eqb_eq in E.
    destruct (smile_score_range st1 au_results) as (A & B & C).
    repeat split; try apply A; try apply C; try exact B.
    symmetry. exact E.
  - destruct (Py.mem e _).
    + destruct (negative_score_range st1 e au_results) as (A & B & C).
      repeat split; try apply A; try apply C; exact B.
    + cbn. repeat split; lra.
Qed.

(** X23.  A negative emotion none of whose key AUs is active is never
    judged genuine: its score stays at or below 0.3. *)
Theorem negative_emotion_needs_a_key_au
        (st : State) (e : string) (au_results : AUResults) (timestamp : Q) :
  In e ["sadness"; "anger"; "fear"; "disgust"] ->
  (forall k, In k (key_aus e) -> entry_active au_results k = false) ->
  let v := fst (analyze st e au_results timestamp) in
  is_genuine v = false /\ genuineness_score v <= 0.3.
Proof.
  intros He Hk. cbv zeta. unfold analyze. cbn [fst].
  set (st1 := track st e au_results timestamp).
  assert (N : String.eqb e "happiness" = false).
  { cbn [In] in He. destruct He as [<- | [<- | [<- | [<- | []]]]]; reflexivity. }
  assert (M : Py.mem e ["sadness"; "anger"; "fear"; "disgust"] = true).
  { apply mem_true. exact He. }
  rewrite N, M. unfold _analyze_negative_emotion_genuineness.
  cbn [is_genuine genuineness_score].
  assert (F : filter (entry_active au_results) (key_aus e) = []).
  { induction (key_aus e) as [|k r IH]; [reflexivity|].
    cbn [filter]. rewrite (Hk k (or_introl eq_refl)).
    apply IH. intros k' I. apply Hk. right. exact I. }
  rewrite F. cbn [map].
  assert (Z : match key_aus e with [] => 0.0 | _ :: _ => Py.Qlen (@nil string) / Py.Qlen (key_aus e) end == 0).
  { destruct (key_aus e); [reflexivity|]. unfold Py.Qlen at 1. cbn [length Z.of_nat].
    unfold Qdiv. change (inject_Z 0) with 0. ring. }
  set (s := 0.0 + _ + _ + _ + _).
  assert (R : s <= 0.3).
  { unfold s. rewrite Z.
    change (Qle_bool 1.5 0.0 && Qle_bool 0.0 4.0) with false.
    change (Py.Qgtb 0.0 0) with false. cbv iota.
    case_guards; lra. }
  split; [|exact R].
  unfold Py.Qgeb. destruct (Qle_bool 0.5 s) eqn:L; [|reflexivity].
  apply Qle_bool_iff in L. lra.
Qed.

Lemma analyze_counts (st : State) (e : string) (au_results : AUResults) (timestamp : Q) :
  let st' := snd (analyze st e au_results timestamp) in
  total_emotions st' = S (total_emotions st)
  /\ (genuine_count st' + fake_count st' = S (genuine_count st + fake_count st))%nat.
Proof.
  cbv zeta. unfold analyze. cbn [snd total_emotions genuine_count fake_count track].
  split; [reflexivity|].
  destruct (is_genuine _); lia.
Qed.

Lemma run_counts (calls : list Call) :
  forall st, (genuine_count st + fake_count st = total_emotions st)%nat ->
  let st' := run st calls in
  (genuine_count st' + fake_count st' = total_emotions st')%nat.
Proof.
  induction calls as [|c r IH]; intros st H; [exact H|].
  cbn [run fold_left]. apply IH.
  destruct c as [e a t|]; cbn [step].
  - destruct (analyze_counts st e a t) as [T G]. lia.
  - reflexivity.
Qed.

Lemma Qdiv_nat_sum (a b t : nat) :
  (a + b = t)%nat -> (0 < t)%nat ->
  inject_Z (Z.of_nat a) / inject_Z (Z.of_nat t)
  + inject_Z (Z.of_nat b) / inject_Z (Z.of_nat t) == 1.
Proof.
  intros H P. rewrite <- H, Nat2Z.inj_add, inject_Z_plus.
  assert (0 < inject_Z (Z.of_nat a) + inject_Z (Z.of_nat b)).
  { rewrite <- inject_Z_plus. change 0 with (inject_Z 0). rewrite <- Zlt_Qlt. lia. }
  field. lra.
Qed.

Lemma run_total (calls : list Call) :
  forall st,
  total_emotions (run st calls)
  = if existsb (fun c => match c with Reset => true | _ => false end) calls
    then analyses_since_reset calls
    else (total_emotions st + analyses_since_reset calls)%nat.
Proof.
  induction calls as [|c r IH]; intro st.
  - cbn. lia.
  - cbn [run fold_left]. fold (run (step st c) r). rewrite IH.
    cbn [existsb analyses_since_reset].
    destruct (existsb _ r).
    + rewrite orb_true_r. reflexivity.
    + rewrite orb_false_r. destruct c as [e a t|]; cbn [step].
      * destruct (analyze_counts st e a t) as [T _]. rewrite T. lia.
      * reflexivity.
Qed.

(** X24.  After any sequence of [analyze] and [reset] calls the detector
    has counted the frames analysed since the last reset, the genuine and
    fake counters add up to that number, and once a frame has been
    analysed the genuine rate and the fake rate add up to 1. *)
Theorem statistics_are_consistent (n : nat) (onset offset : Q) (calls : list Call) :
  let s := get_statistics (run (init n onset offset) calls) in
  stat_total_emotions s = analyses_since_reset calls
  /\ (stat_genuine_count s + stat_fake_count s = stat_total_emotions s)%nat
  /\ ((0 < stat_total_emotions s)%nat -> genuine_rate s + fake_rate s == 1)
  /\ (stat_total_emotions s = O -> genuine_rate s == 0 /\ fake_rate s == 0).
Proof.
  cbv zeta.
  pose proof (run_counts calls (init n onset offset) eq_refl) as C. cbv zeta in C.
  set (st := run _ calls) in *. unfold get_statistics.
  cbn [stat_genuine_count stat_fake_count stat_total_emotions genuine_rate fake_rate].
  split.
  { unfold st. rewrite run_total. destruct (existsb _ calls); reflexivity. }
  split; [exact C|]. split.
  - intro P. assert (E : (0 <? total_emotions st)%nat = true) by (apply Nat.ltb_lt; exact P).
    rewrite E. apply Qdiv_nat_sum; assumption.
  - intro Z. rewrite Z. cbn. split; reflexivity.
Qed.

End GenuinenessMore.

Lemma negative_emotion_needs_a_key_au_witness :
  GenuineEmotionDetector.is_genuine
    (fst (GenuineEmotionDetector.analyze GenuineEmotionDetector.default "sadness"
            [("AU12", GenuineEmotionDetector.mkEntry true 3)] 1)) = false.
Proof.
  refine (proj1 (negative_emotion_needs_a_key_au GenuineEmotionDetector.default "sadness"
                   [("AU12", GenuineEmotionDetector.mkEntry true 3)] 1 _ _)).
  - cbn. tauto.
  - intros k Hk. cbn in Hk.
    destruct Hk as [<- | [<- | [<- | []]]]; reflexivity.
Defined.

Lemma statistics_are_consistent_witness :
  let s := GenuineEmotionSession.get_statistics
             (GenuineEmotionSession.run (GenuineEmotionDetector.init 90 0.3 0.3)
                MoreScenarios.two_analyses) in
  GenuineEmotionSession.genuine_rate s + GenuineEmotionSession.fake_rate s == 1.
Proof.
  refine (proj1 (proj2 (proj2 (statistics_are_consistent 90 0.3 0.3
                                 MoreScenarios.two_analyses))) _).
  apply Nat.ltb_lt. vm_compute. reflexivity.
Defined.

(** ** Score ranges of the two clinical scorers *)

Section MedicalScorerMore.
Import MedicalGradeClinicalAssessor.

Lemma sad_excludes_neutral (e : EmotionResult) :
  emotion_is e "sad" && emotion_is e "neutral" = false.
Proof.
  unfold emotion_is. destruct (emotion e) as [l|]; [|reflexivity].
  destruct (String.eqb l "sad") eqn:E; [|reflexivity].
  apply String.eqb_eq in E. subst l. reflexivity.
Qed.

(** The largest score each symptom can get. *)
Lemma symptom_scores_caps hist e a eye g (s : Symptom) :
  (0 <= symptom_scores hist e a eye g s
   <= match s with
      | anhedonia | depressed_mood | sleep_problems | fatigue_symptom => 3
      | appetite_changes => 0
      | low_self_worth | concentration_problems | psychomotor_changes
      | suicidal_thoughts => 2
      end)%Z.
Proof.
  pose proof (symptom_scores_bounds hist e a eye g s) as B.
  destruct s; try exact B; cbn [symptom_scores] in *;
    unfold _assess_self_worth, _assess_concentration, _assess_psychomotor,
      _assess_suicidal_risk, min3 in *; try lia.
  - unfold b2z. case_guards; lia.
  - unfold b2z. case_guards; lia.
  - unfold b2z. case_guards; lia.
  - pose proof (sad_excludes_neutral e) as X. unfold b2z.
    destruct (emotion_is e "sad"), (emotion_is e "neutral"); try discriminate X;
      cbn [andb]; rewrite ?andb_false_r; case_guards; lia.
Qed.

Lemma weighted_total_cap (sc : Symptom -> Z) :
  (forall s, (0 <= sc s <= match s with
                           | anhedonia | depressed_mood | sleep_problems
                           | fatigue_symptom => 3
                           | appetite_changes => 0
                           | low_self_worth | concentration_problems
                           | psychomotor_changes | suicidal_thoughts => 2
                           end)%Z) ->
  Py.Qsum (map (fun s => inject_Z (sc s) * weight s) all_symptoms) <= 22.2.
Proof.
  intro H. cbn [all_symptoms map Py.Qsum weight].
  repeat match goal with
         | |- context [inject_Z (sc ?s)] =>
             let x := fresh "x" in
             let L := fresh "L" in
             let U := fresh "U" in
             pose proof (H s) as [L U]; cbv iota in U;
             rewrite Zle_Qle in L; rewrite Zle_Qle in U;
             change (inject_Z 0) with 0 in L, U;
             change (inject_Z 2) with 2 in U;
             change (inject_Z 3) with 3 in U;
             generalize dependent (inject_Z (sc s)); intros x; intros
         end.
  lra.
Qed.

(** X25.  The total of the medical-grade scorer never exceeds 20 of the
    27 points of its scale: the appetite item is always 0 and four other
    items stop at 2, so the severe tier is reached only at a total of
    exactly 20. *)
Theorem medical_total_at_most_20 hist e a eye g :
  let p := _calculate_phq9_scores hist e a eye g in
  (0 <= total p <= 20)%Z
  /\ scores p appetite_changes = 0%Z
  /\ (severity p = "severe" <-> total p = 20%Z).
Proof.
  cbv zeta.
  assert (A : scores (_calculate_phq9_scores hist e a eye g) appetite_changes = 0%Z).
  { unfold _calculate_phq9_scores. destruct (_determine_severity _). reflexivity. }
  assert (T : (total (_calculate_phq9_scores hist e a eye g) <= 20)%Z).
  { unfold _calculate_phq9_scores.
    destruct (_determine_severity _) as [sv rl]. cbn [total].
    pose proof (weighted_total_cap (symptom_scores hist e a eye g)
                  (symptom_scores_caps hist e a eye g)) as W.
    pose proof (weighted_ratio_bounds (symptom_scores hist e a eye g)
                  (symptom_scores_bounds hist e a eye g)) as R. cbv zeta in R.
    set (wt := Py.Qsum (map (fun s => inject_Z (symptom_scores hist e a eye g s) * weight s)
                            all_symptoms)) in *.
    assert (M : Py.Qsum (map (fun s => 3 * weight s) all_symptoms) == 29.1)
      by (vm_compute; reflexivity).
    set (mw := Py.Qsum (map (fun s => 3 * weight s) all_symptoms)) in *.
    assert (X : wt / mw * 27 < 21).
    { rewrite M. setoid_replace (wt / 29.1 * 27) with (wt * (270 # 291)) by field. lra. }
    unfold py_int. destruct R as [R0 _].
    assert (E : Qle_bool 0 (wt / mw * 27) = true) by (apply Qle_bool_iff; exact R0).
    rewrite E.
    pose proof (Qfloor_le (wt / mw * 27)) as F.
    assert (G : inject_Z (Qfloor (wt / mw * 27)) < inject_Z 21) by (change (inject_Z 21) with 21; lra).
    rewrite <- Zlt_Qlt in G. lia. }
  pose proof (total_bounds hist e a eye g) as B.
  pose proof (severity_is_band hist e a eye g) as S. cbv zeta in S.
  split; [lia|]. split.
  - exact A.
  - pose proof (determine_severity_severe _ B) as D. rewrite <- S in D. cbn [fst] in D.
    rewrite D. lia.
Qed.

(** X26.  Negative micro-expressions under a happy or neutral face do
    not by themselves make the medical-grade assessor report concealed
    depression: while the genuineness analysis calls the expression
    genuine with a fake probability of at most 0.3, the score stays below
    0.5, nothing is detected and the risk is low. *)
Theorem concealed_needs_genuineness_evidence
        (e : EmotionResult) (micro : list MicroExpression) (g : GenuinenessResult) :
  Py.get (is_genuine g) true = true ->
  0 <= Py.get (fake_probability g) 0 <= 0.3 ->
  let c := _detect_concealed_depression e micro g in
  detected c = false /\ risk c = "low" /\ 0 <= inconsistency_score c < 0.5.
Proof.
  intros G [F0 F]. cbv zeta. unfold _detect_concealed_depression.
  cbv zeta. cbn [detected risk inconsistency_score]. rewrite G. cbn [negb].
  set (s := (if _ && _ then 0.0 + 0.4 else 0.0) + _ * 0.3).
  assert (R : 0 <= s < 0.5).
  { unfold s. case_guards; lra. }
  assert (D : Py.Qgeb s 0.5 = false).
  { unfold Py.Qgeb. destruct (Qle_bool 0.5 s) eqn:L; [|reflexivity].
    apply Qle_bool_iff in L. lra. }
  assert (D' : Py.Qgeb s 0.7 = false).
  { unfold Py.Qgeb. destruct (Qle_bool 0.7 s) eqn:L; [|reflexivity].
    apply Qle_bool_iff in L. lra. }
  rewrite D, D'. repeat split; apply R.
Qed.

End MedicalScorerMore.

Lemma concealed_needs_genuineness_evidence_witness :
  MedicalGradeClinicalAssessor.detected
    (MedicalGradeClinicalAssessor._detect_concealed_depression
       (MedicalGradeClinicalAssessor.mkEmotionResult (Some "happiness") (Some 0.9))
       [MedicalGradeClinicalAssessor.mkMicroExpression (Some "sadness")]
       Scenarios.no_genuineness) = false.
Proof.
  refine (proj1 (concealed_needs_genuineness_evidence _ _ Scenarios.no_genuineness _ _)).
  - reflexivity.
  - vm_compute. split; intro H; discriminate H.
Defined.

Section PHQ9AssessorMore.
Import PHQ9Assessor PHQ9Session.

Lemma update_history_bound (st : State) (u : Update) :
  (length (emotion_history st) <= observation_window st)%nat ->
  (length (emotion_history (step st u)) <= observation_window (step st u))%nat.
Proof.
  intro H. unfold step, update. cbn [emotion_history observation_window].
  destruct (emotion_data u) as [[e c]|]; [|exact H].
  rewrite deque_append_length. lia.
Qed.

Lemma run_history_bound (updates : list Update) :
  forall st, (length (emotion_history st) <= observation_window st)%nat ->
  (length (emotion_history (run st updates)) <= observation_window (run st updates))%nat.
Proof.
  induction updates as [|u r IH]; intros st H; [exact H|].
  cbn [run fold_left]. apply IH. apply update_history_bound. exact H.
Qed.

Lemma run_window (updates : list Update) :
  forall st, observation_window (run st updates) = observation_window st.
Proof.
  induction updates as [|u r IH]; intro st; [reflexivity|].
  cbn [run fold_left]. fold (run (step st u) r). rewrite IH. reflexivity.
Qed.

(** X27.  An assessor built with an observation window shorter than 300
    frames never produces an assessment: whatever it is fed, [assess]
    answers that the data is insufficient. *)
Theorem short_window_never_assesses (window : nat) (updates : list Update) :
  (window < 300)%nat ->
  let st := run (init window) updates in
  assess st = Some (insufficient_data, st).
Proof.
  intros W st.
  pose proof (run_history_bound updates (init window) (Nat.le_0_l _)) as B.
  rewrite run_window in B. cbn [init observation_window] in B. fold st in B.
  unfold assess.
  assert (E : (length (emotion_history st) <? 300)%nat = true) by (apply Nat.ltb_lt; lia).
  rewrite E. reflexivity.
Qed.

Lemma item_range_3 (b1 b2 b3 : bool) :
  (0 <= (if b1 then 3 else if b2 then 2 else if b3 then 1 else 0) <= 3)%Z.
Proof. destruct b1, b2, b3; lia. Qed.

(** X28.  An assessment of the PHQ-9 assessor has a total between 0 and
    22: item 5 is always 0 and item 9 at most 1.  Its severity is the
    band of the total, and the crisis hotline number is among the
    recommendations exactly when the total is 20 or more. *)
Theorem phq9_assessment_ranges (st : State) :
  match assess st with
  | Some (assessed a, _) =>
      (0 <= phq9_total_score a <= 22)%Z
      /\ PHQ5 (phq9_items a) = 0%Z
      /\ phq9_severity a = _classify_severity (phq9_total_score a)
      /\ (In rec_severe_hotline_number (clinical_recommendation a)
          <-> (20 <= phq9_total_score a)%Z)
  | _ => True
  end.
Proof.
  unfold assess.
  destruct (length (emotion_history st) <? 300)%nat; [exact I|].
  destruct (_assess_anhedonia st) as [i1|] eqn:E1; [|exact I].
  destruct (_assess_depressed_mood st) as [i2|] eqn:E2; [|exact I].
  destruct (_assess_suicidal_ideation st) as [i9|] eqn:E9; [|exact I].
  cbn [phq9_total_score phq9_items phq9_severity clinical_recommendation PHQ5].
  assert (B1 : (0 <= i1 <= 3)%Z).
  { unfold _assess_anhedonia in E1. destruct (per_emotion_frame st _); [|discriminate].
    injection E1 as <-. apply item_range_3. }
  assert (B2 : (0 <= i2 <= 3)%Z).
  { unfold _assess_depressed_mood in E2.
    destruct (per_emotion_frame st _); [|discriminate].
    destruct (per_emotion_frame st _); [|discriminate].
    injection E2 as <-. apply item_range_3. }
  assert (B9 : (0 <= i9 <= 1)%Z).
  { unfold _assess_suicidal_ideation in E9.
    destruct (per_emotion_frame st _); [|discriminate].
    injection E9 as <-. destruct (Py.Qgtb _ _); lia. }
  assert (B3 : (0 <= _assess_sleep_problems st <= 3)%Z).
  { unfold _assess_sleep_problems. destruct (eye_history st); [lia | apply item_range_3]. }
  assert (B4 : (0 <= _assess_fatigue st <= 3)%Z) by apply item_range_3.
  assert (B6 : (0 <= _assess_guilt st <= 3)%Z) by apply item_range_3.
  assert (B7 : (0 <= _assess_concentration st <= 3)%Z).
  { unfold _assess_concentration. destruct (eye_history st); [lia | apply item_range_3]. }
  assert (B8 : (0 <= _assess_psychomotor st <= 3)%Z) by apply item_range_3.
  unfold items_sum, _assess_appetite_change.
  cbn [PHQ1 PHQ2 PHQ3 PHQ4 PHQ5 PHQ6 PHQ7 PHQ8 PHQ9].
  set (t := (i1 + i2 + _ + _ + 0 + _ + _ + _ + i9)%Z).
  assert (T : (0 <= t <= 22)%Z) by (unfold t; lia).
  clearbody t.
  split; [exact T|]. split; [reflexivity|]. split; [reflexivity|].
  unfold _generate_clinical_recommendation, _classify_severity.
  rewrite !in_app_iff.
  destruct (t <=? 4)%Z eqn:C4; [apply Z.leb_le in C4|apply Z.leb_gt in C4].
  { cbn. split; [|lia]. intros [H | [H | [H | H]]];
      repeat (destruct H as [H | H]; [discriminate H|]); try contradiction;
      revert H; case_guards; cbn; intro H;
      repeat (destruct H as [H | H]; [discriminate H|]); contradiction. }
  destruct (t <=? 9)%Z eqn:C9; [apply Z.leb_le in C9|apply Z.leb_gt in C9].
  { cbn. split; [|lia]. intros [H | [H | [H | H]]];
      repeat (destruct H as [H | H]; [discriminate H|]); try contradiction;
      revert H; case_guards; cbn; intro H;
      repeat (destruct H as [H | H]; [discriminate H|]); contradiction. }
  destruct (t <=? 14)%Z eqn:C14; [apply Z.leb_le in C14|apply Z.leb_gt in C14].
  { cbn. split; [|lia]. intros [H | [H | [H | H]]];
      repeat (destruct H as [H | H]; [discriminate H|]); try contradiction;
      revert H; case_guards; cbn; intro H;
      repeat (destruct H as [H | H]; [discriminate H|]); contradiction. }
  destruct (t <=? 19)%Z eqn:C19; [apply Z.leb_le in C19|apply Z.leb_gt in C19].
  { cbn. split; [|lia]. intros [H | [H | [H | H]]];
      repeat (destruct H as [H | H]; [discriminate H|]); try contradiction;
      revert H; case_guards; cbn; intro H;
      repeat (destruct H as [H | H]; [discriminate H|]); contradiction. }
  cbn. split; [lia|]. intros _. left. tauto.
Qed.

End PHQ9AssessorMore.

Lemma short_window_never_assesses_witness :
  PHQ9Assessor.assess
    (PHQ9Session.run (PHQ9Assessor.init 100)
       [PHQ9Session.mkUpdate 0 (Some (Some "sad", Some 0.9)) None None None])
  = Some (PHQ9Assessor.insufficient_data,
          PHQ9Session.run (PHQ9Assessor.init 100)
            [PHQ9Session.mkUpdate 0 (Some (Some "sad", Some 0.9)) None None None]).
Proof.
  apply (short_window_never_assesses 100
           [PHQ9Session.mkUpdate 0 (Some (Some "sad", Some 0.9)) None None None]).
  lia.
Defined.

Lemma medical_total_at_most_20_witness :
  (0 <= MedicalGradeClinicalAssessor.total
          (MedicalGradeClinicalAssessor._calculate_phq9_scores
             [Scenarios.sad_frame] Scenarios.sad_frame Scenarios.no_aus
             Scenarios.no_eye Scenarios.no_genuineness) <= 20)%Z.
Proof.
  exact (proj1 (medical_total_at_most_20 [Scenarios.sad_frame] Scenarios.sad_frame
                  Scenarios.no_aus Scenarios.no_eye Scenarios.no_genuineness)).
Defined.

Lemma phq9_assessment_ranges_witness :
  match PHQ9Assessor.assess Scenarios.all_extreme_sad with
  | Some (PHQ9Assessor.assessed a, _) =>
      (0 <= PHQ9Assessor.phq9_total_score a <= 22)%Z
      /\ PHQ9Assessor.PHQ5 (PHQ9Assessor.phq9_items a) = 0%Z
      /\ PHQ9Assessor.phq9_severity a
         = PHQ9Assessor._classify_severity (PHQ9Assessor.phq9_total_score a)
      /\ (In PHQ9Assessor.rec_severe_hotline_number (PHQ9Assessor.clinical_recommendation a)
          <-> (20 <= PHQ9Assessor.phq9_total_score a)%Z)
  | _ => True
  end.
Proof.
  exact (phq9_assessment_ranges Scenarios.all_extreme_sad).
Defined.

(** ** Segments and flat sessions in the temporal analyser *)

Section TemporalMore.
Import TemporalFeatureAnalyzer.

Lemma segments_from_spec (l : list EmotionRecord) :
  forall (cur : Segment) (x : EmotionRecord),
  emotion x = seg_emotion cur ->
  (1 <= seg_duration cur)%nat ->
  list_sum (map seg_duration (segments_from cur l)) = (seg_duration cur + length l)%nat
  /\ length (segments_from cur l) = S (changes (x :: l))
  /\ Forall (fun s => (1 <= seg_duration s)%nat) (segments_from cur l).
Proof.
  induction l as [|r rest IH]; intros cur x Hx Hd.
  - cbn [segments_from map list_sum fold_right length changes].
    split; [lia|]. split; [reflexivity|]. constructor; [exact Hd | constructor].
  - cbn [segments_from changes]. rewrite Hx.
    destruct (String.eqb (emotion r) (seg_emotion cur)) eqn:E.
    + apply String.eqb_eq in E.
      destruct (IH (mkSegment (seg_emotion cur) (S (seg_duration cur))
                              (start_time cur) (timestamp r)) r) as (A & B & C).
      * cbn. exact E.
      * cbn. lia.
      * cbn [seg_duration] in A. cbn [length].
        split; [lia|]. split; [|exact C].
        rewrite B. reflexivity.
    + destruct (IH (mkSegment (emotion r) 1 (timestamp r) (timestamp r)) r) as (A & B & C).
      * reflexivity.
      * cbn. lia.
      * cbn [seg_duration] in A. unfold list_sum in A |- *. cbn [map fold_right length].
        split; [lia|]. split; [|constructor; assumption].
        rewrite B. reflexivity.
Qed.

Lemma Qsum_of_nats (l : list nat) :
  Py.Qsum (map (fun n => inject_Z (Z.of_nat n)) l) == inject_Z (Z.of_nat (list_sum l)).
Proof.
  induction l as [|n r IH]; [reflexivity|].
  cbn [map Py.Qsum]. change (list_sum (n :: r)) with (n + list_sum r)%nat.
  rewrite IH, Nat2Z.inj_add, inject_Z_plus. reflexivity.
Qed.

(** X29.  The segments the temporal analyser cuts a history of at least
    two frames into cover it exactly: there is one more segment than
    there are emotion changes, every segment holds at least one frame,
    the durations add up to the length of the history, and the average
    duration is that length divided by the number of segments. *)
Theorem segments_cover_history (st : State) :
  (2 <= length (emotion_history st))%nat ->
  let d := _calculate_duration_stats st in
  length (stat_segments d) = S (changes (emotion_history st))
  /\ Forall (fun s => (1 <= seg_duration s)%nat) (stat_segments d)
  /\ list_sum (map seg_duration (stat_segments d)) = length (emotion_history st)
  /\ avg_duration d
     == Py.Qlen (emotion_history st) / Py.Qlen (stat_segments d).
Proof.
  intros L. cbv zeta. unfold _calculate_duration_stats.
  assert (E : (length (emotion_history st) <? 2)%nat = false) by (apply Nat.ltb_ge; exact L).
  rewrite E. cbn [stat_segments avg_duration].
  destruct (emotion_history st) as [|x l] eqn:H; [cbn in L; lia|].
  cbn [segments].
  destruct (segments_from_spec l (mkSegment (emotion x) 1 (timestamp x) (timestamp x)) x
              eq_refl (le_n 1)) as (A & B & C).
  cbn [seg_duration] in A.
  set (segs := segments_from _ l) in *.
  split; [exact B|]. split; [exact C|]. split; [cbn [length]; lia|].
  unfold mean_duration. destruct segs as [|s0 segs'] eqn:Hs; [cbn in B; lia|].
  rewrite <- Hs in *. unfold Py.mean.
  rewrite <- (map_map seg_duration (fun n => inject_Z (Z.of_nat n))).
  rewrite Qsum_of_nats, A. unfold Py.Qlen. rewrite !length_map. cbn [length].
  replace (1 + length l)%nat with (S (length l)) by lia. reflexivity.
Qed.

Lemma changes_flat (e : string) (l : list EmotionRecord) :
  Forall (fun r => emotion r = e) l -> changes l = O.
Proof.
  induction 1 as [|x l Hx Hl IH]; [reflexivity|].
  destruct l as [|y r]; [reflexivity|].
  change (changes (x :: y :: r))
    with ((if String.eqb (emotion y) (emotion x) then 0 else 1) + changes (y :: r))%nat.
  pose proof (Forall_inv Hl) as Hy. cbn beta in Hy.
  rewrite Hx, Hy, String.eqb_refl, IH. reflexivity.
Qed.

Lemma segments_from_flat (l : list EmotionRecord) :
  forall cur : Segment,
  Forall (fun r => emotion r = seg_emotion cur) l ->
  exists t, segments_from cur l
            = [mkSegment (seg_emotion cur) (seg_duration cur + length l) (start_time cur) t].
Proof.
  induction l as [|r rest IH]; intros cur F.
  - exists (end_time cur). cbn. rewrite Nat.add_0_r. destruct cur; reflexivity.
  - pose proof (Forall_inv F) as Hr. pose proof (Forall_inv_tail F) as Hrest.
    cbn beta in Hr. cbn [segments_from].
    rewrite Hr, String.eqb_refl.
    destruct (IH (mkSegment (seg_emotion cur) (S (seg_duration cur))
                            (start_time cur) (timestamp r)) Hrest) as [t Ht].
    exists t. rewrite Ht. cbn [seg_emotion seg_duration start_time length].
    f_equal. f_equal. lia.
Qed.

Lemma Qsum_repeat (c : Q) (n : nat) :
  Py.Qsum (repeat c n) == inject_Z (Z.of_nat n) * c.
Proof.
  induction n as [|n IH]; [cbn; ring|].
  cbn [repeat Py.Qsum]. rewrite IH, Nat2Z.inj_succ, <- Z.add_1_l, inject_Z_plus. ring.
Qed.

Lemma Qlen_repeat {A : Type} (c : A) (n : nat) : Py.Qlen (repeat c n) = inject_Z (Z.of_nat n).
Proof. unfold Py.Qlen. rewrite repeat_length. reflexivity. Qed.

Lemma nat_pos_Q (n : nat) : (0 < n)%nat -> 0 < inject_Z (Z.of_nat n).
Proof. intro H. change 0 with (inject_Z 0). rewrite <- Zlt_Qlt. lia. Qed.

Lemma mean_repeat (c : Q) (n : nat) : (0 < n)%nat -> Py.mean (repeat c n) == c.
Proof.
  intro H. unfold Py.mean. rewrite Qsum_repeat, Qlen_repeat.
  pose proof (nat_pos_Q n H). field. lra.
Qed.

Lemma variance_repeat (c : Q) (n : nat) : (0 < n)%nat -> variance (repeat c n) == 0.
Proof.
  intro H. unfold variance.
  assert (M : map (fun x => (x - Py.mean (repeat c n)) * (x - Py.mean (repeat c n)))
                  (repeat c n)
              = repeat ((c - Py.mean (repeat c n)) * (c - Py.mean (repeat c n))) n).
  { generalize (Py.mean (repeat c n)). intro m.
    clear H. induction n as [|n IH]; [reflexivity|]. cbn [repeat map]. rewrite IH. reflexivity. }
  rewrite M. unfold Py.mean at 1. rewrite Qsum_repeat, Qlen_repeat, (mean_repeat c n H).
  pose proof (nat_pos_Q n H). field. lra.
Qed.

Lemma indexed_from_repeat (c : Q) (n : nat) :
  forall i : Z,
  map snd (indexed_from i (repeat c n)) = repeat c n
  /\ Py.Qsum (map (fun p => fst p * snd p) (indexed_from i (repeat c n)))
     == c * Py.Qsum (map fst (indexed_from i (repeat c n))).
Proof.
  induction n as [|n IH]; intro i; [split; [reflexivity | cbn; ring]|].
  destruct (IH (i + 1)%Z) as [A B].
  cbn [repeat indexed_from map Py.Qsum fst snd]. split.
  - rewrite A. reflexivity.
  - rewrite B. ring.
Qed.

Lemma polyfit_slope_repeat (c : Q) (n : nat) : polyfit_slope (repeat c n) == 0.
Proof.
  unfold polyfit_slope.
  destruct (indexed_from_repeat c n 0) as [A B].
  rewrite A, B, Qsum_repeat, Qlen_repeat.
  set (sx := Py.Qsum (map fst _)). set (d := _ - sx * sx).
  setoid_replace (inject_Z (Z.of_nat n) * (c * sx) - sx * (inject_Z (Z.of_nat n) * c))
    with 0 by ring.
  unfold Qdiv. ring.
Qed.

Lemma polarities_flat (e : string) (l : list EmotionRecord) :
  Forall (fun r => emotion r = e) l ->
  map (fun r => emotion_polarity (emotion r)) l = repeat (emotion_polarity e) (length l).
Proof.
  induction 1 as [|x l Hx _ IH]; [reflexivity|].
  cbn [map length repeat]. rewrite Hx, IH. reflexivity.
Qed.

Lemma trend_flat (st : State) (e : string) (window : nat) :
  Forall (fun r => emotion r = e) (emotion_history st) ->
  _calculate_trend st window == 0.
Proof.
  intro F. unfold _calculate_trend.
  destruct (_ <? 2)%nat; [reflexivity|].
  rewrite (polarities_flat e); [apply polyfit_slope_repeat|].
  apply lastn_Forall. exact F.
Qed.

Lemma flat_duration_stats (st : State) (e : string) :
  Forall (fun r => emotion r = e) (emotion_history st) ->
  (2 <= length (emotion_history st))%nat ->
  exists t0 t,
    let s := mkSegment e (length (emotion_history st)) t0 t in
    _calculate_duration_stats st
    = mkDurationStats
        (mean_duration [s])
        (mean_duration (filter (fun s => Py.mem (seg_emotion s) ["happy"; "surprise"]) [s]))
        (mean_duration (filter (fun s => Py.mem (seg_emotion s)
                                                ["sad"; "angry"; "fear"; "disgust"]) [s]))
        [s].
Proof.
  intros F L. unfold _calculate_duration_stats.
  assert (E : (length (emotion_history st) <? 2)%nat = false) by (apply Nat.ltb_ge; exact L).
  rewrite E. destruct (emotion_history st) as [|x l]; [cbn in L; lia|].
  pose proof (Forall_inv F) as Hx. cbn beta in Hx.
  pose proof (Forall_inv_tail F) as Hl.
  cbn [segments].
  destruct (segments_from_flat l (mkSegment (emotion x) 1 (timestamp x) (timestamp x)))
    as [t Ht].
  { cbn [seg_emotion]. rewrite Hx. exact Hl. }
  rewrite Ht. cbn [seg_emotion seg_duration start_time]. rewrite Hx.
  exists (timestamp x), t. reflexivity.
Qed.

Lemma mean_duration_one (s : Segment) :
  mean_duration [s] == inject_Z (Z.of_nat (seg_duration s)).
Proof.
  unfold mean_duration, Py.mean, Py.Qlen. cbn [map Py.Qsum length].
  change (inject_Z (Z.of_nat 1)) with 1. field.
Qed.

(** The features of a session whose frames all carry the same emotion. *)
Lemma flat_session_features (st : State) (e : string) :
  Forall (fun r => emotion r = e) (emotion_history st) ->
  (90 <= length (emotion_history st))%nat ->
  (short_window st <= length (emotion_history st))%nat ->
  exists f, analyze st = analysed f
    /\ f_emotion_change_rate f == 0
    /\ f_positive_duration f
       == (if Py.mem e ["happy"; "surprise"] then Py.Qlen (emotion_history st) else 0)
    /\ f_negative_duration f
       == (if Py.mem e ["sad"; "angry"; "fear"; "disgust"]
           then Py.Qlen (emotion_history st) else 0)
    /\ emotion_stability f == 1
    /\ long_term_trend f == 0
    /\ f_micro_expression_rate f == 0.
Proof.
  intros F L W. unfold analyze.
  assert (E : (length (emotion_history st) <? short_window st)%nat = false)
    by (apply Nat.ltb_ge; exact W).
  assert (E2 : (length (emotion_history st) <? 2)%nat = false)
    by (apply Nat.ltb_ge; lia).
  rewrite E. eexists. split; [reflexivity|].
  cbn [f_emotion_change_rate f_positive_duration f_negative_duration emotion_stability
       long_term_trend f_micro_expression_rate].
  destruct (flat_duration_stats st e F ltac:(lia)) as (t0 & t & D). cbv zeta in D.
  set (s := mkSegment e (length (emotion_history st)) t0 t) in *.
  split; [|split; [|split; [|split; [|split]]]].
  - unfold _calculate_change_rate. rewrite E2, (changes_flat e _ F).
    change (inject_Z (Z.of_nat 0)) with 0. unfold Qdiv. ring.
  - rewrite D. cbn [positive_duration filter seg_emotion s].
    destruct (Py.mem e ["happy"; "surprise"]); [|reflexivity].
    rewrite mean_duration_one. reflexivity.
  - rewrite D. cbn [negative_duration filter seg_emotion s].
    destruct (Py.mem e ["sad"; "angry"; "fear"; "disgust"]); [|reflexivity].
    rewrite mean_duration_one. reflexivity.
  - unfold _calculate_stability. rewrite E2, (polarities_flat e _ F).
    rewrite variance_repeat by lia. reflexivity.
  - apply (trend_flat st e). exact F.
  - unfold _analyze_micro_expressions. rewrite E2, D. cbn [stat_segments snd filter].
    assert (M : (seg_duration s <? 90)%nat = false) by (apply Nat.ltb_ge; exact L).
    rewrite M. reflexivity.
Qed.

(** X30.  A session of at least 90 frames that all carry the same
    emotion gets a temporal depression score of 55 when the emotion is
    happy or surprise and of 85 for every other label, neutral
    included. *)
Theorem flat_session_score (st : State) (e : string) :
  Forall (fun r => emotion r = e) (emotion_history st) ->
  (90 <= length (emotion_history st))%nat ->
  (short_window st <= length (emotion_history st))%nat ->
  exists i, get_depression_indicators st = indicators i
    /\ temporal_depression_score i
       == (if Py.mem e ["happy"; "surprise"] then 55 else 85)
    /\ low_change_rate i = true
    /\ low_stability i = true
    /\ low_micro_expression i = true
    /\ negative_trend i = false.
Proof.
  intros F L W.
  destruct (flat_session_features st e F L W) as (f & A & C & P & N & S & T & M).
  unfold get_depression_indicators. rewrite A. eexists. split; [reflexivity|].
  cbn [temporal_depression_score low_change_rate low_stability low_micro_expression
       negative_trend].
  set (cr := f_emotion_change_rate f) in *. set (pos := f_positive_duration f) in *.
  set (neg := f_negative_duration f) in *. set (stab := emotion_stability f) in *.
  set (tr := long_term_trend f) in *. set (mr := f_micro_expression_rate f) in *.
  assert (B1 : Py.Qltb cr 0.2 = true) by (apply Qltb_true; lra).
  assert (B2 : Py.Qltb cr 0.1 = true) by (apply Qltb_true; lra).
  assert (B3 : Py.Qgtb stab 0.7 = true) by (apply Qgtb_true; lra).
  assert (B4 : Py.Qgtb stab 0.8 = true) by (apply Qgtb_true; lra).
  assert (B5 : Py.Qltb tr 0 = false) by (apply Qltb_false; lra).
  assert (B6 : Py.Qltb tr (-0.01) = false) by (apply Qltb_false; lra).
  assert (B7 : Py.Qltb mr 0.2 = true) by (apply Qltb_true; lra).
  assert (B8 : Py.Qltb mr 0.1 = true) by (apply Qltb_true; lra).
  rewrite B1, B2, B3, B4, B5, B6, B7, B8.
  split; [|repeat split].
  assert (Len : 0 < Py.Qlen (emotion_history st)).
  { apply Qlen_pos. destruct (emotion_history st); [cbn in L; lia | discriminate]. }
  destruct (Py.mem e ["happy"; "surprise"]) eqn:Pe.
  - assert (Ne : Py.mem e ["sad"; "angry"; "fear"; "disgust"] = false).
    { apply mem_true in Pe. cbn [In] in Pe.
      destruct Pe as [<- | [<- | []]]; reflexivity. }
    rewrite Ne in N.
    assert (G : Py.Qgtb pos 0 = true) by (apply Qgtb_true; lra).
    rewrite G.
    assert (R : neg / pos / 5.0 == 0).
    { rewrite N. unfold Qdiv. ring. }
    destruct (Qmin2_cases (neg / pos / 5.0) 1.0) as [[Q _] | [_ Q]]; [|lra].
    rewrite Q, R, C, S, M. reflexivity.
  - assert (G : Py.Qgtb pos 0 = false) by (apply Qgtb_false; lra).
    rewrite G, C, S, M. reflexivity.
Qed.

End TemporalMore.

Lemma segments_cover_history_witness :
  length (TemporalFeatureAnalyzer.stat_segments
            (TemporalFeatureAnalyzer._calculate_duration_stats Scenarios.twelve_neutral))
  = S (TemporalFeatureAnalyzer.changes
         (TemporalFeatureAnalyzer.emotion_history Scenarios.twelve_neutral)).
Proof.
  refine (proj1 (segments_cover_history Scenarios.twelve_neutral _)).
  apply Nat.leb_le. vm_compute. reflexivity.
Defined.

Lemma flat_session_score_witness :
  exists i,
    TemporalFeatureAnalyzer.get_depression_indicators MoreScenarios.ninety_neutral
    = TemporalFeatureAnalyzer.indicators i
    /\ TemporalFeatureAnalyzer.temporal_depression_score i == 85.
Proof.
  destruct (flat_session_score MoreScenarios.ninety_neutral "neutral") as (i & E & S & _).
  - apply Forall_forall. intros r Hr.
    assert (B : forallb (fun r => String.eqb (TemporalFeatureAnalyzer.emotion r) "neutral")
                  (TemporalFeatureAnalyzer.emotion_history MoreScenarios.ninety_neutral) = true)
      by (vm_compute; reflexivity).
    rewrite forallb_forall in B. apply String.eqb_eq. apply B. exact Hr.
  - apply Nat.leb_le. vm_compute. reflexivity.
  - apply Nat.leb_le. vm_compute. reflexivity.
  - exists i. split; [exact E | exact S].
Defined.
